(** * Verification of the ingestion utilities of data-ingestion-bra

    Shallow embedding of [app/utils/metadata.py], [app/utils/casting.py]
    and [app/utils/validate.py], with the library behaviour they rely on
    (hashlib's MD5 object, Python [str] methods, the pandas column
    operations, a file system of regular files), and of the pipelines
    that call them: [main] and [normalize_columns] of
    [app/ingestao_csv.py], [save_txt], [get_session] and [safe_get] of
    [app/ingestao_api.py].

    Conventions.
    - A Python [bytes] value is a [list byte].
    - A Python [str] is a [string] whose characters are code points
      below 256.
    - A binary64 float is a [spec_float] of the Standard Library, and
      conversions round to nearest, ties to even (precision 53,
      exponent bound 1024).
    - A raised exception is the [Raise] alternative of [result]. *)

From Stdlib Require Import ZArith NArith List Bool Lia.
From Stdlib Require Import Strings.String Strings.Ascii Strings.Byte.
From Stdlib Require Import SpecFloat DecimalString.
From stdpp Require Import base option list gmap strings.
From Equations Require Import Equations.
Import ListNotations.

Local Open Scope string_scope.
Local Open Scope list_scope.
Local Open Scope Z_scope.

(** ** Exceptions and results *)

Inductive exn : Type :=
| SchemaError (msg : string)
| FileNotFoundError (msg : string)
| RuntimeError (msg : string)
| TypeError (msg : string)
| AttributeError (msg : string)
| KeyError (msg : string).

Inductive result (A : Type) : Type :=
| Ok (a : A)
| Raise (e : exn).
Arguments Ok {A} a.
Arguments Raise {A} e.

Definition rbind {A B} (r : result A) (k : A -> result B) : result B :=
  match r with Ok a => k a | Raise e => Raise e end.

(** Keep the equation when a loop matches on a computed value. *)
Definition inspect {A : Type} (x : A) : {y : A | x = y} := exist _ x eq_refl.

(** ** hashlib.md5 (RFC 1321) *)

Module MD5.

Definition w32 (x : Z) : Z := x mod 2 ^ 32.
Definition add32 (x y : Z) : Z := w32 (x + y).
Definition not32 (x : Z) : Z := Z.lxor x 0xffffffff.
Definition rotl32 (x n : Z) : Z :=
  Z.lor (w32 (Z.shiftl x n)) (Z.shiftr x (32 - n)).

Definition words : Type := (Z * Z * Z * Z)%type.

Definition init_words : words :=
  (0x67452301, 0xefcdab89, 0x98badcfe, 0x10325476).

(** T[i] = floor (2^32 * |sin (i + 1)|) *)
Definition T : list Z :=
  [ 0xd76aa478; 0xe8c7b756; 0x242070db; 0xc1bdceee;
    0xf57c0faf; 0x4787c62a; 0xa8304613; 0xfd469501;
    0x698098d8; 0x8b44f7af; 0xffff5bb1; 0x895cd7be;
    0x6b901122; 0xfd987193; 0xa679438e; 0x49b40821;
    0xf61e2562; 0xc040b340; 0x265e5a51; 0xe9b6c7aa;
    0xd62f105d; 0x02441453; 0xd8a1e681; 0xe7d3fbc8;
    0x21e1cde6; 0xc33707d6; 0xf4d50d87; 0x455a14ed;
    0xa9e3e905; 0xfcefa3f8; 0x676f02d9; 0x8d2a4c8a;
    0xfffa3942; 0x8771f681; 0x6d9d6122; 0xfde5380c;
    0xa4beea44; 0x4bdecfa9; 0xf6bb4b60; 0xbebfbc70;
    0x289b7ec6; 0xeaa127fa; 0xd4ef3085; 0x04881d05;
    0xd9d4d039; 0xe6db99e5; 0x1fa27cf8; 0xc4ac5665;
    0xf4292244; 0x432aff97; 0xab9423a7; 0xfc93a039;
    0x655b59c3; 0x8f0ccc92; 0xffeff47d; 0x85845dd1;
    0x6fa87e4f; 0xfe2ce6e0; 0xa3014314; 0x4e0811a1;
    0xf7537e82; 0xbd3af235; 0x2ad7d2bb; 0xeb86d391 ].

(** Per-round shift amounts. *)
Definition shifts : list Z :=
  [ 7; 12; 17; 22; 7; 12; 17; 22; 7; 12; 17; 22; 7; 12; 17; 22;
    5; 9; 14; 20; 5; 9; 14; 20; 5; 9; 14; 20; 5; 9; 14; 20;
    4; 11; 16; 23; 4; 11; 16; 23; 4; 11; 16; 23; 4; 11; 16; 23;
    6; 10; 15; 21; 6; 10; 15; 21; 6; 10; 15; 21; 6; 10; 15; 21 ].

Definition byte_to_Z (b : byte) : Z := Z.of_N (Byte.to_N b).

Definition byte_of_Z (z : Z) : byte :=
  match Byte.of_N (Z.to_N (z mod 256)) with
  | Some b => b
  | None => x00
  end.

(** Little-endian decoding of a block into 32-bit words. *)
Fixpoint le_words (bs : list byte) : list Z :=
  match bs with
  | b0 :: b1 :: b2 :: b3 :: rest =>
      (byte_to_Z b0 + 2 ^ 8 * byte_to_Z b1 + 2 ^ 16 * byte_to_Z b2
       + 2 ^ 24 * byte_to_Z b3) :: le_words rest
  | _ => []
  end.

Definition le_bytes (nbytes : nat) (z : Z) : list byte :=
  map (fun i => byte_of_Z (Z.shiftr z (8 * Z.of_nat i))) (seq 0 nbytes).

Definition round_fun (i : Z) (b c d : Z) : Z * Z :=
  if i <? 16 then (Z.lor (Z.land b c) (Z.land (not32 b) d), i)
  else if i <? 32 then
    (Z.lor (Z.land d b) (Z.land (not32 d) c), (5 * i + 1) mod 16)
  else if i <? 48 then (Z.lxor (Z.lxor b c) d, (3 * i + 5) mod 16)
  else (Z.lxor c (Z.lor b (not32 d)), (7 * i) mod 16).

Definition step (m : list Z) (st : words) (i : nat) : words :=
  let '(a, b, c, d) := st in
  let '(f, g) := round_fun (Z.of_nat i) b c d in
  let f' := add32 (add32 (add32 f a) (nth i T 0)) (nth (Z.to_nat g) m 0) in
  (d, add32 b (rotl32 f' (nth i shifts 0)), b, c).

(** One application of the compression function to a 64-byte block. *)
Definition compress (h : words) (block : list byte) : words :=
  let '(a0, b0, c0, d0) := h in
  let '(a, b, c, d) := fold_left (step (le_words block)) (seq 0 64) h in
  (add32 a0 a, add32 b0 b, add32 c0 c, add32 d0 d).

(** Consume every complete 64-byte block, return the chaining value and
    the bytes left over. *)
Equations? absorb (h : words) (data : list byte) : words * list byte
  by wf (length data) lt :=
  absorb h data with le_lt_dec 64 (length data) => {
    | left _ => absorb (compress h (firstn 64 data)) (skipn 64 data);
    | right _ => (h, data) }.
Proof. rewrite length_skipn. lia. Qed.

(** The hash object: chaining value, pending bytes, bytes seen so far. *)
Record md5_obj : Type := MkMd5 {
  md_h : words;
  md_buf : list byte;
  md_len : Z
}.

Definition md5_new : md5_obj :=
  {| md_h := init_words; md_buf := []; md_len := 0 |}.

Definition update (o : md5_obj) (data : list byte) : md5_obj :=
  let '(h', r) := absorb (md_h o) (md_buf o ++ data) in
  {| md_h := h'; md_buf := r; md_len := md_len o + Z.of_nat (length data) |}.

Definition padding (len : Z) : list byte :=
  x80 :: repeat x00 (Z.to_nat ((55 - len) mod 64))
  ++ le_bytes 8 ((8 * len) mod 2 ^ 64).

Definition digest (o : md5_obj) : list byte :=
  let '(a, b, c, d) := fst (absorb (md_h o) (md_buf o ++ padding (md_len o))) in
  le_bytes 4 a ++ le_bytes 4 b ++ le_bytes 4 c ++ le_bytes 4 d.

Definition hex_digit (n : Z) : ascii :=
  nth (Z.to_nat n)
      (list_ascii_of_string "0123456789abcdef") "0"%char.

Fixpoint hex_of_bytes (bs : list byte) : string :=
  match bs with
  | [] => ""
  | b :: rest =>
      String (hex_digit (byte_to_Z b / 16))
        (String (hex_digit (byte_to_Z b mod 16)) (hex_of_bytes rest))
  end.

Definition hexdigest (o : md5_obj) : string := hex_of_bytes (digest o).

(** The digest of a message as RFC 1321 defines it: pad, then fold the
    compression function over the blocks. *)
Definition md5_rfc (msg : list byte) : list byte :=
  let '(a, b, c, d) :=
    fst (absorb init_words (msg ++ padding (Z.of_nat (length msg)))) in
  le_bytes 4 a ++ le_bytes 4 b ++ le_bytes 4 c ++ le_bytes 4 d.

End MD5.

Definition bytes_of_string (s : string) : list byte := list_byte_of_string s.

(** ** Binary files *)

(** [f.read(n)] on the unread part of a file opened in binary mode: the
    chunk returned and what is left.  A negative [n] reads to the end. *)
Definition read (n : Z) (rest : list byte) : list byte * list byte :=
  if n <? 0 then (rest, [])
  else (firstn (Z.to_nat n) rest, skipn (Z.to_nat n) rest).

Lemma read_shrinks n rest b chunk rest' :
  read n rest = (b :: chunk, rest') -> (length rest' < length rest)%nat.
Proof.
  unfold read. destruct (n <? 0).
  - intros H. injection H as H1 H2. subst. simpl. lia.
  - intros H. injection H as H1 H2. subst. rewrite length_skipn.
    destruct rest as [|x rest]; [by rewrite firstn_nil in H1|].
    destruct (Z.to_nat n); [discriminate|]. simpl. lia.
Qed.

(** [for chunk in iter(lambda: f.read(chunk_size), b""): md5.update(chunk)] *)
Equations? md5_loop (chunk_size : Z) (o : MD5.md5_obj) (rest : list byte)
  : MD5.md5_obj by wf (length rest) lt :=
  md5_loop chunk_size o rest with inspect (read chunk_size rest) => {
    | exist _ ([], _) _ => o;
    | exist _ (b :: chunk, rest') _ =>
        md5_loop chunk_size (MD5.update o (b :: chunk)) rest' }.
Proof. eapply read_shrinks; eauto. Qed.

(** [for _ in f: count += 1] reads with [readline]: a line ends with the
    first newline byte, or at the end of the file. *)
Fixpoint readline (rest : list byte) : list byte * list byte :=
  match rest with
  | [] => ([], [])
  | b :: rest' =>
      if Byte.eqb b x0a then ([b], rest')
      else let '(line, rest'') := readline rest' in (b :: line, rest'')
  end.

Lemma readline_shrinks rest b line rest' :
  readline rest = (b :: line, rest') -> (length rest' < length rest)%nat.
Proof.
  revert b line rest'. induction rest as [|x rest IH]; intros b line rest'.
  - discriminate.
  - simpl. destruct (Byte.eqb x x0a).
    + intros H. injection H as H1 H2 H3. subst. simpl. lia.
    + destruct (readline rest) as [l r] eqn:E.
      intros H. injection H as H1 H2 H3. subst.
      destruct line as [|y l].
      * destruct rest as [|z rest]; simpl in E.
        -- injection E as E. subst. simpl. lia.
        -- destruct (Byte.eqb z x0a); [discriminate|].
           destruct (readline rest); discriminate.
      * specialize (IH _ _ _ eq_refl). simpl. lia.
Qed.

Equations? count_loop (count : Z) (rest : list byte) : Z
  by wf (length rest) lt :=
  count_loop count rest with inspect (readline rest) => {
    | exist _ ([], _) _ => count;
    | exist _ (b :: line, rest') _ => count_loop (count + 1) rest' }.
Proof. eapply readline_shrinks; eauto. Qed.

(** The file system: regular files by path. *)
Abbreviation filesystem := (gmap string (list byte)).

Definition py_exists (fs : filesystem) (path : string) : bool :=
  bool_decide (is_Some (fs !! path)).

Definition getsize (data : list byte) : Z := Z.of_nat (length data).

(** ** Python [str] methods *)

(** [str.isspace] on one code point below 256. *)
Definition is_space (c : ascii) : bool :=
  let n := N_of_ascii c in
  ((9 <=? n) && (n <=? 13) || (28 <=? n) && (n <=? 32)
   || (n =? 133) || (n =? 160))%N.

Fixpoint lstrip_with (p : ascii -> bool) (s : string) : string :=
  match s with
  | EmptyString => EmptyString
  | String c r => if p c then lstrip_with p r else s
  end.

Fixpoint rstrip_with (p : ascii -> bool) (s : string) : string :=
  match s with
  | EmptyString => EmptyString
  | String c r =>
      match rstrip_with p r with
      | EmptyString => if p c then EmptyString else String c EmptyString
      | r' => String c r'
      end
  end.

Definition strip_with (p : ascii -> bool) (s : string) : string :=
  rstrip_with p (lstrip_with p s).

(** [s.strip()] *)
Definition strip (s : string) : string := strip_with is_space s.

Definition mem_char (chars : string) (c : ascii) : bool :=
  existsb (Ascii.eqb c) (list_ascii_of_string chars).

(** [s.strip(chars)] *)
Definition strip_chars (chars : string) (s : string) : string :=
  strip_with (mem_char chars) s.

(** [s.replace(old, new)]: the occurrences of [old] are found left to
    right and do not overlap; [skip] counts the characters of the current
    occurrence still to be dropped. *)
Fixpoint replace_from (old new : string) (skip : nat) (s : string) : string :=
  match s with
  | EmptyString => EmptyString
  | String c r =>
      match skip with
      | S k => replace_from old new k r
      | O =>
          if String.prefix old s
          then new +:+ replace_from old new (String.length old - 1) r
          else String c (replace_from old new 0 r)
      end
  end.

Fixpoint intersperse_str (new : string) (s : string) : string :=
  match s with
  | EmptyString => EmptyString
  | String c r => String c (new +:+ intersperse_str new r)
  end.

Definition str_replace (old new : string) (s : string) : string :=
  match old with
  | EmptyString => new +:+ intersperse_str new s
  | _ => replace_from old new 0 s
  end.

(** [s.split(sep)] for a non-empty [sep]: the first piece and the ones
    that follow. *)
Fixpoint split_from (sep : string) (skip : nat) (s : string)
  : string * list string :=
  match s with
  | EmptyString => (EmptyString, [])
  | String c r =>
      match skip with
      | S k => split_from sep k r
      | O =>
          if String.prefix sep s
          then let '(p, ps) := split_from sep (String.length sep - 1) r in
               (EmptyString, p :: ps)
          else let '(p, ps) := split_from sep 0 r in (String c p, ps)
      end
  end.

Definition str_split (sep : string) (s : string) : list string :=
  let '(p, ps) := split_from sep 0 s in p :: ps.

(** [sep.join(parts)] *)
Definition join (sep : string) (parts : list string) : string :=
  String.concat sep parts.

(** [str(n)] for an int. *)
Definition str_of_Z (z : Z) : string := NilZero.string_of_int (Z.to_int z).

Definition hex2 (n : N) : string :=
  String (MD5.hex_digit (Z.of_N (n / 16)))
    (String (MD5.hex_digit (Z.of_N (n mod 16))) EmptyString).

Definition backslash : ascii := "\"%char.
Definition squote : ascii := "'"%char.
Definition dquote : ascii := "034"%char.

(** Code points below 256 that [repr] writes as they are. *)
Definition is_printable (c : ascii) : bool :=
  let n := N_of_ascii c in
  ((32 <=? n) && (n <? 127) || (161 <=? n) && negb (n =? 173))%N.

Definition repr_char (quote : ascii) (c : ascii) : string :=
  if Ascii.eqb c backslash || Ascii.eqb c quote
  then String backslash (String c EmptyString)
  else if Ascii.eqb c "009"%char then String backslash "t"
  else if Ascii.eqb c "010"%char then String backslash "n"
  else if Ascii.eqb c "013"%char then String backslash "r"
  else if is_printable c then String c EmptyString
  else String backslash (String "x"%char (hex2 (N_of_ascii c))).

Fixpoint repr_body (quote : ascii) (s : string) : string :=
  match s with
  | EmptyString => EmptyString
  | String c r => repr_char quote c +:+ repr_body quote r
  end.

(** [repr(s)] for a str: single quotes, unless the text has a single
    quote and no double quote. *)
Definition py_repr (s : string) : string :=
  let quote :=
    if mem_char s squote && negb (mem_char s dquote) then dquote else squote in
  String quote (repr_body quote s +:+ String quote EmptyString).

(** [repr(l)] for a list of str, also what an f-string writes for it. *)
Definition py_repr_list (l : list string) : string :=
  "[" +:+ join ", " (map py_repr l) +:+ "]".

(** ** Regular expressions, as far as [re.sub] is used here *)

Inductive regex : Type :=
| Bol                         (* ^ *)
| Eol                         (* $ *)
| Chr (c : ascii)
| Cat (r1 r2 : regex)
| Alt (r1 r2 : regex).

Fixpoint drop_str (n : nat) (s : string) : string :=
  match n, s with
  | S k, String _ r => drop_str k r
  | _, _ => s
  end.

(** [$] matches at the end of the text and before a final newline. *)
Definition at_eol (s : string) : bool :=
  match s with
  | EmptyString => true
  | String c EmptyString => Ascii.eqb c "010"%char
  | _ => false
  end.

(** The lengths of the matches of [r] that start at position [pos],
    where [s] is the text from [pos] on, in the order in which the
    backtracking matcher finds them. *)
Fixpoint match_lengths (r : regex) (pos : nat) (s : string) : list nat :=
  match r with
  | Bol => if Nat.eqb pos 0 then [O] else []
  | Eol => if at_eol s then [O] else []
  | Chr c =>
      match s with
      | String c' _ => if Ascii.eqb c c' then [1%nat] else []
      | EmptyString => []
      end
  | Cat r1 r2 =>
      flat_map
        (fun n => map (Nat.add n) (match_lengths r2 (pos + n) (drop_str n s)))
        (match_lengths r1 pos s)
  | Alt r1 r2 => match_lengths r1 pos s ++ match_lengths r2 pos s
  end.

(** [re.sub(r, repl, s)] scanning from position [pos]; [skip] counts the
    characters of the current match still to be dropped. *)
Fixpoint sub_from (r : regex) (repl : string) (skip pos : nat) (s : string)
  : string :=
  match s with
  | EmptyString =>
      match skip, match_lengths r pos EmptyString with
      | O, _ :: _ => repl
      | _, _ => EmptyString
      end
  | String c rest =>
      match skip with
      | S k => sub_from r repl k (S pos) rest
      | O =>
          match match_lengths r pos s with
          | [] => String c (sub_from r repl 0 (S pos) rest)
          | O :: _ => repl +:+ String c (sub_from r repl 0 (S pos) rest)
          | S n :: _ => repl +:+ sub_from r repl n (S pos) rest
          end
      end
  end.

Definition re_sub (r : regex) (repl : string) (s : string) : string :=
  sub_from r repl 0 0 s.

(** The pattern [^"|"$] of [to_str]. *)
Definition quote_pattern : regex :=
  Alt (Cat Bol (Chr dquote)) (Cat (Chr dquote) Eol).

(** ** Numbers: binary64 and the numeric parser of [pd.to_numeric] *)

Definition float64 : Type := spec_float.

Definition INT64_MIN : Z := - 2 ^ 63.
Definition INT64_MAX : Z := 2 ^ 63 - 1.
Definition UINT64_MAX : Z := 2 ^ 64 - 1.

Definition in_int64 (z : Z) : bool := (INT64_MIN <=? z) && (z <=? INT64_MAX).

(** Conversion of an integer to the nearest binary64. *)
Definition float_of_Z (z : Z) : float64 := binary_normalize 53 1024 z 0 false.

(** The binary64 nearest to [(-1)^neg * m * 10^e], for [0 <= m]. *)
Definition dec_to_float (neg : bool) (m e : Z) : float64 :=
  match m with
  | Zpos pm =>
      if 0 <=? e
      then binary_normalize 53 1024 (if neg then - (m * 10 ^ e) else m * 10 ^ e)
             0 false
      else SFdiv 53 1024 (S754_finite neg pm 0)
             (S754_finite false (Z.to_pos (10 ^ (- e))) 0)
  | _ => S754_zero neg
  end.

(** The integer a float is equal to, when there is one. *)
Definition float_integral (f : float64) : option Z :=
  match f with
  | S754_zero _ => Some 0
  | S754_finite sg m e =>
      let z :=
        if 0 <=? e then Some (Zpos m * 2 ^ e)
        else if Zpos m mod 2 ^ (- e) =? 0 then Some (Zpos m / 2 ^ (- e))
        else None in
      option_map (fun v => if sg then - v else v) z
  | _ => None
  end.

Definition is_nan (f : float64) : bool :=
  match f with S754_nan => true | _ => false end.

Definition is_digit (c : ascii) : bool :=
  let n := N_of_ascii c in ((48 <=? n) && (n <=? 57))%N.

Definition digit_val (c : ascii) : Z := Z.of_N (N_of_ascii c) - 48.

(** The whitespace of the C locale, which the tokenizer skips. *)
Definition is_c_space (c : ascii) : bool :=
  let n := N_of_ascii c in ((9 <=? n) && (n <=? 13) || (n =? 32))%N.

(** Leading decimal digits: their value on top of [acc], how many there
    are on top of [count], and the text that follows. *)
Fixpoint take_digits (acc count : Z) (s : string) : Z * Z * string :=
  match s with
  | String c r =>
      if is_digit c then take_digits (10 * acc + digit_val c) (count + 1) r
      else (acc, count, s)
  | EmptyString => (acc, count, s)
  end.

Definition take_sign (s : string) : bool * string :=
  match s with
  | String c r =>
      if Ascii.eqb c "-"%char then (true, r)
      else if Ascii.eqb c "+"%char then (false, r)
      else (false, s)
  | EmptyString => (false, s)
  end.

Inductive number : Type :=
| NInt (z : Z)
| NFloat (f : float64).

(** A decimal literal: optional blanks, sign, digits with an optional
    point, optional exponent, optional blanks.  Digits only make an int. *)
Definition parse_decimal (s : string) : option number :=
  let s0 := lstrip_with is_c_space s in
  let '(neg, s1) := take_sign s0 in
  let '(ip, n1, s2) := take_digits 0 0 s1 in
  let '(m, n2, s3, dot) :=
    match s2 with
    | String c r =>
        if Ascii.eqb c "."%char
        then let '(m, n, r') := take_digits ip 0 r in (m, n, r', true)
        else (ip, 0, s2, false)
    | EmptyString => (ip, 0, s2, false)
    end in
  if n1 + n2 =? 0 then None
  else
    let '(ex, s4, has_exp) :=
      match s3 with
      | String c r =>
          if Ascii.eqb c "e"%char || Ascii.eqb c "E"%char
          then let '(eneg, r1) := take_sign r in
               let '(e, ne, r2) := take_digits 0 0 r1 in
               if ne =? 0 then (0, s3, false)
               else (if eneg then - e else e, r2, true)
          else (0, s3, false)
      | EmptyString => (0, s3, false)
      end in
    match lstrip_with is_c_space s4 with
    | EmptyString =>
        if dot || has_exp then Some (NFloat (dec_to_float neg m (ex - n2)))
        else Some (NInt (if neg then - m else m))
    | _ => None
    end.

Definition lower_char (c : ascii) : ascii :=
  let n := N_of_ascii c in
  if ((65 <=? n) && (n <=? 90))%N then ascii_of_N (n + 32) else c.

Fixpoint lower (s : string) : string :=
  match s with
  | EmptyString => EmptyString
  | String c r => String (lower_char c) (lower r)
  end.

(** The words accepted besides decimal literals, whatever their case. *)
Definition parse_special (s : string) : option float64 :=
  let w := lower s in
  if String.eqb w "nan" || String.eqb w "+nan" || String.eqb w "-nan"
  then Some S754_nan
  else if String.eqb w "inf" || String.eqb w "+inf"
          || String.eqb w "infinity" || String.eqb w "+infinity"
  then Some (S754_infinity false)
  else if String.eqb w "-inf" || String.eqb w "-infinity"
  then Some (S754_infinity true)
  else None.

(** What the converter makes of one str; [None] when it cannot be parsed. *)
Definition parse_numeric (s : string) : option number :=
  match parse_decimal s with
  | Some n => Some n
  | None => option_map NFloat (parse_special s)
  end.

(** ** pandas columns *)

(** An element of an [object] column: a str, [None], or the float NaN
    that marks a missing field. *)
Inductive cell : Type :=
| CStr (s : string)
| CNone
| CNaN.

Inductive Series : Type :=
| SInt64 (v : list Z)                 (* dtype int64 *)
| SUInt64 (v : list Z)                (* dtype uint64 *)
| SFloat64 (v : list float64)         (* dtype float64 *)
| SBool (v : list bool)               (* dtype bool *)
| SObject (v : list cell)             (* dtype object *)
| SNullableInt (v : list (option Z)). (* dtype Int64, [None] is <NA> *)

Inductive dtype : Type :=
| dt_int64 | dt_uint64 | dt_float64 | dt_bool | dt_object | dt_Int64.

Definition dtype_of (s : Series) : dtype :=
  match s with
  | SInt64 _ => dt_int64
  | SUInt64 _ => dt_uint64
  | SFloat64 _ => dt_float64
  | SBool _ => dt_bool
  | SObject _ => dt_object
  | SNullableInt _ => dt_Int64
  end.

(** [str(dtype)] *)
Definition dtype_str (d : dtype) : string :=
  match d with
  | dt_int64 => "int64"
  | dt_uint64 => "uint64"
  | dt_float64 => "float64"
  | dt_bool => "bool"
  | dt_object => "object"
  | dt_Int64 => "Int64"
  end.

(** [dtype.kind] *)
Definition dtype_kind (d : dtype) : ascii :=
  match d with
  | dt_int64 => "i"
  | dt_uint64 => "u"
  | dt_float64 => "f"
  | dt_bool => "b"
  | dt_object => "O"
  | dt_Int64 => "i"
  end%char.

(** [pd.api.types.is_numeric_dtype] *)
Definition is_numeric_dtype (s : Series) : bool :=
  match s with SObject _ => false | _ => true end.

(** The values of a column as Python scalars. *)
Inductive scalar : Type :=
| VInt (z : Z)
| VFloat (f : float64)
| VBool (b : bool)
| VStr (s : string)
| VNone
| VNA.

Definition cell_scalar (c : cell) : scalar :=
  match c with
  | CStr s => VStr s
  | CNone => VNone
  | CNaN => VFloat S754_nan
  end.

Definition values (s : Series) : list scalar :=
  match s with
  | SInt64 v | SUInt64 v => map VInt v
  | SFloat64 v => map VFloat v
  | SBool v => map VBool v
  | SObject v => map cell_scalar v
  | SNullableInt v => map (fun o => match o with Some z => VInt z | None => VNA end) v
  end.

Definition series_len (s : Series) : nat := length (values s).

(** [repr] of a finite float is the shortest decimal text that reads
    back as the same binary64; it is taken from the interpreter. *)
Class PyFloat : Type := { float_repr : float64 -> string }.

(** A DataFrame: its columns in order, by label. *)
Definition DataFrame : Type := list (string * Series).

(** DataFrames are objects: a variable holds a reference, and an
    assignment to a column changes the object for every holder. *)
Definition ref : Type := nat.
Abbreviation heap := (gmap nat DataFrame).

(** What is taken from pandas as it is: the text [str(frame)] of a
    DataFrame, and what [pd.api.types.is_numeric_dtype(frame)] makes of
    a DataFrame whose [.dtype] is a DataFrame again (numpy is asked to
    read a dtype from it). *)
Class Frames : Type := {
  frame_str : DataFrame -> string;
  is_numeric_dtype_frame : DataFrame -> result bool
}.

Section Pandas.
Context `{PyFloat} `{FR : Frames}.

(** [str(x)] *)
Definition py_str (x : scalar) : string :=
  match x with
  | VInt z => str_of_Z z
  | VFloat S754_nan => "nan"
  | VFloat (S754_infinity false) => "inf"
  | VFloat (S754_infinity true) => "-inf"
  | VFloat f => float_repr f
  | VBool true => "True"
  | VBool false => "False"
  | VStr s => s
  | VNone => "None"
  | VNA => "<NA>"
  end.

(** [series.astype(str)]: an object column of str. *)
Definition astype_str (s : Series) : Series :=
  SObject (map (fun x => CStr (py_str x)) (values s)).

(** [series.str.<method>(...)], elementwise on the str cells of an
    object column; the other cells come out as NaN. *)
Definition str_accessor (f : string -> string) (s : Series) : result Series :=
  match s with
  | SObject v =>
      Ok (SObject (map (fun c => match c with CStr x => CStr (f x) | _ => CNaN end) v))
  | _ => Raise (AttributeError "Can only use .str accessor with string values!")
  end.

(** One element under [pd.to_numeric(..., errors="coerce")]. *)
Inductive converted : Type :=
| KInt (z : Z)
| KFloat (f : float64)
| KNull.

Definition convert_cell (c : cell) : converted :=
  match c with
  | CStr EmptyString => KNull
  | CStr s =>
      match parse_numeric s with
      | Some (NInt z) =>
          if (INT64_MIN <=? z) && (z <=? UINT64_MAX) then KInt z
          else KFloat (float_of_Z z)
      | Some (NFloat f) => KFloat f
      | None => KNull
      end
  | CNone => KNull
  | CNaN => KFloat S754_nan
  end.

Definition converted_int (k : converted) : option Z :=
  match k with KInt z => Some z | _ => None end.

Definition converted_float (k : converted) : float64 :=
  match k with
  | KInt z => float_of_Z z
  | KFloat f => f
  | KNull => S754_nan
  end.

(** The column that the converted elements make: int64 when all are
    ints of that range, uint64 when all are ints, none negative, float64
    otherwise. *)
Definition maybe_convert_numeric (cells : list cell) : Series :=
  let ks := map convert_cell cells in
  match mapM converted_int ks with
  | Some zs =>
      if forallb in_int64 zs then SInt64 zs
      else if forallb (Z.leb 0) zs then SUInt64 zs
      else SFloat64 (map float_of_Z zs)
  | None => SFloat64 (map converted_float ks)
  end.

(** [pd.to_numeric(series, errors="coerce")] *)
Definition to_numeric (s : Series) : Series :=
  match s with
  | SObject cells => maybe_convert_numeric cells
  | _ => s
  end.

Definition unsafe_cast (from : string) : exn :=
  TypeError ("cannot safely cast non-equivalent " +:+ from +:+ " to int64").

(** One float under [astype("Int64")]: NaN is <NA>, a whole number of the
    int64 range is kept, anything else is refused. *)
Definition float_to_Int64 (f : float64) : result (option Z) :=
  if is_nan f then Ok None
  else match float_integral f with
       | Some z => if in_int64 z then Ok (Some z) else Raise (unsafe_cast "float64")
       | None => Raise (unsafe_cast "float64")
       end.

Fixpoint mapR {A B} (f : A -> result B) (l : list A) : result (list B) :=
  match l with
  | [] => Ok []
  | x :: l' =>
      match f x with
      | Ok y => match mapR f l' with Ok ys => Ok (y :: ys) | Raise e => Raise e end
      | Raise e => Raise e
      end
  end.

(** [series.astype("Int64")] *)
Definition astype_Int64 (s : Series) : result Series :=
  match s with
  | SInt64 v => Ok (SNullableInt (map Some v))
  | SUInt64 v =>
      if forallb in_int64 v then Ok (SNullableInt (map Some v))
      else Raise (unsafe_cast "uint64")
  | SFloat64 v =>
      match mapR float_to_Int64 v with
      | Ok l => Ok (SNullableInt l)
      | Raise e => Raise e
      end
  | SBool v => Ok (SNullableInt (map (fun b => Some (Z.b2z b)) v))
  | SObject _ => Raise (TypeError "object cannot be converted to an IntegerDtype")
  | SNullableInt v => Ok s
  end.

(** [series.astype(float)] for a numeric column. *)
Definition astype_float (s : Series) : result Series :=
  match s with
  | SInt64 v | SUInt64 v => Ok (SFloat64 (map float_of_Z v))
  | SFloat64 v => Ok s
  | SBool v => Ok (SFloat64 (map (fun b => float_of_Z (Z.b2z b)) v))
  | SNullableInt v =>
      Ok (SFloat64 (map (fun o => match o with
                                   | Some z => float_of_Z z
                                   | None => S754_nan
                                   end) v))
  | SObject _ => Raise (TypeError "object column is not numeric")
  end.

(** ** app/utils/casting.py *)

Definition to_int (series : Series) : result Series :=
  astype_Int64 (to_numeric series).

Definition to_str (series : Series) : result Series :=
  rbind (str_accessor strip (astype_str series))
        (str_accessor (re_sub quote_pattern "")).

Definition to_float_pt (series : Series) : result Series :=
  if is_numeric_dtype series then astype_float (to_numeric series)
  else
    rbind (str_accessor (str_replace "." "") (astype_str series)) (fun s1 =>
    rbind (str_accessor (str_replace "," ".") s1) (fun s2 =>
    astype_float (to_numeric s2))).

(** [df.columns] *)
Definition columns (df : DataFrame) : list string := map fst df.

(** [col in df.columns] *)
Definition has_column (df : DataFrame) (col : string) : bool :=
  bool_decide (col ∈ columns df).

(** The columns that carry a label, in their order; pandas lets a label
    come more than once. *)
Fixpoint labelled (df : DataFrame) (col : string) : list Series :=
  match df with
  | [] => []
  | (c, s) :: df' =>
      if String.eqb c col then s :: labelled df' col else labelled df' col
  end.

(** What [df[col]] is: the column, when one column carries the label;
    a DataFrame of the columns that carry it, when several do. *)
Inductive item : Type :=
| Column (s : Series)
| Frame (cols : list Series).

(** [df[col]] *)
Definition getitem (df : DataFrame) (col : string) : result item :=
  match labelled df col with
  | [] => Raise (KeyError (py_repr col))
  | [s] => Ok (Column s)
  | cols => Ok (Frame cols)
  end.

(** [df[col] = s] for a column [s]: every column that carries the label
    is replaced, a new column is appended when none does. *)
Definition setitem (df : DataFrame) (col : string) (s : Series) : DataFrame :=
  if has_column df col
  then map (fun '(c, s0) => if String.eqb c col then (c, s) else (c, s0)) df
  else df ++ [(col, s)].

(** The DataFrame that [df[col]] is when several columns carry [col]. *)
Definition frame_of (col : string) (cols : list Series) : DataFrame :=
  map (fun s => (col, s)) cols.

(** The error of [frame.name] for a DataFrame that has no such
    attribute. *)
Definition no_attribute (name : string) : exn :=
  AttributeError ("'DataFrame' object has no attribute '" +:+ name +:+ "'").

Definition no_str_accessor : exn := no_attribute "str".
Definition no_dtype : exn := no_attribute "dtype".

(** [frame.name] for the DataFrame [frame = df[col]] of a label that
    several columns carry, and a [name] that is no attribute of a
    DataFrame ([dtype], [str], [kind], [strip]): pandas then looks the
    name up among the labels, as in [df.a] for [df["a"]].  The labels
    of the frame are all [col]: when [name] is [col] it finds
    [frame[col]], which is the frame itself; otherwise the attribute is
    missing. *)
Definition frame_getattr (col name : string) : result unit :=
  if String.eqb name col then Ok tt else Raise (no_attribute name).

(** What the casts raise when they are given such a DataFrame.
    [pd.to_numeric] refuses a DataFrame. *)
Definition to_numeric_frame : exn :=
  TypeError "arg must be a list, tuple, 1-d array, or Series".

Definition to_int_frame (col : string) (cols : list Series) : exn :=
  to_numeric_frame.

(** [frame.astype(str).str.strip()]: [.str] is missing, unless the label
    is "str"; then it is the frame, which has no [.strip]. *)
Definition to_str_frame (col : string) (cols : list Series) : exn :=
  match frame_getattr col "str" with
  | Raise e => e
  | Ok _ => no_attribute "strip"
  end.

(** [to_float_pt(frame)].  [is_numeric_dtype] is false of a DataFrame
    that has no [.dtype].  When it is true, [pd.to_numeric] refuses the
    frame.  When it is false, [.str] is missing, unless the label is
    "str": then [.str] is the frame, [.replace] is that of a DataFrame,
    and [pd.to_numeric] refuses the outcome. *)
Definition to_float_pt_frame (col : string) (cols : list Series) : exn :=
  match (match frame_getattr col "dtype" with
         | Ok _ => is_numeric_dtype_frame (frame_of col cols)
         | Raise _ => Ok false
         end) with
  | Raise e => e
  | Ok true => to_numeric_frame
  | Ok false =>
      match frame_getattr col "str" with
      | Raise e => e
      | Ok _ => to_numeric_frame
      end
  end.

Definition M (A : Type) : Type := heap -> heap * result A.

Definition ret {A} (a : A) : M A := fun h => (h, Ok a).

Definition bind {A B} (m : M A) (k : A -> M B) : M B :=
  fun h => match m h with
           | (h', Ok a) => k a h'
           | (h', Raise e) => (h', Raise e)
           end.

Fixpoint for_each {A} (l : list A) (body : A -> M unit) : M unit :=
  match l with
  | [] => ret tt
  | x :: l' => bind (body x) (fun _ => for_each l' body)
  end.

(** [if col in df.columns: df[col] = cast(df[col])]; [on_frame] is what
    [cast] raises when [df[col]] is a DataFrame. *)
Definition cast_column (cast : Series -> result Series)
    (on_frame : string -> list Series -> exn)
    (df : ref) (col : string) : M unit :=
  fun h =>
    let d := h !!! df in
    if has_column d col then
      match getitem d col with
      | Ok (Column s) =>
          match cast s with
          | Ok s' => (<[df := setitem d col s']> h, Ok tt)
          | Raise e => (h, Raise e)
          end
      | Ok (Frame cols) => (h, Raise (on_frame col cols))
      | Raise e => (h, Raise e)
      end
    else (h, Ok tt).

Definition apply_casts (df : ref)
    (integer_fields string_fields float_fields : list string) : M ref :=
  bind (for_each integer_fields (cast_column to_int to_int_frame df))
    (fun _ =>
  bind (for_each string_fields (cast_column to_str to_str_frame df))
    (fun _ =>
  bind (for_each float_fields (cast_column to_float_pt to_float_pt_frame df))
    (fun _ =>
  ret df))).

Definition clean_dataframe (df : ref) (int_fields str_fields : option (list string))
  : M ref :=
  bind (for_each (default [] int_fields)
          (cast_column to_int to_int_frame df)) (fun _ =>
  bind (for_each (default [] str_fields)
          (cast_column to_str to_str_frame df)) (fun _ =>
  ret df)).

End Pandas.

(** ** app/utils/validate.py *)

Definition ensure_required_columns (df : DataFrame) (required : list string)
  : result unit :=
  let missing := List.filter (fun c => negb (has_column df c)) required in
  match missing with
  | [] => Ok tt
  | _ => Raise (SchemaError ("Colunas ausentes no DataFrame: "
                             +:+ py_repr_list missing))
  end.

Section Validate.
Context `{FR : Frames}.

(** What a test of [check_dtypes] appends for the DataFrame that
    [df[col]] is when several columns carry [col].  [frame.dtype] is
    missing, unless the label is "dtype": then it is the frame.  The
    test of the integer fields compares its text; the tests of the
    other fields ask for its [.kind], which is missing, the label being
    "dtype". *)
Definition text_of_frame (col : string) (cols : list Series)
  : result (list (string * string * string)) :=
  rbind (frame_getattr col "dtype") (fun _ =>
  let found := frame_str (frame_of col cols) in
  Ok (if String.eqb found "Int64" then [] else [(col, "Int64", found)])).

Definition kind_of_frame (col : string) (cols : list Series)
  : result (list (string * string * string)) :=
  rbind (frame_getattr col "dtype") (fun _ => Raise (no_attribute "kind")).

(** One test of a loop of [check_dtypes],
    [if col in df.columns and <test of df[col].dtype>: wrong.append(...)]:
    the entry [(col, expected, found)] that it appends, if any. *)
Definition column_test (df : DataFrame) (col : string)
    (accepts : dtype -> bool) (expected : string)
    (on_frame : string -> list Series -> result (list (string * string * string)))
  : result (list (string * string * string)) :=
  if has_column df col then
    match getitem df col with
    | Ok (Column s) =>
        Ok (if accepts (dtype_of s) then []
            else [(col, expected, dtype_str (dtype_of s))])
    | Ok (Frame cols) => on_frame col cols
    | Raise e => Raise e
    end
  else Ok [].

(** One loop of [check_dtypes] over a field list: the entries that it
    appends to [wrong]. *)
Fixpoint wrong_in (df : DataFrame) (fields : list string)
    (accepts : dtype -> bool) (expected : string)
    (on_frame : string -> list Series -> result (list (string * string * string)))
  : result (list (string * string * string)) :=
  match fields with
  | [] => Ok []
  | col :: rest =>
      rbind (column_test df col accepts expected on_frame) (fun here =>
      rbind (wrong_in df rest accepts expected on_frame) (fun w =>
      Ok (here ++ w)))
  end.

Definition accepts_integer (d : dtype) : bool := String.eqb (dtype_str d) "Int64".
Definition accepts_string (d : dtype) : bool := Ascii.eqb (dtype_kind d) "O".
Definition accepts_float (d : dtype) : bool := Ascii.eqb (dtype_kind d) "f".

Definition wrong_entry (w : string * string * string) : string :=
  let '(c, e, f) := w in c +:+ " esperado " +:+ e +:+ ", encontrado " +:+ f.

(** The text "Tipos incorretos após cast: ", with the accented letter as
    its code point. *)
Definition wrong_prefix : string :=
  "Tipos incorretos ap" +:+ String "243"%char "s cast: ".

Definition check_dtypes (df : DataFrame)
    (integer_fields string_fields float_fields : list string) : result unit :=
  rbind (wrong_in df integer_fields accepts_integer "Int64" text_of_frame)
    (fun w1 =>
  rbind (wrong_in df string_fields accepts_string "string(object)"
           kind_of_frame) (fun w2 =>
  rbind (wrong_in df float_fields accepts_float "float" kind_of_frame)
    (fun w3 =>
  match w1 ++ w2 ++ w3 with
  | [] => Ok tt
  | wrong =>
      Raise (SchemaError (wrong_prefix +:+ join "; " (map wrong_entry wrong)))
  end))).

End Validate.

(** ** app/utils/metadata.py *)

Definition default_chunk_size : Z := Z.shiftl 1 20.

(** [open(path, "rb")] on a path that names no file. *)
Definition no_such_file (path : string) : exn :=
  FileNotFoundError ("[Errno 2] No such file or directory: " +:+ py_repr path).

Definition _md5 (fs : filesystem) (path : string) (chunk_size : Z)
  : result string :=
  match fs !! path with
  | Some data => Ok (MD5.hexdigest (md5_loop chunk_size MD5.md5_new data))
  | None => Raise (no_such_file path)
  end.

Definition _count_file_lines (fs : filesystem) (path : string) : result Z :=
  match fs !! path with
  | Some data => Ok (count_loop 0 data)
  | None => Raise (no_such_file path)
  end.

(** A dict as the list of its items: setting a key that is there keeps
    its place and changes its value. *)
Fixpoint dict_set {V} (d : list (string * V)) (k : string) (v : V)
  : list (string * V) :=
  match d with
  | [] => [(k, v)]
  | (k0, v0) :: d' =>
      if String.eqb k0 k then (k0, v) :: d' else (k0, v0) :: dict_set d' k v
  end.

(** [dict(items)] *)
Definition dict_of {V} (items : list (string * V)) : list (string * V) :=
  fold_left (fun d '(k, v) => dict_set d k v) items [].

Section Dtypes.
Context `{FR : Frames}.

(** [{c: str(df[c].dtype) for c in df.columns}].  For a label that
    several columns carry, [df[c].dtype] is missing, unless the label is
    "dtype": then it is the DataFrame [df[c]]. *)
Definition _pandas_dtypes (df : DataFrame) : result (list (string * string)) :=
  rbind (mapR (fun c =>
                 rbind (getitem df c) (fun it =>
                 match it with
                 | Column s => Ok (c, dtype_str (dtype_of s))
                 | Frame cols =>
                     rbind (frame_getattr c "dtype") (fun _ =>
                     Ok (c, frame_str (frame_of c cols)))
                 end))
              (columns df))
        (fun items => Ok (dict_of items)).

End Dtypes.

Definition isna (x : scalar) : bool :=
  match x with
  | VFloat f => is_nan f
  | VNone | VNA => true
  | _ => false
  end.

(** [int(x)] for a Series [x] of several counts. *)
Definition int_of_series : exn :=
  TypeError "cannot convert the series to <class 'int'>".

(** [{c: int(df[c].isna().sum()) for c in df.columns}]; for a label
    that several columns carry, the sum is a Series of their counts. *)
Definition _null_counts (df : DataFrame) : result (list (string * Z)) :=
  rbind (mapR (fun c =>
                 rbind (getitem df c) (fun it =>
                 match it with
                 | Column s =>
                     Ok (c, Z.of_nat (length (List.filter isna (values s))))
                 | Frame _ => Raise int_of_series
                 end))
              (columns df))
        (fun items => Ok (dict_of items)).

(** [len(df)] *)
Definition df_len (df : DataFrame) : nat :=
  match df with
  | [] => O
  | (_, s) :: _ => series_len s
  end.

(** [df.head(n).to_dict(orient="records")]: one dict for each row, made
    of the pairs of a label and the value of its column. *)
Definition _head_preview (df : DataFrame) (n : nat)
  : list (list (string * scalar)) :=
  map (fun i => dict_of (map (fun '(c, s) => (c, nth i (values s) VNone)) df))
      (seq 0 (Nat.min n (df_len df))).

Record CoreInfo : Type := MkCore {
  arquivo : string;
  diretorio : string;
  tamanho_bytes : Z;
  hash_md5 : string;
  gerado_em : string
}.

Record DatasetInfo : Type := MkDataset {
  dataset : option string;
  origem : option string;
  endpoint : option string;
  delimitador : option string;
  encoding : option string;
  partition_key : option string;
  partition_value : option string;
  run_id : option string;
  producer : option string
}.

Record SchemaStats : Type := MkStats {
  colunas : list string;
  dtypes : option (list (string * string));
  linhas : option Z;
  nulos : option (list (string * Z));
  preview : option (list (list (string * scalar)))
}.

(** The dict that is serialized; [m_extra] is there when [extra] was
    given and not empty. *)
Record Manifest : Type := MkManifest {
  m_core : CoreInfo;
  m_dataset : DatasetInfo;
  m_schema_stats : SchemaStats;
  m_extra : option (list (string * scalar))
}.

(** Head (with its last slash) and tail of a path at the last slash. *)
Fixpoint rsplit_slash (p : string) : string * string :=
  match p with
  | EmptyString => (EmptyString, EmptyString)
  | String c r =>
      let '(h, t) := rsplit_slash r in
      match h with
      | EmptyString =>
          if Ascii.eqb c "/"%char then (String c EmptyString, t)
          else (EmptyString, String c t)
      | _ => (String c h, t)
      end
  end.

(** [os.path.basename] *)
Definition basename (p : string) : string := snd (rsplit_slash p).

(** [os.path.dirname] *)
Definition dirname (p : string) : string :=
  let h := fst (rsplit_slash p) in
  match rstrip_with (Ascii.eqb "/"%char) h with
  | EmptyString => h
  | h' => h'
  end.

(** What the surroundings supply: whether [import pandas] succeeded when
    the module was loaded, and the local time that [_now_iso] reads. *)
Record env : Type := MkEnv {
  pd_available : bool;
  now_iso : string
}.

(** The serializer and the text layer are the interpreter's:
    [open_w fs out] is the exception that [open(out, "w",
    encoding="utf-8")] raises, if any; [json_dump m] is the text that
    [json.dump(m, f, ensure_ascii=False, indent=2)] writes, with the
    exception that stops it when a value cannot be serialized;
    [text_readline enc data] is the first line that [f.readline()]
    returns for a file with contents [data] opened in text mode with
    encoding [enc], or [None] when that raises. *)
Class ManifestIO : Type := {
  open_w : filesystem -> string -> option exn;
  json_dump : Manifest -> list byte * option exn;
  text_readline : string -> list byte -> option string
}.

(** [x or y] on an optional str. *)
Definition str_or (x : option string) (y : string) : string :=
  match x with
  | Some EmptyString | None => y
  | Some s => s
  end.

Definition truthy_str (x : option string) : bool :=
  match x with
  | Some EmptyString | None => false
  | Some _ => true
  end.

Definition truthy_extra (x : option (list (string * scalar)))
  : option (list (string * scalar)) :=
  match x with
  | Some [] | None => None
  | Some l => Some l
  end.

Definition not_found (path : string) : exn :=
  FileNotFoundError
    ("Arquivo n" +:+ String "227"%char "o encontrado para manifest: " +:+ path).

(** The error of [write_metadata_from_df] when [pd is None]. *)
Definition pandas_missing : exn :=
  RuntimeError
    ("pandas " +:+ String "233"%char
       (" necess" +:+ String "225"%char "rio para write_manifest_from_df")).

Section Metadata.
Context `{ManifestIO} `{FR : Frames}.
Variable E : env.

Definition _now_iso : string := now_iso E.

Definition make_core (fs : filesystem) (path : string) : result CoreInfo :=
  match fs !! path with
  | Some data =>
      rbind (_md5 fs path default_chunk_size) (fun h =>
      Ok {| arquivo := basename path;
            diretorio := dirname path;
            tamanho_bytes := getsize data;
            hash_md5 := h;
            gerado_em := _now_iso |})
  | None => Raise (no_such_file path)
  end.

(** The last steps of both entry points: write the manifest next to the
    file and return its path.  When [json.dump] raises, the file holds
    what was written before. *)
Definition dump_manifest (fs : filesystem) (path : string) (m : Manifest)
  : filesystem * result string :=
  let out := path +:+ ".manifest.json" in
  match open_w fs out with
  | Some e => (fs, Raise e)
  | None =>
      match json_dump m with
      | (written, None) => (<[out := written]> fs, Ok out)
      | (written, Some e) => (<[out := written]> fs, Raise e)
      end
  end.

(** The dict that [write_metadata_from_df] builds once the guards are
    passed. *)
Definition manifest_from_df (fs : filesystem) (df : DataFrame)
    (path : string) (meta : DatasetInfo)
    (include_dtypes include_nulls include_preview : bool)
    (extra : option (list (string * scalar))) : result Manifest :=
  rbind (make_core fs path) (fun core =>
  rbind (if include_dtypes
         then rbind (_pandas_dtypes df) (fun d => Ok (Some d))
         else Ok None) (fun dt =>
  rbind (if include_nulls
         then rbind (_null_counts df) (fun c => Ok (Some c))
         else Ok None) (fun nl =>
  let stats :=
    {| colunas := columns df;
       dtypes := dt;
       linhas := Some (Z.of_nat (df_len df));
       nulos := nl;
       preview := if include_preview then Some (_head_preview df 3) else None |} in
  Ok {| m_core := core; m_dataset := meta; m_schema_stats := stats;
        m_extra := truthy_extra extra |}))).

Definition write_metadata_from_df (fs : filesystem) (df : DataFrame)
    (path : string) (meta : DatasetInfo)
    (include_dtypes include_nulls include_preview : bool)
    (extra : option (list (string * scalar)))
  : filesystem * result string :=
  if negb (pd_available E) then (fs, Raise pandas_missing)
  else if negb (py_exists fs path) then (fs, Raise (not_found path))
  else
    match manifest_from_df fs df path meta include_dtypes include_nulls
            include_preview extra with
    | Raise e => (fs, Raise e)
    | Ok m => dump_manifest fs path m
    end.

(** [cols] of [write_manifest_from_file]; every exception under the
    [try] leaves the list empty. *)
Definition header_columns (fs : filesystem) (path : string) (meta : DatasetInfo)
    (header infer_columns_from_header : bool) : list string :=
  if infer_columns_from_header && header && truthy_str (delimitador meta)
  then match fs !! path with
       | Some data =>
           match text_readline (str_or (encoding meta) "utf-8") data with
           | Some line =>
               map strip
                 (str_split (default EmptyString (delimitador meta))
                    (strip_chars
                       (String "010"%char (String "013"%char EmptyString))
                       line))
           | None => []
           end
       | None => []
       end
  else [].

(** [rows] of [write_manifest_from_file], from the count of lines:
    [if header and rows and rows > 0: rows = rows - 1]. *)
Definition data_rows (header : bool) (rows : Z) : Z :=
  if header && negb (rows =? 0) && (0 <? rows) then rows - 1 else rows.

(** The dict that [write_manifest_from_file] builds once the guard is
    passed. *)
Definition manifest_from_file (fs : filesystem) (path : string)
    (meta : DatasetInfo) (header infer_columns_from_header line_count : bool)
    (extra : option (list (string * scalar))) : result Manifest :=
  rbind (make_core fs path) (fun core =>
  let cols := header_columns fs path meta header infer_columns_from_header in
  rbind (if line_count
         then rbind (_count_file_lines fs path)
                (fun n => Ok (Some (data_rows header n)))
         else Ok None) (fun rows =>
  let stats :=
    {| colunas := cols; dtypes := None; linhas := rows;
       nulos := None; preview := None |} in
  Ok {| m_core := core; m_dataset := meta; m_schema_stats := stats;
        m_extra := truthy_extra extra |})).

Definition write_manifest_from_file (fs : filesystem) (path : string)
    (meta : DatasetInfo) (header infer_columns_from_header line_count : bool)
    (extra : option (list (string * scalar)))
  : filesystem * result string :=
  if negb (py_exists fs path) then (fs, Raise (not_found path))
  else
    match manifest_from_file fs path meta header infer_columns_from_header
            line_count extra with
    | Raise e => (fs, Raise e)
    | Ok m => dump_manifest fs path m
    end.

End Metadata.

(** ** The claims' own notions *)

(** [hashlib.md5(data).hexdigest()]: the digest of the whole content in
    one pass. *)
Definition md5_one_pass (data : list byte) : string :=
  MD5.hexdigest (MD5.update MD5.md5_new data).

(** Counting lines byte by byte: every newline byte ends a line, and
    the bytes after the last newline, if any, are one more line. *)
Definition newline_count (data : list byte) : Z :=
  Z.of_nat (length (List.filter (fun b => Byte.eqb b x0a) data)).

Fixpoint open_line (in_line : bool) (data : list byte) : bool :=
  match data with
  | [] => in_line
  | b :: rest => open_line (negb (Byte.eqb b x0a)) rest
  end.

Definition line_count_spec (data : list byte) : Z :=
  newline_count data + Z.b2z (open_line false data).

(** Removing one double quote at the start, if there is one, and one
    at the end, if there is one. *)
Definition drop_leading_quote (s : string) : string :=
  match s with
  | String c r => if Ascii.eqb c dquote then r else s
  | EmptyString => s
  end.

Fixpoint drop_trailing_quote (s : string) : string :=
  match s with
  | EmptyString => EmptyString
  | String c EmptyString => if Ascii.eqb c dquote then EmptyString else s
  | String c r => String c (drop_trailing_quote r)
  end.

Definition unquote (s : string) : string :=
  drop_trailing_quote (drop_leading_quote s).

Definition first_char (s : string) : option ascii :=
  match s with
  | String c _ => Some c
  | EmptyString => None
  end.

Fixpoint last_char (s : string) : option ascii :=
  match s with
  | EmptyString => None
  | String c EmptyString => Some c
  | String _ r => last_char r
  end.

Fixpoint all_chars (p : ascii -> bool) (s : string) : bool :=
  match s with
  | EmptyString => true
  | String c r => p c && all_chars p r
  end.

(** Removing every point, and writing a point for every comma. *)
Fixpoint remove_points (s : string) : string :=
  match s with
  | EmptyString => EmptyString
  | String c r =>
      if Ascii.eqb c "."%char then remove_points r
      else String c (remove_points r)
  end.

Fixpoint comma_to_point (s : string) : string :=
  match s with
  | EmptyString => EmptyString
  | String c r =>
      String (if Ascii.eqb c ","%char then "."%char else c) (comma_to_point r)
  end.

(** The float that a text stands for: the number it parses to, NaN when
    it does not parse. *)
Definition float_of_text (text : string) : float64 :=
  match parse_numeric text with
  | Some (NInt z) => float_of_Z z
  | Some (NFloat f) => f
  | None => S754_nan
  end.

(** A decimal written with points between the thousands and a comma
    before the decimals. *)
Definition locale_float (text : string) : float64 :=
  float_of_text (comma_to_point (remove_points text)).

(** [f] is a binary64 nearest to [num / den], for a positive value
    below 2^53: a 53-bit mantissa [m] and an exponent [e <= 0] with
    [|num / den - m * 2^e| <= 2^e / 2]. *)
Definition nearest_float (num den : Z) (f : float64) : Prop :=
  exists m e,
    f = S754_finite false m e
    /\ 2 ^ 52 <= Zpos m < 2 ^ 53 /\ e <= 0 /\ 0 < den
    /\ 2 * Z.abs (num * 2 ^ (- e) - Zpos m * den) <= den.

(** A float that is a number: not NaN and not an infinity. *)
Definition is_finite (f : float64) : bool :=
  match f with
  | S754_zero _ | S754_finite _ _ _ => true
  | _ => false
  end.

Definition no_digit (text : string) : bool :=
  all_chars (fun c => negb (is_digit c)) text.

(** A value of a numeric column as a float. *)
Definition numeric_float (x : scalar) : float64 :=
  match x with
  | VInt z => float_of_Z z
  | VFloat f => f
  | VBool b => float_of_Z (Z.b2z b)
  | _ => S754_nan
  end.

(** The string cast of a value. *)
Definition str_cast `{PyFloat} (x : scalar) : string :=
  unquote (strip (py_str x)).

(** A value that has no number to give: a text that does not parse, or
    a missing value. *)
Definition nulled (x : scalar) : bool :=
  match x with
  | VStr t => match parse_numeric t with None => true | Some _ => false end
  | VFloat f => is_nan f
  | VNone | VNA => true
  | _ => false
  end.

(** The integer that an element of an object column is converted to. *)
Definition int_of_cell (c : cell) : option Z := converted_int (convert_cell c).

(** A text that reads as an integer that every float can hold. *)
Definition small_int_cell (c : cell) : Prop :=
  exists t z, c = CStr t /\ parse_numeric t = Some (NInt z)
              /\ - 2 ^ 53 < z < 2 ^ 53.

(** The integers of a column fit its dtype. *)
Definition wf_series (s : Series) : Prop :=
  match s with
  | SInt64 v => Forall (fun z => in_int64 z = true) v
  | SUInt64 v => Forall (fun z => 0 <= z <= UINT64_MAX) v
  | SNullableInt v => Forall (fun o => forall z, o = Some z -> in_int64 z = true) v
  | _ => True
  end.

(** [sub in s] *)
Definition contains (sub s : string) : Prop :=
  exists pre post, s = pre +:+ sub +:+ post.

(** A declared column that is in the dataset with a dtype that the check
    of its category refuses. *)
Definition mismatched (df : DataFrame) (accepts : dtype -> bool)
    (col : string) : Prop :=
  exists s, In (col, s) df /\ accepts (dtype_of s) = false.

(** How many columns carry a label. *)
Definition occurrences (df : DataFrame) (col : string) : nat :=
  count_occ string_dec (columns df) col.

(** None of the labels is carried by two columns of the dataset. *)
Definition labels_once (df : DataFrame) (fields : list string) : Prop :=
  forall col, In col fields -> (occurrences df col <= 1)%nat.

(** The integer of the signed 64-bit range that a float is equal to. *)
Definition int64_of_float (f : float64) : option Z :=
  match float_integral f with
  | Some z => if in_int64 z then Some z else None
  | None => None
  end.

(** The integer of the signed 64-bit range that a value is: an int,
    True or False, a float that is whole, or a text that reads as one
    of these. *)
Definition int64_value (x : scalar) : option Z :=
  match x with
  | VInt z => if in_int64 z then Some z else None
  | VBool b => Some (Z.b2z b)
  | VFloat f => int64_of_float f
  | VStr t =>
      match parse_numeric t with
      | Some (NInt z) => if in_int64 z then Some z else None
      | Some (NFloat f) => int64_of_float f
      | None => None
      end
  | VNone | VNA => None
  end.

(** A number that the integer cast may refuse: a value that is a
    number and is not an integer of the signed 64-bit range, or is one
    of size 2^53 or more, which a float column need not hold as it is. *)
Definition unsafe_number (x : scalar) : Prop :=
  nulled x = false
  /\ forall z, int64_value x = Some z -> 2 ^ 53 <= Z.abs z.

Definition is_not_found (e : exn) : bool :=
  match e with FileNotFoundError _ => true | _ => false end.

(** ** Sample values *)

Definition sample_file : list byte :=
  bytes_of_string "id;nome" ++ [x0a] ++ bytes_of_string "1;ana" ++ [x0a]
  ++ bytes_of_string "2;bia" ++ [x0a].

Definition sample_path : string := "bronze/users/anomesdia=20251020/users.txt".

Definition sample_fs : filesystem := {[ sample_path := sample_file ]}.

Definition empty_path : string := "bronze/empty.txt".

Definition empty_fs : filesystem := {[ empty_path := [] ]}.

Definition sample_env : env :=
  {| pd_available := true; now_iso := "2025-10-20T08:30:00" |}.

Definition bare_env : env :=
  {| pd_available := false; now_iso := "2025-10-20T08:30:00" |}.

Definition missing_path : string := "bronze/posts/posts.txt".

Definition sample_df : DataFrame :=
  [ ("a", SObject [CStr "12"; CStr "7"]);
    ("c", SObject [CStr "x"; CStr "y"]) ].

(** Stand-ins for what is taken from pandas about DataFrames. *)
Definition sample_frames : Frames :=
  {| frame_str := fun _ => "<DataFrame>";
     is_numeric_dtype_frame := fun _ => Ok false |}.

(** A stand-in for [repr] of a float, to run the casts on the samples:
    it writes a finite float as mantissa and binary exponent. *)
Definition sample_float : PyFloat :=
  {| float_repr f :=
       match f with
       | S754_finite sg m e =>
           (if sg then "-" else "") +:+ str_of_Z (Zpos m) +:+ "*2**" +:+ str_of_Z e
       | S754_zero sg => if sg then "-0.0" else "0.0"
       | _ => "nan"
       end |}.

Definition sample_heap : heap := {[ 0%nat := sample_df ]}.

Definition fraction_heap : heap :=
  {[ 0%nat := [ ("a", SObject [CStr "12"; CStr "1.5"]) ] ]}.

Definition no_meta : DatasetInfo :=
  {| dataset := None; origem := None; endpoint := None; delimitador := None;
     encoding := None; partition_key := None; partition_value := None;
     run_id := None; producer := None |}.

(** A stand-in for the serializer and the text layer, to run the entry
    points on the samples: it writes the hash and the row count, and
    reads no header. *)
Definition sample_io : ManifestIO :=
  {| open_w _ _ := None;
     json_dump m :=
       (bytes_of_string
          (hash_md5 (m_core m) +:+ " "
           +:+ match linhas (m_schema_stats m) with
               | Some n => str_of_Z n
               | None => "null"
               end), None);
     text_readline _ _ := None |}.


(** ** Further notions *)

(** [int(series.isna().sum())], the count that [_null_counts] records
    for a column. *)
Definition null_count (s : Series) : Z :=
  Z.of_nat (length (List.filter isna (values s))).

(** No column is declared in two categories. *)
Definition fields_disjoint (I S F : list string) : Prop :=
  (forall c, In c I -> ~ In c S /\ ~ In c F)
  /\ (forall c, In c S -> ~ In c F).

(** A column declared in two categories. *)
Definition fields_overlap (I S F : list string) (col : string) : Prop :=
  (In col I /\ (In col S \/ In col F)) \/ (In col S /\ In col F).

(** [s[:-1]] *)
Fixpoint str_init (s : string) : string :=
  match s with
  | EmptyString => EmptyString
  | String c EmptyString => EmptyString
  | String c r => String c (str_init r)
  end.

(** The pieces of a text between the occurrences of a delimiter, the
    occurrences being found from the left and not overlapping: the
    delimiter that follows a piece is the first one from where the
    piece starts (it occurs nowhere in the piece followed by the
    delimiter less its last character), and the last piece has no
    delimiter. *)
Inductive pieces_of (sep : string) : string -> list string -> Prop :=
| pieces_last (s : string) : ~ contains sep s -> pieces_of sep s [s]
| pieces_cons (p rest : string) (ps : list string) :
    ~ contains sep (p +:+ str_init sep) ->
    pieces_of sep rest ps ->
    pieces_of sep (p +:+ sep +:+ rest) (p :: ps).

(** The first line of a text read with universal newlines. *)
Fixpoint text_line (s : string) : string :=
  match s with
  | EmptyString => EmptyString
  | String c r =>
      if Ascii.eqb c "010"%char || Ascii.eqb c "013"%char
      then String "010"%char EmptyString
      else String c (text_line r)
  end.

(** A stand-in for the text layer that reads every file as Latin-1. *)
Definition latin1_io : ManifestIO :=
  {| open_w := @open_w sample_io;
     json_dump := @json_dump sample_io;
     text_readline _ data := Some (text_line (string_of_list_byte data)) |}.

Definition csv_meta : DatasetInfo :=
  {| dataset := Some "jsonplaceholder.users"; origem := Some "api";
     endpoint := None; delimitador := Some ";"; encoding := Some "latin-1";
     partition_key := Some "anomesdia"; partition_value := None;
     run_id := None; producer := Some "ingestao_api.py" |}.

(** ** app/ingestao_csv.py, and the writer of app/ingestao_api.py *)

(** [os.path.join(a, b)] *)
Definition path_join (a b : string) : string :=
  if String.prefix "/" b then b
  else match last_char a with
       | None => a +:+ b
       | Some c => if Ascii.eqb c "/"%char then a +:+ b else a +:+ "/" +:+ b
       end.

(** How [df.to_csv(path, ...)] ends: the file holds the whole text, or
    an exception was raised, before the file was opened or with a part
    of the text in it. *)
Inductive written : Type :=
| Complete (text : list byte)
| Broken (part : option (list byte)) (e : exn).

(** What is printed, statement by statement; the texts are those of the
    source. *)
Inductive output : Type :=
| PrintExtras (extras : list string)
| PrintPreviewTitle
| PrintPreview (table : string)
| PrintSaved (out_path : string)
| PrintMetadataDone.

(** What the pipelines take from their surroundings.
    [makedirs fs dir] is [os.makedirs(dir, exist_ok=True)], which makes
    directories only and may fail;
    [to_csv fs df path sep encoding index] is [df.to_csv(path, sep=...,
    encoding=..., index=..., lineterminator="\n")];
    [read_csv fs path sep encoding has_header] is [pd.read_csv] with
    [dtype=str, engine="python", quoting=0], and [header=None] without a
    header; [to_string df] is [df.to_string(index=False)];
    [print_fails out o] is the exception that [print] raises for [o]
    after the output [out], if any. *)
Class Surroundings : Type := {
  (** Modelled from the spec: [utils/date.py] is not among the sources;
      [today_yyyymmdd()] is the current date in [YYYYMMDD] form. *)
  today_yyyymmdd : string;
  makedirs : filesystem -> string -> result unit;
  to_csv : filesystem -> DataFrame -> string -> string -> string -> bool
           -> written;
  read_csv : filesystem -> string -> string -> string -> bool
             -> result DataFrame;
  to_string : DataFrame -> string;
  print_fails : list output -> output -> option exn
}.

(** The label that [rename] gives to a column: the value of the mapping
    where the label is a key, the label itself otherwise. *)
Definition renamed (mapping : gmap string string) (c : string) : string :=
  default c (mapping !! c).

(** [df.rename(columns=mapping)]: a new dataset with the same columns
    under their new labels. *)
Definition rename_columns (df : DataFrame) (mapping : gmap string string)
  : DataFrame :=
  map (fun '(c, s) => (renamed mapping c, s)) df.

(** [series.head(n)] *)
Definition series_head (n : nat) (s : Series) : Series :=
  match s with
  | SInt64 v => SInt64 (firstn n v)
  | SUInt64 v => SUInt64 (firstn n v)
  | SFloat64 v => SFloat64 (firstn n v)
  | SBool v => SBool (firstn n v)
  | SObject v => SObject (firstn n v)
  | SNullableInt v => SNullableInt (firstn n v)
  end.

(** [df[cols].head(n)], for labels that are all in the dataset: the
    columns that carry each label, in the order of [cols]. *)
Definition select_head (df : DataFrame) (cols : list string) (n : nat)
  : DataFrame :=
  flat_map (fun c => map (fun s => (c, series_head n s)) (labelled df c)) cols.

(** The files, the objects and the standard output. *)
Record world : Type := MkWorld {
  w_fs : filesystem;
  w_heap : heap;
  w_out : list output
}.

Definition W (A : Type) : Type := world -> world * result A.

Definition wret {A} (a : A) : W A := fun w => (w, Ok a).

Definition wbind {A B} (m : W A) (k : A -> W B) : W B :=
  fun w => match m w with
           | (w', Ok a) => k a w'
           | (w', Raise e) => (w', Raise e)
           end.

Notation "'do' x <- m ; k" := (wbind m (fun x => k))
  (at level 10, x name, m at level 100, k at level 200).

Definition lift_result {A} (r : result A) : W A := fun w => (w, r).

Definition lift_heap {A} (m : M A) : W A :=
  fun w => let '(h', r) := m (w_heap w) in
           ({| w_fs := w_fs w; w_heap := h'; w_out := w_out w |}, r).

Definition lift_fs {A} (m : filesystem -> filesystem * result A) : W A :=
  fun w => let '(fs', r) := m (w_fs w) in
           ({| w_fs := fs'; w_heap := w_heap w; w_out := w_out w |}, r).

Definition print `{Surroundings} (o : output) : W unit :=
  fun w =>
    match print_fails (w_out w) o with
    | Some e => (w, Raise e)
    | None =>
        ({| w_fs := w_fs w; w_heap := w_heap w; w_out := w_out w ++ [o] |},
         Ok tt)
    end.

(** A new dataset object. *)
Definition new_object (d : DataFrame) : W ref :=
  fun w => let r := fresh (dom (w_heap w)) in
           ({| w_fs := w_fs w; w_heap := <[r := d]> (w_heap w);
               w_out := w_out w |}, Ok r).

Definition get_object (r : ref) : W DataFrame :=
  fun w => (w, Ok (w_heap w !!! r)).

Definition get_fs : W filesystem := fun w => (w, Ok (w_fs w)).

Definition normalize_columns (df : ref) (mapping : gmap string string) : W ref :=
  do d <- get_object df;
  new_object (rename_columns d mapping).

(** The configuration, as the JSON document gives it: an optional key
    is [None] when it is absent. *)
Record csv_config : Type := MkCsvConfig {
  csv_path : string;
  csv_delimiter : option string;
  csv_encoding : option string;
  csv_has_header : option bool;
  required_columns : list string;
  cfg_integer_fields : option (list string);
  cfg_string_fields : option (list string);
  cfg_float_fields : option (list string);
  out_base_dir : string;
  out_table : string;
  out_partition_key : string;
  out_filename : string;
  out_csv_delimiter : option string;
  out_encoding : option string;
  out_index : option bool;
  columns_normalization : gmap string string
}.

Definition preview_cols : list string := ["municipio"; "uf"; "densidade_smp"].

Section Pipelines.
Context `{PyFloat} `{ManifestIO} `{Surroundings} `{FR : Frames}.
Variable E : env.

(** [os.path.join(base_dir, table, f"{partition_key}={anomesdia}")] *)
Definition partition_dir (base_dir table partition_key : string) : string :=
  path_join (path_join base_dir table)
            (partition_key +:+ "=" +:+ today_yyyymmdd).

(** [df.to_csv(out_path, ...)] *)
Definition df_to_csv (df : DataFrame) (out_path sep enc : string) (index : bool)
    (fs : filesystem) : filesystem * result unit :=
  match to_csv fs df out_path sep enc index with
  | Complete text => (<[out_path := text]> fs, Ok tt)
  | Broken (Some part) e => (<[out_path := part]> fs, Raise e)
  | Broken None e => (fs, Raise e)
  end.

(** [save_txt] of [ingestao_api.py] *)
Definition save_txt (df : DataFrame)
    (base_dir table partition_key filename delimiter enc : string)
    (index : bool) (fs : filesystem) : filesystem * result string :=
  let out_dir := partition_dir base_dir table partition_key in
  match makedirs fs out_dir with
  | Raise e => (fs, Raise e)
  | Ok _ =>
      let out_path := path_join out_dir filename in
      match df_to_csv df out_path delimiter enc index fs with
      | (fs', Ok _) => (fs', Ok out_path)
      | (fs', Raise e) => (fs', Raise e)
      end
  end.

Definition csv_dataset_info (cfg : csv_config) (out_delimiter out_enc : string)
  : DatasetInfo :=
  {| dataset := Some "ibc_municipios.indicadores_normalizados";
     origem := Some "csv";
     endpoint := Some (csv_path cfg);
     delimitador := Some out_delimiter;
     encoding := Some out_enc;
     partition_key := Some (out_partition_key cfg);
     partition_value := None;
     run_id := None;
     producer := Some "ingestao_csv.py" |}.

(** The path that [main] writes to. *)
Definition csv_out_path (cfg : csv_config) : string :=
  path_join
    (partition_dir (out_base_dir cfg) (out_table cfg) (out_partition_key cfg))
    (out_filename cfg).

(** [main] of [ingestao_csv.py], from the configuration that
    [load_config] has read; the labels of a dataset are texts here, as
    they are when the file is read with its header. *)
Definition main_csv (cfg : csv_config) : W unit :=
  let in_sep := default ";" (csv_delimiter cfg) in
  let in_encoding := default "utf-8" (csv_encoding cfg) in
  let has_header := default true (csv_has_header cfg) in
  let integer_fields := default [] (cfg_integer_fields cfg) in
  let string_fields := default [] (cfg_string_fields cfg) in
  let float_fields := default [] (cfg_float_fields cfg) in
  do fs <- get_fs;
  do raw <- lift_result
              (read_csv fs (csv_path cfg) in_sep in_encoding has_header);
  do df_raw <- new_object raw;
  do df <- normalize_columns df_raw (columns_normalization cfg);
  do d <- get_object df;
  do _ <- lift_result (ensure_required_columns d (required_columns cfg));
  let expected_cols :=
    required_columns cfg ++ integer_fields ++ string_fields ++ float_fields in
  let extras :=
    List.filter (fun c => negb (bool_decide (c ∈ expected_cols))) (columns d) in
  do _ <- match extras with [] => wret tt | _ => print (PrintExtras extras) end;
  do df <- lift_heap (apply_casts df integer_fields string_fields float_fields);
  do d <- get_object df;
  do _ <- lift_result (check_dtypes d integer_fields string_fields float_fields);
  let missing := List.filter (fun c => negb (has_column d c)) preview_cols in
  do _ <- match missing with
          | [] => wret tt
          | _ => lift_result
                   (Raise (SchemaError ("Colunas de preview ausentes: "
                                        +:+ py_repr_list missing)))
          end;
  do _ <- print PrintPreviewTitle;
  do _ <- print (PrintPreview (to_string (select_head d preview_cols 10)));
  let out_delimiter := default ";" (out_csv_delimiter cfg) in
  let out_enc := default "utf-8" (out_encoding cfg) in
  let index := default false (out_index cfg) in
  let out_dir :=
    partition_dir (out_base_dir cfg) (out_table cfg) (out_partition_key cfg) in
  do _ <- lift_fs (fun fs => (fs, makedirs fs out_dir));
  let out_path := path_join out_dir (out_filename cfg) in
  do _ <- lift_fs (df_to_csv d out_path out_delimiter out_enc index);
  do _ <- print (PrintSaved out_path);
  do _ <- lift_fs (fun fs =>
            write_metadata_from_df E fs d out_path
              (csv_dataset_info cfg out_delimiter out_enc) true true false None);
  print PrintMetadataDone.

End Pipelines.

(** Stand-ins for the reader, the writer and the clock, to run the
    pipelines on the samples. *)
Definition sample_raw : DataFrame :=
  [ ("Municipio", SObject [CStr "Recife"; CStr "Olinda"]);
    ("UF", SObject [CStr "PE"; CStr "PE"]);
    ("Densidade SMP", SObject [CStr "1.234,5"; CStr "98,7"]);
    ("obs", SObject [CStr "x"; CNaN]) ].

Definition sample_mapping : gmap string string :=
  {[ "Municipio" := "municipio"; "UF" := "uf";
     "Densidade SMP" := "densidade_smp" ]}.

Definition sample_surroundings : Surroundings :=
  {| today_yyyymmdd := "20251020";
     makedirs := fun _ _ => Ok tt;
     to_csv := fun _ _ _ _ _ _ => Complete sample_file;
     read_csv := fun fs path _ _ _ =>
       match fs !! path with
       | Some _ => Ok sample_raw
       | None => Raise (FileNotFoundError path)
       end;
     to_string := fun _ => "";
     print_fails := fun _ _ => None |}.

Definition sample_cfg : csv_config :=
  {| csv_path := sample_path;
     csv_delimiter := None;
     csv_encoding := None;
     csv_has_header := None;
     required_columns := ["municipio"; "uf"];
     cfg_integer_fields := None;
     cfg_string_fields := Some ["municipio"; "uf"];
     cfg_float_fields := Some ["densidade_smp"];
     out_base_dir := "bronze";
     out_table := "indicadores";
     out_partition_key := "anomesdia";
     out_filename := "indicadores.txt";
     out_csv_delimiter := None;
     out_encoding := None;
     out_index := None;
     columns_normalization := sample_mapping |}.

Definition sample_world : world :=
  {| w_fs := sample_fs; w_heap := sample_heap; w_out := [] |}.

(** ** app/ingestao_api.py: the session and the retries *)

(** [s.isdigit()] for code points below 256: the decimal digits and the
    superscripts one, two and three. *)
Definition is_digit_char (c : ascii) : bool :=
  let n := N_of_ascii c in
  ((48 <=? n) && (n <=? 57) || (n =? 178) || (n =? 179) || (n =? 185))%N.

Definition isdigit (s : string) : bool :=
  match s with
  | EmptyString => false
  | _ => all_chars is_digit_char s
  end.

Definition is_decimal_char (c : ascii) : bool :=
  let n := N_of_ascii c in ((48 <=? n) && (n <=? 57))%N.

Fixpoint decimal_value (acc : Z) (s : string) : Z :=
  match s with
  | EmptyString => acc
  | String c r => decimal_value (10 * acc + (Z.of_N (N_of_ascii c) - 48)) r
  end.

(** [int(s)] for a text on which [isdigit] holds: the value when every
    character is a decimal digit and the text is not longer than the
    interpreter's limit on the digits of an integer ([0]: no limit),
    [None] for the ValueError otherwise. *)
Definition int_of_digits (max_str_digits : nat) (s : string) : option Z :=
  if all_chars is_decimal_char s
     && ((max_str_digits =? 0)%nat || (String.length s <=? max_str_digits)%nat)
  then Some (decimal_value 0 s)
  else None.

(** An exception by its class and its text. *)
Inductive py_exc : Type := Exc (cls : string) (msg : string).

(** [timeout]: a number of seconds, or a pair for connecting and reading. *)
Inductive timeout_arg : Type :=
| Seconds (t : Z)
| ConnectRead (connect read : Z).

Record request : Type := MkRequest {
  rq_session : nat;
  rq_url : string;
  rq_params : option (list (string * Z));
  rq_timeout : timeout_arg
}.

Record response : Type := MkResponse {
  status_code : Z;
  retry_after : option string;   (* [resp.headers.get("Retry-After")] *)
  text : string
}.

(** How [sess.get] ends: with a response, or with an exception, which
    is [retriable] when it is a [requests.Timeout] or a
    [requests.ConnectionError]. *)
Inductive reply : Type :=
| Responds (resp : response)
| Fails (retriable : bool) (e : py_exc).

(** [last_err]: [ApiError(f"HTTP {status} ... {text[:200]}")], or the
    exception that was caught. *)
Inductive last_error : Type :=
| HttpError (status : Z) (text200 : string)
| Caught (e : py_exc).

(** The exceptions that leave [safe_get]: its own
    [ApiError(f"Falha ao chamar {url}: {last_err}")], an exception of
    [sess.get] that is not caught, the ValueError of [int(ra)], and an
    exception of [time.sleep]. *)
Inductive api_exn : Type :=
| ApiError (url : string) (last_err : option last_error)
| FromGet (e : py_exc)
| IntValueError (ra : string)
| FromSleep (e : py_exc).

Inductive outcome (A : Type) : Type :=
| Returned (a : A)
| Raised (e : api_exn).
Arguments Returned {A} a.
Arguments Raised {A} e.

(** What the module keeps and what it has done: the global [_SESSION]
    (a session by its number), the sessions made, the requests sent and
    the pauses taken, oldest first; a pause is [(sleep_s, attempt)] for
    [time.sleep(sleep_s + (0.1 * attempt))]. *)
Record net : Type := MkNet {
  _SESSION : option nat;
  sessions_made : nat;
  sent : list request;
  slept : list (Z * Z)
}.

(** The network, the clock and the interpreter: [sess_get sent rq] is
    the end of [sess.get] for the request [rq] after the requests
    [sent]; [time_sleep sleep_s attempt] is the exception of
    [time.sleep(sleep_s + (0.1 * attempt))], if any. *)
Class Web : Type := {
  sess_get : list request -> request -> reply;
  time_sleep : Z -> Z -> option py_exc;
  int_max_str_digits : nat
}.

(** [range(n)] *)
Definition range (n : Z) : list Z := map Z.of_nat (seq 0 (Z.to_nat n)).

Definition get_session (st : net) : net * nat :=
  match _SESSION st with
  | Some s => (st, s)
  | None =>
      let s := sessions_made st in
      ({| _SESSION := Some s; sessions_made := Datatypes.S s;
          sent := sent st; slept := slept st |}, s)
  end.

(** What one turn of the loop of [safe_get] decides before the pause. *)
Inductive verdict : Type :=
| Leave (out : outcome response)
| Retry (last_err : last_error) (sleep_s : Z).

Section Api.
Context `{Web}.

Definition one_attempt (r : reply) (attempt : Z) : verdict :=
  match r with
  | Responds resp =>
      if status_code resp =? 200 then Leave (Returned resp)
      else
        let last_err :=
          HttpError (status_code resp) (substring 0 200 (text resp)) in
        if (status_code resp =? 429) || (status_code resp =? 503) then
          match retry_after resp with
          | Some ra =>
              if negb (String.eqb ra "") && isdigit ra then
                match int_of_digits int_max_str_digits ra with
                | Some n => Retry last_err n
                | None => Leave (Raised (IntValueError ra))
                end
              else Retry last_err (Z.min (2 ^ attempt) 16)
          | None => Retry last_err (Z.min (2 ^ attempt) 16)
          end
        else Retry last_err (Z.min (2 ^ attempt) 8)
  | Fails true e => Retry (Caught e) (Z.min (2 ^ attempt) 8)
  | Fails false e => Leave (Raised (FromGet e))
  end.

(** The loop [for attempt in range(retries + 1)] over the attempts that
    are left, and the [raise] after it. *)
Fixpoint attempts (rq : request) (retries : Z) (todo : list Z)
    (last_err : option last_error) (st : net) : net * outcome response :=
  match todo with
  | [] => (st, Raised (ApiError (rq_url rq) last_err))
  | attempt :: rest =>
      let st1 := {| _SESSION := _SESSION st; sessions_made := sessions_made st;
                    sent := sent st ++ [rq]; slept := slept st |} in
      match one_attempt (sess_get (sent st) rq) attempt with
      | Leave out => (st1, out)
      | Retry err sleep_s =>
          if attempt <? retries then
            match time_sleep sleep_s attempt with
            | Some e => (st1, Raised (FromSleep e))
            | None =>
                attempts rq retries rest (Some err)
                  {| _SESSION := _SESSION st1;
                     sessions_made := sessions_made st1;
                     sent := sent st1;
                     slept := slept st1 ++ [(sleep_s, attempt)] |}
            end
          else attempts rq retries rest (Some err) st1
      end
  end.

Definition safe_get (url : string) (timeout : timeout_arg) (retries : Z)
    (params : option (list (string * Z))) (st : net)
  : net * outcome response :=
  let '(st1, sess) := get_session st in
  attempts {| rq_session := sess; rq_url := url; rq_params := params;
              rq_timeout := timeout |}
    retries (range (retries + 1)) None st1.

End Api.

(** A server that is busy twice, then answers. *)
Definition busy : response :=
  {| status_code := 503; retry_after := None; text := "busy" |}.

Definition fine : response :=
  {| status_code := 200; retry_after := None; text := "[]" |}.

Definition sample_web : Web :=
  {| sess_get := fun sent _ =>
       if (length sent <? 2)%nat then Responds busy else Responds fine;
     time_sleep := fun _ _ => None;
     int_max_str_digits := 4300 |}.

(** A server that asks for a pause in superscript digits. *)
Definition odd_pause : response :=
  {| status_code := 429;
     retry_after := Some (String (ascii_of_N 178) "");
     text := "" |}.

Definition odd_web : Web :=
  {| sess_get := fun _ _ => Responds odd_pause;
     time_sleep := fun _ _ => None;
     int_max_str_digits := 4300 |}.

Definition new_net : net :=
  {| _SESSION := None; sessions_made := 0; sent := []; slept := [] |}.

(** * Properties *)

(** ** The MD5 object does not depend on how the input is cut *)

Section MD5_streaming.
Import MD5.

Lemma absorb_unfold h data :
  absorb h data =
  if (64 <=? length data)%nat
  then absorb (compress h (firstn 64 data)) (skipn 64 data)
  else (h, data).
Proof.
  destruct (Nat.leb_spec 64 (length data)); rewrite absorb_equation_1;
    destruct (le_lt_dec 64 (length data)); (reflexivity || lia).
Qed.

Lemma absorb_app h x y :
  absorb h (x ++ y) = let '(h1, r) := absorb h x in absorb h1 (r ++ y).
Proof.
  remember (length x) as n eqn:Hn. revert h x Hn.
  induction n as [n IH] using lt_wf_ind. intros h x ->.
  rewrite (absorb_unfold h x).
  destruct (64 <=? length x)%nat eqn:Hx.
  - apply Nat.leb_le in Hx.
    rewrite (absorb_unfold h (x ++ y)).
    rewrite length_app.
    rewrite (proj2 (Nat.leb_le 64 (length x + length y)) ltac:(lia)).
    rewrite firstn_app, skipn_app.
    replace (64 - length x)%nat with O by lia. simpl.
    rewrite app_nil_r.
    apply (IH (length (skipn 64 x))); [rewrite length_skipn; lia | done].
  - done.
Qed.

Lemma update_app o a b : update (update o a) b = update o (a ++ b).
Proof.
  unfold update. destruct o as [h buf len]; simpl.
  rewrite app_assoc, (absorb_app h (buf ++ a) b).
  destruct (absorb h (buf ++ a)) as [h1 r]; simpl.
  destruct (absorb h1 (r ++ b)) as [h2 r2].
  f_equal. rewrite length_app. lia.
Qed.

(** Any sequence of [update] calls amounts to one call on the
    concatenation. *)
Lemma update_chunks o a chunks :
  fold_left update chunks (update o a) = update o (a ++ concat chunks).
Proof.
  revert a. induction chunks as [|c chunks IH]; intros a; simpl.
  - by rewrite app_nil_r.
  - by rewrite update_app, IH, app_assoc.
Qed.

Lemma md5_loop_step chunk_size o rest :
  md5_loop chunk_size o rest =
  match read chunk_size rest with
  | ([], _) => o
  | (chunk, rest') => md5_loop chunk_size (update o chunk) rest'
  end.
Proof.
  funelim (md5_loop chunk_size o rest);
    match goal with e : read _ _ = _ |- _ => by rewrite e end.
Qed.

Lemma read_split n rest chunk rest' :
  read n rest = (chunk, rest') -> rest = chunk ++ rest'.
Proof.
  unfold read. destruct (n <? 0); intros Hr; injection Hr as <- <-.
  - by rewrite app_nil_r.
  - by rewrite firstn_skipn.
Qed.

Lemma read_nonempty n rest rest' :
  n <> 0 -> read n rest = ([], rest') -> rest = [].
Proof.
  unfold read. intros Hn. destruct (n <? 0) eqn:Hneg; intros Hr.
  - by injection Hr as -> _.
  - injection Hr as Hr _. destruct rest; [done|].
    destruct (Z.to_nat n) eqn:Hz; [|discriminate].
    apply Z.ltb_ge in Hneg. lia.
Qed.

Lemma md5_loop_nil chunk_size o : md5_loop chunk_size o [] = o.
Proof.
  rewrite md5_loop_step.
  destruct (read chunk_size []) as [chunk rest'] eqn:Hr.
  apply read_split in Hr. symmetry in Hr. apply app_eq_nil in Hr as [-> _].
  done.
Qed.

Lemma md5_loop_update chunk_size o rest :
  chunk_size <> 0 -> rest <> [] ->
  md5_loop chunk_size o rest = update o rest.
Proof.
  intros Hcs. remember (length rest) as n eqn:Hn. revert o rest Hn.
  induction n as [n IH] using lt_wf_ind. intros o rest -> Hrest.
  rewrite md5_loop_step.
  destruct (read chunk_size rest) as [chunk rest'] eqn:Hread.
  pose proof (read_split _ _ _ _ Hread) as Hsplit.
  destruct chunk as [|b chunk].
  { by apply read_nonempty in Hread. }
  destruct rest' as [|b' rest'].
  - rewrite md5_loop_nil. by rewrite Hsplit, app_nil_r.
  - rewrite (IH (length (b' :: rest'))); [| |done|done].
    + by rewrite update_app, Hsplit.
    + eapply read_shrinks; eauto.
Qed.

Lemma md5_loop_one_pass chunk_size data :
  chunk_size <> 0 ->
  hexdigest (md5_loop chunk_size md5_new data) = md5_one_pass data.
Proof.
  intros Hcs. destruct data as [|b data].
  - by rewrite md5_loop_nil.
  - by rewrite md5_loop_update.
Qed.

(** The object agrees with the definition of the RFC. *)
Lemma digest_rfc data : digest (update md5_new data) = md5_rfc data.
Proof.
  unfold digest, update, md5_rfc, md5_new; simpl.
  rewrite (absorb_app init_words data).
  destruct (absorb init_words data) as [h r]; simpl.
  done.
Qed.

End MD5_streaming.

(** C1. The hash that [_md5] computes by reading the file in chunks of
    [1 << 20] bytes and updating the MD5 object with each, which both
    entry points record as [core.hash_md5], is the MD5 of the whole
    content of the file computed in one pass, which is the digest that
    RFC 1321 defines. *)
Theorem md5_chunked_equals_whole (E : env) (fs : filesystem) (path : string)
    (data : list byte) :
  fs !! path = Some data ->
  _md5 fs path default_chunk_size = Ok (md5_one_pass data)
  /\ (exists core, make_core E fs path = Ok core
                    /\ hash_md5 core = md5_one_pass data)
  /\ md5_one_pass data = MD5.hex_of_bytes (MD5.md5_rfc data).
Proof.
  intros Hfile.
  assert (Hmd5 : _md5 fs path default_chunk_size = Ok (md5_one_pass data)).
  { unfold _md5. rewrite Hfile. f_equal. by apply md5_loop_one_pass. }
  split; [exact Hmd5|]. split.
  - unfold make_core. rewrite Hfile, Hmd5. simpl. eauto.
  - unfold md5_one_pass, MD5.hexdigest. by rewrite digest_rfc.
Qed.

Lemma md5_chunked_equals_whole_witness :
  sample_fs !! sample_path = Some sample_file
  /\ _md5 sample_fs sample_path default_chunk_size
     = Ok (md5_one_pass sample_file).
Proof.
  assert (Hfile : sample_fs !! sample_path = Some sample_file)
    by (vm_compute; reflexivity).
  split; [exact Hfile|].
  exact (proj1 (md5_chunked_equals_whole sample_env sample_fs sample_path
                  sample_file Hfile)).
Defined.

Example md5_sample_value :
  md5_one_pass sample_file = "37218cdfc314a45121fa48af6b3ce4ec".
Proof. vm_compute. reflexivity. Qed.

(** Test vectors of RFC 1321, and an input longer than one block. *)
Example md5_empty : md5_one_pass [] = "d41d8cd98f00b204e9800998ecf8427e".
Proof. vm_compute. reflexivity. Qed.

Example md5_abc :
  md5_one_pass (bytes_of_string "abc") = "900150983cd24fb0d6963f7d28e17f72".
Proof. vm_compute. reflexivity. Qed.

Example md5_message_digest :
  md5_one_pass (bytes_of_string "message digest")
  = "f96b697d7cb7938d525a2f31aaf161d0".
Proof. vm_compute. reflexivity. Qed.

Example md5_two_blocks :
  md5_one_pass (repeat "a"%byte 120) = "5f61c0ccad4cac44c75ff505e1f1e537".
Proof. vm_compute. reflexivity. Qed.

Example md5_small_chunks :
  _md5 sample_fs sample_path 7 = Ok "37218cdfc314a45121fa48af6b3ce4ec".
Proof. vm_compute. reflexivity. Qed.

(** ** Counting lines *)

Lemma count_loop_step count rest :
  count_loop count rest =
  match readline rest with
  | ([], _) => count
  | (_, rest') => count_loop (count + 1) rest'
  end.
Proof.
  funelim (count_loop count rest);
    match goal with e : readline _ = _ |- _ => by rewrite e end.
Qed.

Lemma open_line_cons flag b rest :
  open_line flag (b :: rest) = open_line false (b :: rest).
Proof. reflexivity. Qed.

Lemma newline_count_cons b rest :
  newline_count (b :: rest)
  = (if Byte.eqb b x0a then 1 else 0) + newline_count rest.
Proof.
  unfold newline_count. simpl. destruct (Byte.eqb b x0a); simpl; lia.
Qed.

Lemma readline_nil_iff rest rest' : readline rest = ([], rest') -> rest = [].
Proof.
  destruct rest as [|b rest]; [done|]. simpl.
  destruct (Byte.eqb b x0a); [done|]. by destruct (readline rest).
Qed.

(** Reading one line takes one off the count of lines that remain. *)
Lemma readline_count rest line rest' :
  rest <> [] -> readline rest = (line, rest') ->
  line_count_spec rest = 1 + line_count_spec rest'.
Proof.
  revert line rest'. induction rest as [|b rest IH]; [done|].
  intros line rest' _. unfold line_count_spec. rewrite newline_count_cons.
  simpl. destruct (Byte.eqb b x0a) eqn:Hb; simpl.
  - intros [= <- <-]. lia.
  - destruct (readline rest) as [l r] eqn:Hr. intros [= <- <-].
    destruct rest as [|b' rest].
    + simpl in Hr. injection Hr as <- <-. reflexivity.
    + rewrite (open_line_cons true).
      specialize (IH l r ltac:(done) eq_refl). unfold line_count_spec in IH.
      lia.
Qed.

Lemma count_loop_spec count data :
  count_loop count data = count + line_count_spec data.
Proof.
  remember (length data) as n eqn:Hn. revert count data Hn.
  induction n as [n IH] using lt_wf_ind. intros count data ->.
  rewrite count_loop_step.
  destruct (readline data) as [line rest'] eqn:Hr.
  destruct line as [|b line].
  - apply readline_nil_iff in Hr as ->. unfold line_count_spec. simpl.
    unfold newline_count. simpl. lia.
  - assert (Hne : data <> []) by (intros ->; discriminate).
    rewrite (IH (length rest')); [| eapply readline_shrinks; eauto | done].
    rewrite (readline_count _ _ _ Hne Hr). lia.
Qed.

Lemma line_count_spec_nonneg data : 0 <= line_count_spec data.
Proof.
  unfold line_count_spec, newline_count.
  destruct (open_line false data); simpl; lia.
Qed.

(** ** The manifest of a file *)

Section Manifest_properties.
Context `{ManifestIO} `{FR : Frames}.
Variable E : env.

Lemma py_exists_true (fs : filesystem) path data :
  fs !! path = Some data -> py_exists fs path = true.
Proof. intros Hf. unfold py_exists. apply bool_decide_eq_true. eauto. Qed.

Lemma py_exists_false (fs : filesystem) path :
  fs !! path = None -> py_exists fs path = false.
Proof.
  intros Hf. unfold py_exists. apply bool_decide_eq_false.
  rewrite Hf. by intros [? ?].
Qed.

Lemma make_core_ok (fs : filesystem) path data :
  fs !! path = Some data ->
  make_core E fs path =
  Ok {| arquivo := basename path; diretorio := dirname path;
        tamanho_bytes := getsize data; hash_md5 := md5_one_pass data;
        gerado_em := now_iso E |}.
Proof.
  intros Hf. unfold make_core, _md5. rewrite Hf. simpl.
  by rewrite md5_loop_one_pass.
Qed.

Lemma _count_file_lines_spec (fs : filesystem) path data :
  fs !! path = Some data ->
  _count_file_lines fs path = Ok (line_count_spec data).
Proof.
  intros Hf. unfold _count_file_lines. rewrite Hf.
  by rewrite count_loop_spec.
Qed.

Lemma data_rows_spec header rows :
  data_rows header rows = if header && (0 <? rows) then rows - 1 else rows.
Proof.
  unfold data_rows. destruct header; simpl; [|done].
  destruct (Z.eqb_spec rows 0) as [->|Hne]; simpl; [done|].
  done.
Qed.

(** What the writing of the manifest changes, and what is there when it
    returns. *)
Lemma dump_manifest_spec (fs fs' : filesystem) path m r :
  dump_manifest fs path m = (fs', r) ->
  (forall p, p <> path +:+ ".manifest.json" -> fs' !! p = fs !! p)
  /\ forall out, r = Ok out ->
       out = path +:+ ".manifest.json"
       /\ exists written,
           json_dump m = (written, None) /\ fs' = <[out := written]> fs.
Proof.
  unfold dump_manifest.
  destruct (open_w fs (path +:+ ".manifest.json")) as [e|].
  { intros [= <- <-]. by split. }
  destruct (json_dump m) as [written [e|]] eqn:Hdump; intros [= <- <-].
  - split; [intros p Hp; by rewrite lookup_insert_ne|done].
  - split; [intros p Hp; by rewrite lookup_insert_ne|].
    intros out [= <-]. split; [done|]. by exists written.
Qed.

(** What [write_manifest_from_file] does for a file that exists. *)
Lemma write_manifest_from_file_ok (fs : filesystem) path data meta header infer
    line_count extra :
  fs !! path = Some data ->
  exists m,
    manifest_from_file E fs path meta header infer line_count extra = Ok m
    /\ write_manifest_from_file E fs path meta header infer line_count extra
       = dump_manifest fs path m
    /\ hash_md5 (m_core m) = md5_one_pass data
    /\ linhas (m_schema_stats m)
       = if line_count then Some (data_rows header (line_count_spec data))
         else None.
Proof.
  intros Hf. unfold write_manifest_from_file, manifest_from_file.
  rewrite (py_exists_true _ _ _ Hf), (make_core_ok _ _ _ Hf). simpl.
  rewrite (_count_file_lines_spec _ _ _ Hf).
  destruct line_count; simpl; eexists; (split; [reflexivity|]);
    (split; [reflexivity|]); split; reflexivity.
Qed.

End Manifest_properties.

(** C9, as the code has it.  For a file that exists, with line counting
    on, [write_manifest_from_file] writes a manifest whose
    [schema_stats.linhas] is the number of lines of the file, counted
    byte by byte (a last line without a newline counts), less one when
    [header] is set and the file has at least one line; an empty file
    is reported with 0 rows whatever [header] is.  That manifest is
    what is handed to the writer, and what the manifest file holds when
    the call returns. *)
Theorem manifest_rows_of_file `{ManifestIO} (E : env) (fs : filesystem)
    (path : string) (data : list byte) (meta : DatasetInfo)
    (header infer : bool) (extra : option (list (string * scalar))) :
  fs !! path = Some data ->
  _count_file_lines fs path = Ok (line_count_spec data)
  /\ exists m,
      write_manifest_from_file E fs path meta header infer true extra
      = dump_manifest fs path m
      /\ manifest_from_file E fs path meta header infer true extra = Ok m
      /\ linhas (m_schema_stats m)
         = Some (if header && (0 <? line_count_spec data)
                 then line_count_spec data - 1
                 else line_count_spec data)
      /\ forall fs' out,
          write_manifest_from_file E fs path meta header infer true extra
          = (fs', Ok out) ->
          out = path +:+ ".manifest.json"
          /\ exists written,
              json_dump m = (written, None) /\ fs' = <[out := written]> fs.
Proof.
  intros Hf. split; [by apply _count_file_lines_spec|].
  destruct (write_manifest_from_file_ok E fs path data meta header infer true
              extra Hf) as (m & Hm & Hw & _ & Hl).
  exists m. split; [exact Hw|]. split; [exact Hm|].
  split; [by rewrite Hl, data_rows_spec|].
  intros fs' out Hret. rewrite Hw in Hret.
  by apply (proj2 (dump_manifest_spec _ _ _ _ _ Hret)).
Qed.

Lemma manifest_rows_of_file_witness :
  sample_fs !! sample_path = Some sample_file
  /\ exists m,
      manifest_from_file (H := sample_io) sample_env sample_fs sample_path
        no_meta true false true None = Ok m
      /\ linhas (m_schema_stats m) = Some 2.
Proof.
  assert (Hfile : sample_fs !! sample_path = Some sample_file)
    by (vm_compute; reflexivity).
  split; [exact Hfile|].
  destruct (manifest_rows_of_file (H := sample_io) sample_env sample_fs
              sample_path sample_file no_meta true false None Hfile)
    as (_ & m & _ & Hm & Hl & _).
  exists m. split; [exact Hm|]. rewrite Hl. vm_compute. reflexivity.
Defined.

(** C9, as stated, fails on an empty file with [header] set: the file
    has 0 lines, the claim asks for 0 - 1, and the manifest has 0. *)
Lemma header_decrement_skipped_on_empty_file :
  empty_fs !! empty_path = Some []
  /\ rbind (manifest_from_file (H := sample_io) sample_env empty_fs empty_path
              no_meta true false true None)
        (fun m => Ok (linhas (m_schema_stats m)))
     = Ok (Some 0)
  /\ line_count_spec [] - 1 = -1
  /\ ~ (forall (fs : filesystem) (path : string) (data : list byte),
          fs !! path = Some data ->
          exists m,
            manifest_from_file (H := sample_io) sample_env fs path no_meta
              true false true None = Ok m
            /\ linhas (m_schema_stats m) = Some (line_count_spec data - 1)).
Proof.
  assert (Hf : empty_fs !! empty_path = Some []) by (vm_compute; reflexivity).
  split; [exact Hf|]. split; [vm_compute; reflexivity|].
  split; [vm_compute; reflexivity|].
  intros Hall. destruct (Hall empty_fs empty_path [] Hf) as (m & Hm & Hl).
  vm_compute in Hm. injection Hm as <-. vm_compute in Hl. discriminate.
Qed.

(** C10.  With [header] set and line counting on, the row count that
    [write_manifest_from_file] reports is never negative; for an empty
    file it is 0; and the count of lines is lowered, by one, only when
    it is positive.  The manifest with that row count is what is handed
    to the writer, and what the manifest file holds when the call
    returns. *)
Theorem manifest_rows_never_negative `{ManifestIO} (E : env) (fs : filesystem)
    (path : string) (data : list byte) (meta : DatasetInfo)
    (infer : bool) (extra : option (list (string * scalar))) :
  fs !! path = Some data ->
  exists m rows,
    write_manifest_from_file E fs path meta true infer true extra
    = dump_manifest fs path m
    /\ linhas (m_schema_stats m) = Some rows
    /\ 0 <= rows
    /\ (data = [] -> rows = 0)
    /\ (rows <> line_count_spec data ->
        0 < line_count_spec data /\ rows = line_count_spec data - 1)
    /\ forall fs' out,
        write_manifest_from_file E fs path meta true infer true extra
        = (fs', Ok out) ->
        out = path +:+ ".manifest.json"
        /\ exists written,
            json_dump m = (written, None) /\ fs' = <[out := written]> fs.
Proof.
  intros Hf.
  destruct (write_manifest_from_file_ok E fs path data meta true infer true
              extra Hf) as (m & _ & Hw & _ & Hl).
  exists m, (data_rows true (line_count_spec data)).
  split; [exact Hw|]. split; [exact Hl|].
  assert (Hret : forall fs' out,
             write_manifest_from_file E fs path meta true infer true extra
             = (fs', Ok out) ->
             out = path +:+ ".manifest.json"
             /\ exists written,
                 json_dump m = (written, None) /\ fs' = <[out := written]> fs).
  { intros fs' out Hret. rewrite Hw in Hret.
    by apply (proj2 (dump_manifest_spec _ _ _ _ _ Hret)). }
  rewrite data_rows_spec. simpl.
  pose proof (line_count_spec_nonneg data) as Hnn.
  destruct (Z.ltb_spec 0 (line_count_spec data)) as [Hpos|Hle].
  - split; [lia|]. split; [by intros ->|]. split; [|exact Hret]. intros _. lia.
  - split; [lia|]. split; [intros _; lia|]. split; [|exact Hret].
    intros Hne. lia.
Qed.

Lemma manifest_rows_never_negative_witness :
  empty_fs !! empty_path = Some []
  /\ exists m,
      write_manifest_from_file (H := sample_io) sample_env empty_fs empty_path
        no_meta true false true None
      = (<[empty_path +:+ ".manifest.json" := fst (@json_dump sample_io m)]>
           empty_fs,
         Ok (empty_path +:+ ".manifest.json"))
      /\ linhas (m_schema_stats m) = Some 0.
Proof.
  assert (Hfile : empty_fs !! empty_path = Some [])
    by (vm_compute; reflexivity).
  split; [exact Hfile|].
  destruct (manifest_rows_never_negative (H := sample_io) sample_env empty_fs
              empty_path [] no_meta false None Hfile)
    as (m & rows & Hw & Hl & _ & H0 & _).
  exists m. split; [by rewrite Hw|]. rewrite Hl, (H0 eq_refl). reflexivity.
Defined.

(** ** A manifest for a file that is not there *)

(** C7, as the code has it.  For a path that names no file,
    [write_manifest_from_file] raises the not-found error, and so does
    [write_metadata_from_df] when pandas could be imported; when it
    could not, [write_metadata_from_df] raises its RuntimeError first.
    In every case the file system is left as it was. *)
Theorem manifest_of_missing_file `{ManifestIO} `{FR : Frames}
    (E : env) (fs : filesystem)
    (df : DataFrame) (path : string) (meta : DatasetInfo)
    (header infer line_count include_dtypes include_nulls include_preview : bool)
    (extra : option (list (string * scalar))) :
  fs !! path = None ->
  write_manifest_from_file E fs path meta header infer line_count extra
  = (fs, Raise (not_found path))
  /\ write_metadata_from_df E fs df path meta include_dtypes include_nulls
       include_preview extra
     = (fs, Raise (if pd_available E then not_found path else pandas_missing)).
Proof.
  intros Hf. unfold write_manifest_from_file, write_metadata_from_df.
  rewrite (py_exists_false _ _ Hf). simpl.
  by destruct (pd_available E).
Qed.

Lemma manifest_of_missing_file_witness :
  sample_fs !! missing_path = None
  /\ write_manifest_from_file (H := sample_io) sample_env sample_fs missing_path
       no_meta true true true None
     = (sample_fs, Raise (not_found missing_path))
  /\ write_metadata_from_df (H := sample_io) (FR := sample_frames)
       sample_env sample_fs sample_df
       missing_path no_meta true true false None
     = (sample_fs, Raise (not_found missing_path)).
Proof.
  assert (Hfile : sample_fs !! missing_path = None)
    by (vm_compute; reflexivity).
  split; [exact Hfile|].
  exact (manifest_of_missing_file (H := sample_io) (FR := sample_frames)
           sample_env sample_fs
           sample_df missing_path no_meta true true true true true false None
           Hfile).
Defined.

(** C7, as stated, fails for [write_metadata_from_df] where pandas could
    not be imported: the error is the RuntimeError of the first guard,
    not a not-found error. *)
Lemma missing_file_without_pandas :
  sample_fs !! missing_path = None
  /\ write_metadata_from_df (H := sample_io) (FR := sample_frames)
       bare_env sample_fs sample_df
       missing_path no_meta true true false None
     = (sample_fs, Raise pandas_missing)
  /\ is_not_found pandas_missing = false
  /\ ~ (forall (E : env) (fs : filesystem) (df : DataFrame) (path : string),
          fs !! path = None ->
          exists msg,
            snd (write_metadata_from_df (H := sample_io) (FR := sample_frames)
                   E fs df path no_meta
                   true true false None)
            = Raise (FileNotFoundError msg)).
Proof.
  assert (Hf : sample_fs !! missing_path = None) by (vm_compute; reflexivity).
  assert (Hw : write_metadata_from_df (H := sample_io) (FR := sample_frames)
                 bare_env sample_fs
                 sample_df missing_path no_meta true true false None
               = (sample_fs, Raise pandas_missing))
    by (vm_compute; reflexivity).
  split; [exact Hf|]. split; [exact Hw|]. split; [reflexivity|].
  intros Hall.
  destruct (Hall bare_env sample_fs sample_df missing_path Hf) as (msg & Hmsg).
  rewrite Hw in Hmsg. discriminate.
Qed.

(** ** Text lemmas *)

Lemma str_app_cons x (a b : string) : String x a +:+ b = String x (a +:+ b).
Proof. reflexivity. Qed.

Lemma str_app_nil_l (a : string) : "" +:+ a = a.
Proof. reflexivity. Qed.

Lemma str_app_assoc (a b c : string) : (a +:+ b) +:+ c = a +:+ (b +:+ c).
Proof.
  induction a as [|x a IH]; [done|]. rewrite !str_app_cons. by rewrite IH.
Qed.

Lemma str_app_nil_r (a : string) : a +:+ "" = a.
Proof. induction a as [|x a IH]; [done|]. by rewrite str_app_cons, IH. Qed.

Lemma contains_refl s : contains s s.
Proof. exists "", "". by rewrite str_app_nil_l, str_app_nil_r. Qed.

Lemma contains_app_l p sub s : contains sub s -> contains sub (p +:+ s).
Proof.
  intros (pre & post & ->). exists (p +:+ pre), post.
  by rewrite str_app_assoc.
Qed.

Lemma contains_app_r sub s q : contains sub s -> contains sub (s +:+ q).
Proof.
  intros (pre & post & ->). exists pre, (post +:+ q).
  by rewrite !str_app_assoc.
Qed.

Lemma join_cons2 sep x y l :
  join sep (x :: y :: l) = x +:+ sep +:+ join sep (y :: l).
Proof. reflexivity. Qed.

Lemma contains_join sep x l : In x l -> contains x (join sep l).
Proof.
  induction l as [|y l IH]; [done|]. intros Hin.
  destruct l as [|z l].
  - destruct Hin as [->|[]]. apply contains_refl.
  - rewrite join_cons2. destruct Hin as [->|Hin].
    + apply contains_app_r, contains_refl.
    + apply contains_app_l, contains_app_l. by apply IH.
Qed.

Lemma has_column_In df col : has_column df col = true <-> In col (columns df).
Proof.
  unfold has_column. rewrite bool_decide_eq_true. apply list_elem_of_In.
Qed.

Lemma has_column_not_In df col :
  has_column df col = false <-> ~ In col (columns df).
Proof.
  rewrite <- has_column_In. destruct (has_column df col); split; try done.
Qed.

(** *** Looking a label up *)

Lemma labelled_In df col s : In s (labelled df col) <-> In (col, s) df.
Proof.
  induction df as [|[c s0] df IH]; simpl; [done|].
  destruct (String.eqb_spec c col) as [->|Hne]; simpl; rewrite IH.
  - split; [intros [->|?]; eauto|]. intros [[= ->]|?]; eauto.
  - split; [by right|]. intros [[= ? ?]|?]; [done|done].
Qed.

Lemma labelled_length df col : length (labelled df col) = occurrences df col.
Proof.
  unfold occurrences, columns. induction df as [|[c s0] df IH]; simpl; [done|].
  destruct (String.eqb_spec c col) as [->|Hne].
  - destruct (string_dec col col); [|done]. simpl. by rewrite IH.
  - destruct (string_dec c col); [done|]. exact IH.
Qed.

Lemma occurrences_In df col : (0 < occurrences df col)%nat <-> In col (columns df).
Proof. unfold occurrences. symmetry. apply count_occ_In. Qed.

Lemma NoDup_occurrences df col :
  NoDup (columns df) -> (occurrences df col <= 1)%nat.
Proof.
  intros Hnd. unfold occurrences.
  apply (proj1 (List.NoDup_count_occ string_dec (columns df))).
  by apply NoDup_ListNoDup.
Qed.

Lemma NoDup_labels_once df fields : NoDup (columns df) -> labels_once df fields.
Proof. intros Hnd col _. by apply NoDup_occurrences. Qed.

(** [df[col]] for a label that one column carries. *)
Lemma getitem_once df col :
  In col (columns df) -> (occurrences df col <= 1)%nat ->
  exists s, labelled df col = [s] /\ getitem df col = Ok (Column s)
            /\ In (col, s) df.
Proof.
  intros Hin Hocc. apply occurrences_In in Hin.
  rewrite <- labelled_length in Hin, Hocc. unfold getitem.
  destruct (labelled df col) as [|s [|s' l]] eqn:Hl; simpl in *; try lia.
  exists s. split; [done|]. split; [done|].
  apply labelled_In. rewrite Hl. by left.
Qed.

(** [df[col]] for a label that several columns carry. *)
Lemma getitem_repeated df col :
  (2 <= occurrences df col)%nat -> exists cols, getitem df col = Ok (Frame cols).
Proof.
  rewrite <- labelled_length. unfold getitem.
  destruct (labelled df col) as [|s [|s' l]]; simpl; try lia. eauto.
Qed.

Lemma getitem_Column df col s :
  getitem df col = Ok (Column s) <-> labelled df col = [s].
Proof.
  unfold getitem. destruct (labelled df col) as [|s0 [|s1 l]]; split; try done.
  - by intros [= ->].
  - by intros [= ->].
Qed.

Lemma getitem_Column_In df col s :
  getitem df col = Ok (Column s) ->
  In (col, s) df /\ In col (columns df) /\ occurrences df col = 1%nat.
Proof.
  intros Hg. apply getitem_Column in Hg.
  assert (Hin : In (col, s) df) by (apply labelled_In; rewrite Hg; by left).
  split; [done|]. split.
  - change col with (fst (col, s)). by apply in_map.
  - by rewrite <- labelled_length, Hg.
Qed.

Lemma getitem_unique df col s s' :
  getitem df col = Ok (Column s) -> In (col, s') df -> s' = s.
Proof.
  intros Hg Hin. apply getitem_Column in Hg. apply labelled_In in Hin.
  rewrite Hg in Hin. by destruct Hin as [->|[]].
Qed.

(** With distinct labels, each column is found under its label. *)
Lemma getitem_In df c s :
  NoDup (columns df) -> In (c, s) df -> getitem df c = Ok (Column s).
Proof.
  intros Hnd Hin.
  assert (Hc : In c (columns df)) by (change c with (fst (c, s)); by apply in_map).
  destruct (getitem_once df c Hc (NoDup_occurrences df c Hnd)) as (s0 & _ & Hg & _).
  rewrite Hg. by rewrite (getitem_unique df c s0 s Hg Hin).
Qed.

(** ** Required columns *)

(** C6.  [ensure_required_columns] raises a SchemaError exactly when a
    required column is not in the dataset; the message is the fixed
    prefix followed by the list of the missing names, which holds the
    required names that are not column labels, all of them and nothing
    else, each of them readable in the message. *)
Theorem ensure_required_columns_spec (df : DataFrame) (required : list string) :
  let missing := List.filter (fun c => negb (has_column df c)) required in
  (forall c, In c missing <-> In c required /\ ~ In c (columns df))
  /\ ((exists e, ensure_required_columns df required = Raise e)
      <-> exists c, In c required /\ ~ In c (columns df))
  /\ match ensure_required_columns df required with
     | Ok _ => forall c, In c required -> In c (columns df)
     | Raise e =>
         e = SchemaError ("Colunas ausentes no DataFrame: "
                          +:+ py_repr_list missing)
         /\ forall c, In c missing ->
              contains (py_repr c)
                ("Colunas ausentes no DataFrame: " +:+ py_repr_list missing)
     end.
Proof.
  intros missing.
  assert (Hmem : forall c, In c missing <-> In c required /\ ~ In c (columns df)).
  { intros c. unfold missing. rewrite filter_In, negb_true_iff.
    by rewrite has_column_not_In. }
  split; [exact Hmem|].
  unfold ensure_required_columns. fold missing.
  destruct missing as [|m ms] eqn:Hm.
  - split.
    + split; [by intros [? ?]|]. intros (c & Hc). by apply Hmem in Hc.
    + intros c Hc. destruct (in_dec string_dec c (columns df)) as [|Hn]; [done|].
      by destruct (proj2 (Hmem c) (conj Hc Hn)).
  - split.
    + split; [|eauto]. intros _. exists m. apply Hmem. by left.
    + split; [done|]. intros c Hc.
      apply contains_app_l. unfold py_repr_list.
      apply contains_app_l, contains_app_r, contains_join, in_map, Hc.
Qed.

Example ensure_required_columns_abc :
  ensure_required_columns sample_df ["a"; "b"; "c"]
  = Raise (SchemaError "Colunas ausentes no DataFrame: ['b']").
Proof. vm_compute. reflexivity. Qed.

(** ** Column types after the casts *)

Lemma frame_getattr_other col name :
  col <> name -> frame_getattr col name = Raise (no_attribute name).
Proof.
  intros Hne. unfold frame_getattr.
  destruct (String.eqb_spec name col) as [->|_]; done.
Qed.

Lemma frame_getattr_cases col name :
  (col = name /\ frame_getattr col name = Ok tt)
  \/ (col <> name /\ frame_getattr col name = Raise (no_attribute name)).
Proof.
  unfold frame_getattr.
  destruct (String.eqb_spec name col) as [->|Hne]; [by left|].
  right. split; [|done]. by intros ->.
Qed.

Section Check_dtypes.
Context `{FR : Frames}.

Lemma column_test_absent df col accepts expected on_frame :
  ~ In col (columns df) ->
  column_test df col accepts expected on_frame = Ok [].
Proof.
  intros Hn. unfold column_test.
  by rewrite (proj2 (has_column_not_In df col) Hn).
Qed.

Lemma column_test_once df col s accepts expected on_frame :
  getitem df col = Ok (Column s) ->
  column_test df col accepts expected on_frame
  = Ok (if accepts (dtype_of s) then []
        else [(col, expected, dtype_str (dtype_of s))]).
Proof.
  intros Hg. unfold column_test.
  destruct (getitem_Column_In _ _ _ Hg) as (_ & Hin & _).
  by rewrite (proj2 (has_column_In df col) Hin), Hg.
Qed.

Lemma column_test_repeated df col accepts expected on_frame :
  (2 <= occurrences df col)%nat ->
  column_test df col accepts expected on_frame
  = on_frame col (labelled df col).
Proof.
  intros Hocc. unfold column_test, getitem.
  assert (Hin : In col (columns df)) by (apply occurrences_In; lia).
  rewrite (proj2 (has_column_In df col) Hin).
  rewrite <- labelled_length in Hocc.
  by destruct (labelled df col) as [|s [|s' l]]; simpl in *; try lia.
Qed.

(** A test raises only for a label that several columns carry. *)
Lemma column_test_raise df col accepts expected on_frame e :
  column_test df col accepts expected on_frame = Raise e ->
  (2 <= occurrences df col)%nat /\ on_frame col (labelled df col) = Raise e.
Proof.
  unfold column_test, getitem. destruct (has_column df col) eqn:Hc; [|done].
  apply has_column_In, occurrences_In in Hc.
  rewrite <- !labelled_length in *.
  destruct (labelled df col) as [|s [|s' l]]; simpl in *; try done; [lia|].
  intros He. split; [lia|done].
Qed.

Lemma text_of_frame_raise col cols e :
  text_of_frame col cols = Raise e -> e = no_dtype /\ col <> "dtype".
Proof.
  unfold text_of_frame.
  destruct (frame_getattr_cases col "dtype") as [[-> ->]|[Hne ->]]; simpl.
  - done.
  - by intros [= <-].
Qed.

Lemma text_of_frame_other col cols :
  col <> "dtype" -> text_of_frame col cols = Raise no_dtype.
Proof.
  intros Hne. unfold text_of_frame. by rewrite (frame_getattr_other _ _ Hne).
Qed.

(** The tests that read [.kind] always stop on a DataFrame. *)
Lemma kind_of_frame_raises col cols :
  kind_of_frame col cols
  = Raise (if String.eqb col "dtype" then no_attribute "kind" else no_dtype).
Proof.
  unfold kind_of_frame.
  destruct (frame_getattr_cases col "dtype") as [[-> ->]|[Hne ->]]; simpl.
  - done.
  - by destruct (String.eqb_spec col "dtype").
Qed.

(** One loop of [check_dtypes] over labels that no two columns carry. *)
Lemma wrong_in_once df fields accepts expected on_frame :
  labels_once df fields ->
  exists w,
    wrong_in df fields accepts expected on_frame = Ok w
    /\ forall x, In x w <->
         exists col s, In col fields /\ In (col, s) df
                       /\ accepts (dtype_of s) = false
                       /\ x = (col, expected, dtype_str (dtype_of s)).
Proof.
  induction fields as [|col fields IH]; intros Honce.
  { exists []. split; [done|]. intros x. split; [done|].
    by intros (? & ? & [] & _). }
  destruct IH as (w & Hw & Hin).
  { intros c Hc. apply Honce. by right. }
  simpl. rewrite Hw.
  destruct (in_dec string_dec col (columns df)) as [Hcol|Hcol].
  - destruct (getitem_once df col Hcol (Honce col ltac:(by left)))
      as (s & _ & Hg & Hs).
    rewrite (column_test_once _ _ _ _ _ _ Hg). simpl. eexists. split; [done|].
    intros x. rewrite in_app_iff, Hin. split.
    + intros [Hx|(c & s' & ? & ? & ? & ->)]; [|exists c, s'; by eauto].
      destruct (accepts (dtype_of s)) eqn:Ha; [done|].
      destruct Hx as [<-|[]]. exists col, s. by eauto.
    + intros (c & s' & [<-|Hc] & Hs' & Ha & ->); [|right; by exists c, s'].
      left. rewrite (getitem_unique _ _ _ _ Hg Hs') in *. rewrite Ha. by left.
  - rewrite (column_test_absent _ _ _ _ _ Hcol). simpl. exists w.
    split; [done|].
    intros x. rewrite Hin. split.
    + intros (c & s' & ? & ? & ? & ->). exists c, s'. by eauto.
    + intros (c & s' & [<-|Hc] & Hs' & Ha & ->); [|by exists c, s'].
      exfalso. apply Hcol. change col with (fst (col, s')). by apply in_map.
Qed.

Lemma wrong_in_absent df col fields accepts expected on_frame :
  ~ In col (columns df) ->
  wrong_in df (col :: fields) accepts expected on_frame
  = wrong_in df fields accepts expected on_frame.
Proof.
  intros Hn. simpl. rewrite (column_test_absent _ _ _ _ _ Hn). simpl.
  by destruct (wrong_in df fields accepts expected on_frame).
Qed.

(** A loop raises only at a declared label that several columns carry,
    with what the test makes of the DataFrame. *)
Lemma wrong_in_raise df fields accepts expected on_frame e :
  wrong_in df fields accepts expected on_frame = Raise e ->
  exists col, In col fields /\ (2 <= occurrences df col)%nat
              /\ on_frame col (labelled df col) = Raise e.
Proof.
  induction fields as [|c fields IH]; [done|]. simpl.
  destruct (column_test df c accepts expected on_frame) as [here|e'] eqn:Hc;
    simpl.
  - destruct (wrong_in df fields accepts expected on_frame) as [w|e'];
      [done|]. intros [= <-].
    destruct (IH eq_refl) as (col & Hin & Hocc & He).
    exists col. split; [by right|done].
  - intros [= <-]. apply column_test_raise in Hc as [Hocc He].
    exists c. split; [by left|done].
Qed.

(** A declared label that several columns carry stops the loop, when the
    test stops on its DataFrame. *)
Lemma wrong_in_repeated df fields accepts expected on_frame col :
  In col fields -> (2 <= occurrences df col)%nat ->
  (exists e, on_frame col (labelled df col) = Raise e) ->
  exists e, wrong_in df fields accepts expected on_frame = Raise e.
Proof.
  induction fields as [|c fields IH]; [done|]. intros [->|Hin] Hocc He; simpl.
  - rewrite (column_test_repeated _ _ _ _ _ Hocc).
    destruct He as (e & ->). by eexists.
  - destruct (column_test df c accepts expected on_frame); simpl; [|by eexists].
    destruct (IH Hin Hocc He) as (e & ->). by eexists.
Qed.

Lemma labels_once_app df l1 l2 :
  labels_once df (l1 ++ l2) <-> labels_once df l1 /\ labels_once df l2.
Proof.
  unfold labels_once. split.
  - intros Hl. split; intros c Hc; apply Hl, in_app_iff; eauto.
  - intros [H1 H2] c Hc. apply in_app_iff in Hc as [?|?]; eauto.
Qed.

Lemma accepts_integer_iff d : accepts_integer d = true <-> d = dt_Int64.
Proof. by destruct d. Qed.

Lemma accepts_string_iff d : accepts_string d = true <-> d = dt_object.
Proof. by destruct d. Qed.

Lemma accepts_float_iff d : accepts_float d = true <-> d = dt_float64.
Proof. by destruct d. Qed.

(** [check_dtypes] over labels that no two columns carry: the entries
    it collects, and what it returns. *)
Lemma check_dtypes_once df I S F :
  labels_once df (I ++ S ++ F) ->
  exists w1 w2 w3,
    wrong_in df I accepts_integer "Int64" text_of_frame = Ok w1
    /\ wrong_in df S accepts_string "string(object)" kind_of_frame = Ok w2
    /\ wrong_in df F accepts_float "float" kind_of_frame = Ok w3
    /\ (forall x, In x (w1 ++ w2 ++ w3) <->
          exists col s, In (col, s) df /\ x.1.2 <> "" /\
            x = (col, x.1.2, dtype_str (dtype_of s))
            /\ ((In col I /\ accepts_integer (dtype_of s) = false
                 /\ x.1.2 = "Int64")
                \/ (In col S /\ accepts_string (dtype_of s) = false
                    /\ x.1.2 = "string(object)")
                \/ (In col F /\ accepts_float (dtype_of s) = false
                    /\ x.1.2 = "float")))
    /\ check_dtypes df I S F
       = match w1 ++ w2 ++ w3 with
         | [] => Ok tt
         | wrong =>
             Raise (SchemaError
                      (wrong_prefix +:+ join "; " (map wrong_entry wrong)))
         end.
Proof.
  intros Honce. apply labels_once_app in Honce as [HI Honce].
  apply labels_once_app in Honce as [HS HF].
  destruct (wrong_in_once df I accepts_integer "Int64" text_of_frame HI)
    as (w1 & E1 & H1).
  destruct (wrong_in_once df S accepts_string "string(object)" kind_of_frame HS)
    as (w2 & E2 & H2).
  destruct (wrong_in_once df F accepts_float "float" kind_of_frame HF)
    as (w3 & E3 & H3).
  exists w1, w2, w3. split; [done|]. split; [done|]. split; [done|].
  split; [|unfold check_dtypes; by rewrite E1, E2, E3].
  intros x. rewrite !in_app_iff, H1, H2, H3. split.
  - intros [(c & s & ? & ? & ? & ->)|[(c & s & ? & ? & ? & ->)
                                      |(c & s & ? & ? & ? & ->)]];
      exists c, s; simpl; (split; [done|]); (split; [done|]);
      (split; [done|]); tauto.
  - intros (c & s & Hs & _ & Hx & [(? & ? & He)|[(? & ? & He)|(? & ? & He)]]);
      rewrite He in Hx; [left|right; left|right; right]; by exists c, s.
Qed.

End Check_dtypes.

(** C5.  For a dataset in which no declared label is carried by two
    columns (so for every dataset with distinct labels), [check_dtypes]
    raises exactly when some declared column that is in the dataset has
    a dtype that its category refuses (an integer field that is not
    Int64, a string field that is not object, a float field that is not
    float64).  The error is one SchemaError whose message is the prefix
    followed by the entries joined by "; "; every such column has its
    entry "<col> esperado <expected>, encontrado <actual>" in it, and
    there is no other entry.  A declared column that is not in the
    dataset changes nothing. *)
Theorem check_dtypes_spec `{FR : Frames} (df : DataFrame)
    (integer_fields string_fields float_fields : list string) :
  labels_once df (integer_fields ++ string_fields ++ float_fields) ->
  ((exists e, check_dtypes df integer_fields string_fields float_fields = Raise e)
   <-> (exists col, In col integer_fields /\ mismatched df accepts_integer col)
       \/ (exists col, In col string_fields /\ mismatched df accepts_string col)
       \/ (exists col, In col float_fields /\ mismatched df accepts_float col))
  /\ match check_dtypes df integer_fields string_fields float_fields with
     | Ok _ => True
     | Raise e =>
         exists wrong,
           e = SchemaError (wrong_prefix +:+ join "; " (map wrong_entry wrong))
           /\ (forall col s expected,
                 In (col, s) df ->
                 (In col integer_fields /\ accepts_integer (dtype_of s) = false
                  /\ expected = "Int64")
                 \/ (In col string_fields /\ accepts_string (dtype_of s) = false
                     /\ expected = "string(object)")
                 \/ (In col float_fields /\ accepts_float (dtype_of s) = false
                     /\ expected = "float") ->
                 In (col, expected, dtype_str (dtype_of s)) wrong
                 /\ contains (col +:+ " esperado " +:+ expected
                              +:+ ", encontrado " +:+ dtype_str (dtype_of s))
                      (wrong_prefix +:+ join "; " (map wrong_entry wrong)))
           /\ (forall col expected found,
                 In (col, expected, found) wrong ->
                 exists s, In (col, s) df /\ found = dtype_str (dtype_of s)
                   /\ ((In col integer_fields
                        /\ accepts_integer (dtype_of s) = false)
                       \/ (In col string_fields
                           /\ accepts_string (dtype_of s) = false)
                       \/ (In col float_fields
                           /\ accepts_float (dtype_of s) = false)))
     end
  /\ (forall col, ~ In col (columns df) ->
      check_dtypes df (col :: integer_fields) string_fields float_fields
      = check_dtypes df integer_fields string_fields float_fields
      /\ check_dtypes df integer_fields (col :: string_fields) float_fields
         = check_dtypes df integer_fields string_fields float_fields
      /\ check_dtypes df integer_fields string_fields (col :: float_fields)
         = check_dtypes df integer_fields string_fields float_fields)
  /\ (forall d, (accepts_integer d = true <-> d = dt_Int64)
              /\ (accepts_string d = true <-> d = dt_object)
              /\ (accepts_float d = true <-> d = dt_float64)).
Proof.
  intros Honce.
  destruct (check_dtypes_once df integer_fields string_fields float_fields
              Honce) as (w1 & w2 & w3 & _ & _ & _ & Hwrong & Hcheck).
  set (wrong := w1 ++ w2 ++ w3) in *.
  split; [|split; [|split]].
  - rewrite Hcheck. destruct wrong as [|w ws] eqn:Hw.
    + split; [by intros [? ?]|].
      intros [(col & Hc & s & Hs & Ha)|[(col & Hc & s & Hs & Ha)
                                        |(col & Hc & s & Hs & Ha)]];
        exfalso;
        [apply (proj2 (Hwrong (col, "Int64", dtype_str (dtype_of s))))
        |apply (proj2 (Hwrong (col, "string(object)", dtype_str (dtype_of s))))
        |apply (proj2 (Hwrong (col, "float", dtype_str (dtype_of s))))];
        exists col, s; simpl; (split; [done|]); (split; [done|]);
        (split; [done|]); tauto.
    + split; [|eauto]. intros _.
      destruct (proj1 (Hwrong w) ltac:(by left))
        as (col & s & Hs & _ & _ & [(? & ? & _)|[(? & ? & _)|(? & ? & _)]]);
        [left|right; left|right; right]; exists col; (split; [done|]);
        by exists s.
  - rewrite Hcheck. destruct wrong as [|w ws] eqn:Hw; [done|].
    exists (w :: ws). split; [done|]. split.
    + intros col s expected Hs Hcase.
      assert (Hin : In (col, expected, dtype_str (dtype_of s)) (w :: ws)).
      { apply Hwrong. exists col, s. simpl. split; [done|].
        split; [by destruct Hcase as [(_ & _ & ->)|[(_ & _ & ->)|(_ & _ & ->)]]|].
        split; [done|]. tauto. }
      split; [exact Hin|].
      apply contains_app_l, contains_join.
      change (col +:+ " esperado " +:+ expected +:+ ", encontrado "
              +:+ dtype_str (dtype_of s))
        with (wrong_entry (col, expected, dtype_str (dtype_of s))).
      by apply in_map.
    + intros col expected found Hin.
      apply Hwrong in Hin as (c & s & Hs & _ & Hx & Hcase).
      simpl in Hx. injection Hx as -> ->. exists s. split; [done|].
      split; [done|]. tauto.
  - intros col Hn. unfold check_dtypes.
    by rewrite !(wrong_in_absent _ _ _ _ _ _ Hn).
  - intros d. split; [apply accepts_integer_iff|].
    split; [apply accepts_string_iff | apply accepts_float_iff].
Qed.

Lemma check_dtypes_spec_witness :
  labels_once sample_df (["a"; "zz"] ++ [] ++ ["c"])
  /\ exists wrong,
      check_dtypes (FR := sample_frames) sample_df ["a"; "zz"] [] ["c"]
      = Raise (SchemaError
                 (wrong_prefix +:+ join "; " (map wrong_entry wrong)))
      /\ In ("a", "Int64", "object") wrong
      /\ In ("c", "float", "object") wrong.
Proof.
  assert (Honce : labels_once sample_df (["a"; "zz"] ++ [] ++ ["c"])).
  { apply NoDup_labels_once. apply (bool_decide_unpack _). vm_compute.
    reflexivity. }
  split; [exact Honce|].
  destruct (check_dtypes_spec (FR := sample_frames) sample_df ["a"; "zz"] []
              ["c"] Honce)
    as (_ & Hspec & _).
  assert (Hc : check_dtypes (FR := sample_frames) sample_df ["a"; "zz"] []
                 ["c"]
               = Raise (SchemaError
                          (wrong_prefix
                           +:+ "a esperado Int64, encontrado object; "
                           +:+ "c esperado float, encontrado object")))
    by (vm_compute; reflexivity).
  rewrite Hc in Hspec. destruct Hspec as (wrong & He & Hall & _).
  exists wrong. split; [by rewrite Hc, He|].
  split.
  - destruct (Hall "a" (SObject [CStr "12"; CStr "7"]) "Int64") as [Hin _];
      [by left| |exact Hin].
    left. split; [by left|]. split; reflexivity.
  - destruct (Hall "c" (SObject [CStr "x"; CStr "y"]) "float") as [Hin _];
      [right; by left| |exact Hin].
    right; right. split; [by left|]. split; reflexivity.
Defined.

(** When a declared label is carried by two columns, [df[col]] is a
    DataFrame and [check_dtypes] stops on its missing [.dtype]; when
    the label is "dtype", that is so for a string or a float field. *)
Lemma check_dtypes_repeated_label `{FR : Frames} df I S F col :
  In col (I ++ S ++ F) -> (2 <= occurrences df col)%nat ->
  col <> "dtype" \/ In col (S ++ F) ->
  exists e, check_dtypes df I S F = Raise e /\ forall msg, e <> SchemaError msg.
Proof.
  intros Hin Hocc Hcol.
  assert (Hint : forall e,
             wrong_in df I accepts_integer "Int64" text_of_frame = Raise e ->
             forall msg, e <> SchemaError msg).
  { intros e He. apply wrong_in_raise in He as (c & _ & _ & He).
    by apply text_of_frame_raise in He as [-> _]. }
  assert (Hkind : forall fields accepts expected e,
             wrong_in df fields accepts expected kind_of_frame = Raise e ->
             forall msg, e <> SchemaError msg).
  { intros fields accepts expected e He.
    apply wrong_in_raise in He as (c & _ & _ & He).
    rewrite kind_of_frame_raises in He. injection He as <-.
    by destruct (String.eqb c "dtype"). }
  unfold check_dtypes.
  destruct (wrong_in df I accepts_integer "Int64" text_of_frame)
    as [w1|e1] eqn:E1; simpl.
  2:{ exists e1. split; [done|]. by apply Hint. }
  destruct (wrong_in df S accepts_string "string(object)" kind_of_frame)
    as [w2|e2] eqn:E2; simpl.
  2:{ exists e2. split; [done|]. exact (Hkind _ _ _ _ E2). }
  destruct (wrong_in df F accepts_float "float" kind_of_frame)
    as [w3|e3] eqn:E3; simpl.
  2:{ exists e3. split; [done|]. exact (Hkind _ _ _ _ E3). }
  exfalso.
  assert (Hk : exists e, kind_of_frame col (labelled df col) = Raise e)
    by (rewrite kind_of_frame_raises; by eexists).
  assert (HSF : In col (S ++ F) -> False).
  { intros HinSF. apply in_app_iff in HinSF as [Hc|Hc].
    - destruct (wrong_in_repeated df S accepts_string "string(object)"
                  kind_of_frame col Hc Hocc Hk) as (e & He). congruence.
    - destruct (wrong_in_repeated df F accepts_float "float"
                  kind_of_frame col Hc Hocc Hk) as (e & He). congruence. }
  apply in_app_iff in Hin as [Hin|Hin]; [|by apply HSF].
  destruct Hcol as [Hne|HinSF]; [|by apply HSF].
  destruct (wrong_in_repeated df I accepts_integer "Int64" text_of_frame col
              Hin Hocc) as (e & He); [|congruence].
  rewrite (text_of_frame_other _ _ Hne). by eexists.
Qed.

Example check_dtypes_two_wrong :
  check_dtypes (FR := sample_frames) sample_df ["a"; "zz"] [] ["c"]
  = Raise (SchemaError
             (wrong_prefix +:+ "a esperado Int64, encontrado object; "
              +:+ "c esperado float, encontrado object")).
Proof. vm_compute. reflexivity. Qed.

(** A label "dtype" that two columns carry: [df["dtype"].dtype] is the
    DataFrame [df["dtype"]], whose text is not "Int64". *)
Example check_dtypes_label_dtype :
  check_dtypes (FR := sample_frames)
    [("dtype", SInt64 [1]); ("dtype", SInt64 [2])] ["dtype"] [] []
  = Raise (SchemaError
             (wrong_prefix +:+ "dtype esperado Int64, encontrado <DataFrame>"))
  /\ check_dtypes (FR := sample_frames)
       [("dtype", SInt64 [1]); ("dtype", SInt64 [2])] [] ["dtype"] []
     = Raise (no_attribute "kind")
  /\ check_dtypes (FR := sample_frames)
       [("a", SInt64 [1]); ("a", SInt64 [2])] ["a"] [] []
     = Raise (no_attribute "dtype").
Proof. vm_compute. by repeat split. Qed.

(** ** Stripping *)

Lemma last_char_cons c r :
  r <> "" -> last_char (String c r) = last_char r.
Proof. by destruct r. Qed.

Lemma rstrip_with_last p s c :
  last_char (rstrip_with p s) = Some c -> p c = false.
Proof.
  induction s as [|a r IH]; [done|]. simpl.
  destruct (rstrip_with p r) as [|b r'] eqn:Hr.
  - destruct (p a) eqn:Hp; [done|]. by intros [= <-].
  - rewrite last_char_cons by done. exact IH.
Qed.

Lemma lstrip_with_first p s c :
  first_char (lstrip_with p s) = Some c -> p c = false.
Proof.
  induction s as [|a r IH]; [done|]. simpl.
  destruct (p a) eqn:Hp; [exact IH|]. by intros [= <-].
Qed.

Lemma lstrip_with_split p s :
  exists l, s = l +:+ lstrip_with p s /\ all_chars p l = true.
Proof.
  induction s as [|a r (l & Hl & Hp)]; [by exists ""|]. simpl.
  destruct (p a) eqn:Ha.
  - exists (String a l). rewrite str_app_cons, <- Hl. simpl. by rewrite Ha.
  - by exists "".
Qed.

Lemma rstrip_with_split p s :
  exists r, s = rstrip_with p s +:+ r /\ all_chars p r = true.
Proof.
  induction s as [|a t (r & Hr & Hp)]; [by exists ""|]. simpl.
  destruct (rstrip_with p t) as [|b t'] eqn:Ht.
  - rewrite str_app_nil_l in Hr. subst t. destruct (p a) eqn:Ha.
    + exists (String a r). rewrite str_app_nil_l. simpl. by rewrite Ha.
    + exists r. by rewrite !str_app_cons, str_app_nil_l.
  - exists r. rewrite str_app_cons. by rewrite <- Hr.
Qed.

Lemma rstrip_with_first p s c :
  p c = false -> first_char s = Some c ->
  first_char (rstrip_with p s) = Some c.
Proof.
  destruct s as [|a r]; [done|]. simpl. intros Hp [= ->].
  destruct (rstrip_with p r); [by rewrite Hp|done].
Qed.

(** What [strip] removes is whitespace, and what it leaves neither
    starts nor ends with whitespace. *)
Lemma strip_spec s :
  (exists l r, s = l +:+ strip s +:+ r
               /\ all_chars is_space l = true /\ all_chars is_space r = true)
  /\ (forall c, first_char (strip s) = Some c -> is_space c = false)
  /\ (forall c, last_char (strip s) = Some c -> is_space c = false).
Proof.
  unfold strip, strip_with. split; [|split].
  - destruct (lstrip_with_split is_space s) as (l & Hl & Hpl).
    destruct (rstrip_with_split is_space (lstrip_with is_space s))
      as (r & Hr & Hpr).
    exists l, r. split; [|done]. by rewrite <- Hr.
  - intros c Hc.
    destruct (lstrip_with is_space s) as [|a t] eqn:Hs; [done|].
    assert (Ha : is_space a = false).
    { apply (lstrip_with_first is_space s). by rewrite Hs. }
    rewrite (rstrip_with_first is_space (String a t) a Ha eq_refl) in Hc.
    by injection Hc as <-.
  - intros c. apply rstrip_with_last.
Qed.

(** ** The quote pattern *)

Lemma match_quote_pattern_nil pos :
  match_lengths quote_pattern pos "" = [].
Proof. simpl. by destruct (Nat.eqb pos 0). Qed.

Lemma match_quote_pattern_cons pos c r :
  match_lengths quote_pattern pos (String c r)
  = (if Nat.eqb pos 0 then if Ascii.eqb dquote c then [1%nat] else [] else [])
    ++ (if Ascii.eqb dquote c then if at_eol r then [1%nat] else [] else []).
Proof.
  unfold quote_pattern. cbn [match_lengths flat_map].
  f_equal.
  - destruct (Nat.eqb pos 0); [|done]. cbn [flat_map drop_str].
    rewrite app_nil_r. by destruct (Ascii.eqb dquote c).
  - destruct (Ascii.eqb dquote c); [|done]. cbn [flat_map drop_str map].
    rewrite app_nil_r. by destruct (at_eol r).
Qed.

Lemma drop_trailing_quote_cons c r :
  Ascii.eqb dquote c = false \/ r <> "" ->
  drop_trailing_quote (String c r) = String c (drop_trailing_quote r).
Proof.
  destruct r as [|b r]; [|done]. intros [Hc|]; [|done]. simpl.
  rewrite Ascii.eqb_sym in Hc. by rewrite Hc.
Qed.

(** Past the first position only a final quote matches. *)
Lemma sub_from_quote_tail pos s :
  pos <> O -> last_char s <> Some "010"%char ->
  sub_from quote_pattern "" 0 pos s = drop_trailing_quote s.
Proof.
  revert pos. induction s as [|c r IH]; intros pos Hpos Hlast.
  - cbn [sub_from]. by rewrite match_quote_pattern_nil.
  - cbn [sub_from]. rewrite match_quote_pattern_cons.
    destruct (Nat.eqb_spec pos 0) as [|_]; [done|]. rewrite app_nil_l.
    assert (Hr : r <> "" -> last_char r <> Some "010"%char).
    { intros Hne. by rewrite <- (last_char_cons c r Hne). }
    destruct (Ascii.eqb dquote c) eqn:Hc.
    + apply Ascii.eqb_eq in Hc as <-.
      destruct r as [|b r].
      * cbn [at_eol sub_from]. by rewrite match_quote_pattern_nil.
      * assert (Heol : at_eol (String b r) = false).
        { destruct r as [|b' r]; [|done]. simpl.
          apply Ascii.eqb_neq. intros ->. by apply Hlast. }
        rewrite Heol. rewrite drop_trailing_quote_cons by (by right).
        f_equal. apply IH; [done|]. by apply Hr.
    + rewrite drop_trailing_quote_cons by (by left). f_equal.
      destruct r as [|b r].
      * cbn [sub_from]. by rewrite match_quote_pattern_nil.
      * apply IH; [done|]. by apply Hr.
Qed.

(** [re.sub('^"|"$', '', s)] removes one quote at each end, for a text
    that does not end with a newline. *)
Lemma re_sub_quote_pattern s :
  last_char s <> Some "010"%char ->
  re_sub quote_pattern "" s = unquote s.
Proof.
  intros Hlast. unfold re_sub, unquote. destruct s as [|c r].
  - cbn [sub_from]. by rewrite match_quote_pattern_nil.
  - cbn [sub_from]. rewrite match_quote_pattern_cons. cbn [Nat.eqb].
    assert (Hr : r <> "" -> last_char r <> Some "010"%char).
    { intros Hne. by rewrite <- (last_char_cons c r Hne). }
    assert (Htail : sub_from quote_pattern "" 0 1 r = drop_trailing_quote r).
    { destruct r as [|b r].
      - cbn [sub_from]. by rewrite match_quote_pattern_nil.
      - apply sub_from_quote_tail; [done|]. by apply Hr. }
    destruct (Ascii.eqb dquote c) eqn:Hc.
    + cbn [app]. rewrite str_app_nil_l, Htail. simpl.
      rewrite Ascii.eqb_sym in Hc. by rewrite Hc.
    + cbn [app]. rewrite Htail.
      rewrite <- drop_trailing_quote_cons by (by left).
      unfold drop_leading_quote. rewrite Ascii.eqb_sym in Hc. by rewrite Hc.
Qed.




(** ** Integers as floats *)

Lemma digits2_pos_size m : digits2_pos m = Pos.size m.
Proof. induction m; simpl; congruence. Qed.

Lemma digits2_small m : Zpos m < 2 ^ 53 -> Zpos (digits2_pos m) <= 53.
Proof.
  intros Hm. rewrite digits2_pos_size.
  pose proof (Pos.size_le m) as Hle.
  apply Pos2Z.pos_le_pos in Hle. rewrite Pos2Z.inj_pow in Hle.
  change (Zpos m~0) with (2 * Zpos m) in Hle.
  destruct (Z.le_gt_cases (Zpos (Pos.size m)) 53) as [|Hgt]; [done|].
  exfalso.
  assert (H54 : 2 ^ 54 <= 2 ^ Zpos (Pos.size m)) by (apply Z.pow_le_mono_r; lia).
  change (2 ^ 54) with (2 * 2 ^ 53) in H54. lia.
Qed.

Lemma iter_xO_value m k : Zpos (Pos.iter xO m k) = Zpos m * 2 ^ Zpos k.
Proof.
  induction k using Pos.peano_ind.
  - simpl. lia.
  - rewrite Pos.iter_succ, Pos2Z.inj_succ, Z.pow_succ_r by lia.
    change (Zpos (Pos.iter xO m k)~0) with (2 * Zpos (Pos.iter xO m k)). lia.
Qed.

Lemma iter_xO_digits m k :
  Zpos (digits2_pos (Pos.iter xO m k)) = Zpos (digits2_pos m) + Zpos k.
Proof.
  induction k using Pos.peano_ind.
  - simpl. lia.
  - rewrite Pos.iter_succ. simpl digits2_pos. lia.
Qed.

Lemma fexp_small e : - 1021 <= e -> fexp 53 1024 e = e - 53.
Proof. intros He. unfold fexp, emin. apply Z.max_l. lia. Qed.

Lemma shr_fexp_canonical mz e :
  Zpos (digits2_pos mz) = 53 -> - 1074 <= e ->
  shr_fexp 53 1024 (Zpos mz) e loc_Exact
  = ({| shr_m := Zpos mz; shr_r := false; shr_s := false |}, e).
Proof.
  intros Hd He. unfold shr_fexp. cbn [Zdigits2]. rewrite Hd.
  rewrite fexp_small by lia. replace (53 + e - 53 - e) with 0 by lia.
  reflexivity.
Qed.

Lemma binary_round_aux_canonical sg mz e :
  Zpos (digits2_pos mz) = 53 -> - 1074 <= e <= 971 ->
  binary_round_aux 53 1024 sg (Zpos mz) e loc_Exact = S754_finite sg mz e.
Proof.
  intros Hd He. unfold binary_round_aux.
  rewrite shr_fexp_canonical by lia.
  cbn [shr_m loc_of_shr_record round_nearest_even].
  rewrite shr_fexp_canonical by lia. cbn [shr_m].
  replace (e <=? 1024 - 53) with true by (symmetry; apply Z.leb_le; lia).
  reflexivity.
Qed.

Lemma binary_round_small sg m :
  Zpos m < 2 ^ 53 ->
  float_integral (binary_round 53 1024 sg m 0)
  = Some (if sg then - Zpos m else Zpos m).
Proof.
  intros Hm. pose proof (digits2_small m Hm) as Hd.
  assert (Hd1 : 1 <= Zpos (digits2_pos m)) by lia.
  unfold binary_round. rewrite fexp_small, Z.add_0_r by lia.
  unfold shl_align.
  destruct (Zpos (digits2_pos m) - 53 - 0) as [|p|k] eqn:Hk; [|lia|].
  - rewrite binary_round_aux_canonical by lia.
    unfold float_integral. cbn [Z.leb Z.compare option_map].
    rewrite Z.pow_0_r, Z.mul_1_r. reflexivity.
  - pose proof (iter_xO_value m k) as Hv. pose proof (iter_xO_digits m k) as Hg.
    assert (He : Zpos (digits2_pos m) - 53 = - Zpos k) by lia.
    rewrite He, binary_round_aux_canonical by lia.
    unfold float_integral.
    replace (0 <=? - Zpos k) with false by (symmetry; apply Z.leb_gt; lia).
    rewrite Z.opp_involutive, Hv.
    rewrite Z.mod_mul by lia. rewrite Z.eqb_refl.
    rewrite Z.div_mul by lia. reflexivity.
Qed.

Lemma float_of_Z_exact z :
  - 2 ^ 53 < z < 2 ^ 53 -> float_integral (float_of_Z z) = Some z.
Proof.
  intros Hz. unfold float_of_Z, binary_normalize. destruct z as [|m|m].
  - reflexivity.
  - apply (binary_round_small false). lia.
  - apply (binary_round_small true). lia.
Qed.

(** ** The casts, value by value *)

Section Cast_values.
Context `{PyFloat} `{FR : Frames}.

Lemma str_accessor_object f v :
  str_accessor f (SObject (map CStr v)) = Ok (SObject (map CStr (map f v))).
Proof.
  unfold str_accessor. do 2 f_equal. rewrite !map_map. done.
Qed.

Lemma astype_str_values s :
  astype_str s = SObject (map CStr (map py_str (values s))).
Proof. unfold astype_str. by rewrite map_map. Qed.

Lemma to_str_values s :
  to_str s = Ok (SObject (map CStr (map str_cast (values s)))).
Proof.
  unfold to_str. rewrite astype_str_values, str_accessor_object.
  unfold rbind. rewrite str_accessor_object. do 3 f_equal. rewrite !map_map.
  apply map_ext. intros x. unfold str_cast.
  apply re_sub_quote_pattern. intros Hlast.
  by apply (proj2 (proj2 (strip_spec (py_str x)))) in Hlast.
Qed.

(** [s.replace(".", "")] and [s.replace(",", ".")] *)
Lemma prefix_char c d r :
  String.prefix (String c "") (String d r) = Ascii.eqb c d.
Proof.
  simpl. destruct (ascii_dec c d) as [->|Hne].
  - rewrite Ascii.eqb_refl. by destruct r.
  - symmetry. by apply Ascii.eqb_neq.
Qed.

Lemma str_replace_point s : str_replace "." "" s = remove_points s.
Proof.
  unfold str_replace. induction s as [|c r IH]; [done|].
  cbn [replace_from remove_points]. rewrite prefix_char, Ascii.eqb_sym.
  destruct (Ascii.eqb c "."%char).
  - rewrite str_app_nil_l. exact IH.
  - f_equal. exact IH.
Qed.

Lemma str_replace_comma s : str_replace "," "." s = comma_to_point s.
Proof.
  unfold str_replace. induction s as [|c r IH]; [done|].
  cbn [replace_from comma_to_point]. rewrite prefix_char, Ascii.eqb_sym.
  destruct (Ascii.eqb c ","%char).
  - rewrite str_app_cons, str_app_nil_l. f_equal. exact IH.
  - f_equal. exact IH.
Qed.

Lemma mapM_converted_int ks zs :
  mapM converted_int ks = Some zs -> ks = map KInt zs.
Proof.
  revert zs. induction ks as [|k ks IH]; intros zs.
  - by intros [= <-].
  - simpl. destruct k as [z| |]; simpl; try done.
    destruct (mapM converted_int ks) as [zs'|]; simpl; [|done].
    intros [= <-]. simpl. f_equal. by apply IH.
Qed.

(** Whatever dtype the conversion of an object column arrives at, as a
    float column it holds the float of each element. *)
Lemma astype_float_convert cells :
  astype_float (maybe_convert_numeric cells)
  = Ok (SFloat64 (map (fun c => converted_float (convert_cell c)) cells)).
Proof.
  unfold maybe_convert_numeric.
  destruct (mapM converted_int (map convert_cell cells)) as [zs|] eqn:Hm.
  - apply mapM_converted_int in Hm.
    assert (Hf : map float_of_Z zs
                 = map (fun c => converted_float (convert_cell c)) cells).
    { rewrite <- (map_map convert_cell converted_float), Hm, map_map. done. }
    destruct (forallb in_int64 zs); [simpl; by rewrite Hf|].
    destruct (forallb (Z.leb 0) zs); simpl; by rewrite Hf.
  - simpl. by rewrite map_map.
Qed.

Lemma converted_float_text t :
  converted_float (convert_cell (CStr t)) = float_of_text t.
Proof.
  unfold float_of_text, convert_cell. destruct t as [|c r]; [done|].
  destruct (parse_numeric (String c r)) as [[z|f]|]; try done.
  by destruct ((INT64_MIN <=? z) && (z <=? UINT64_MAX)).
Qed.

Lemma to_float_pt_numeric s :
  is_numeric_dtype s = true ->
  to_float_pt s = Ok (SFloat64 (map numeric_float (values s))).
Proof.
  intros Hn. unfold to_float_pt. rewrite Hn.
  destruct s as [v|v|v|v|v|v]; try done; simpl; rewrite ?map_map; try done.
  - do 2 f_equal. by rewrite <- (map_id v) at 1.
  - do 2 f_equal. apply map_ext. by intros [z|].
Qed.

Lemma to_float_pt_object cells :
  to_float_pt (SObject cells)
  = Ok (SFloat64 (map (fun x => locale_float (py_str x))
                      (values (SObject cells)))).
Proof.
  unfold to_float_pt. cbn [is_numeric_dtype].
  rewrite astype_str_values, str_accessor_object. unfold rbind.
  rewrite str_accessor_object. cbn [to_numeric].
  rewrite astype_float_convert. do 2 f_equal. rewrite !map_map.
  apply map_ext. intros x. rewrite converted_float_text.
  unfold locale_float. by rewrite str_replace_point, str_replace_comma.
Qed.

Lemma to_float_pt_values s :
  to_float_pt s
  = Ok (SFloat64 (map (if is_numeric_dtype s then numeric_float
                       else fun x => locale_float (py_str x)) (values s))).
Proof.
  destruct (is_numeric_dtype s) eqn:Hn; [by apply to_float_pt_numeric|].
  destruct s; try done. apply to_float_pt_object.
Qed.

(** *** The integer cast *)

Lemma mapR_Ok {A B} (f : A -> result B) l l' :
  mapR f l = Ok l' <-> Forall2 (fun x y => f x = Ok y) l l'.
Proof.
  revert l'. induction l as [|x l IH]; intros l'; simpl.
  - split; [intros [= <-]; constructor | by inversion 1].
  - destruct (f x) as [y|e] eqn:Hx.
    + destruct (mapR f l) as [ys|e] eqn:Hl.
      * split.
        -- intros [= <-]. constructor; [done|]. by apply IH.
        -- inversion 1 as [|? y' ? ys' Hy Hys]; subst.
           apply IH in Hys. injection Hys as <-. congruence.
      * split; [done|]. inversion 1 as [|? y' ? ys' Hy Hys]; subst.
        by apply IH in Hys.
    + split; [done|]. inversion 1; congruence.
Qed.

Lemma mapR_Raise {A B} (f : A -> result B) l e :
  mapR f l = Raise e -> exists x, In x l /\ f x = Raise e.
Proof.
  induction l as [|x l IH]; simpl; [done|].
  destruct (f x) as [y|e'] eqn:Hx.
  - destruct (mapR f l) as [ys|e'']; [done|].
    intros [= ->]. destruct (IH eq_refl) as (x' & ? & ?). eauto.
  - intros [= ->]. eauto.
Qed.

Lemma float_to_Int64_range f z :
  float_to_Int64 f = Ok (Some z) -> in_int64 z = true.
Proof.
  unfold float_to_Int64. destruct (is_nan f); [done|].
  destruct (float_integral f) as [z'|]; [|done].
  destruct (in_int64 z') eqn:Hz; [|done]. by intros [= <-].
Qed.

Lemma float_to_Int64_nan f : is_nan f = true -> float_to_Int64 f = Ok None.
Proof. unfold float_to_Int64. by intros ->. Qed.

Lemma float_to_Int64_Raise f e :
  float_to_Int64 f = Raise e -> e = unsafe_cast "float64" /\ is_nan f = false.
Proof.
  unfold float_to_Int64. destruct (is_nan f); [done|].
  destruct (float_integral f) as [z|]; [destruct (in_int64 z)|];
    by intros [= <-].
Qed.

Lemma nulled_cell c :
  nulled (cell_scalar c) = true ->
  converted_int (convert_cell c) = None
  /\ is_nan (converted_float (convert_cell c)) = true.
Proof.
  destruct c as [t| |]; simpl; try done.
  destruct t as [|a t]; [done|].
  by destruct (parse_numeric (String a t)).
Qed.

(** The float column that holds [g x] for each value [x], under
    [astype("Int64")]. *)
Lemma astype_Int64_floats {A} (g : A -> float64) (view : A -> scalar) l :
  (forall x, nulled (view x) = true -> is_nan (g x) = true) ->
  match astype_Int64 (SFloat64 (map g l)) with
  | Ok s' =>
      exists v, s' = SNullableInt v
        /\ Forall2 (fun x o => nulled x = true -> o = None) (map view l) v
        /\ Forall (fun o => forall z, o = Some z -> in_int64 z = true) v
  | Raise e =>
      e = unsafe_cast "float64"
      /\ exists x, In x (map view l) /\ nulled x = false
  end.
Proof.
  intros Hnull. simpl.
  destruct (mapR float_to_Int64 (map g l)) as [v|e] eqn:Hm.
  - exists v. split; [done|]. apply mapR_Ok in Hm.
    apply Forall2_fmap_l in Hm. split.
    + apply Forall2_fmap_l. eapply Forall2_impl; [exact Hm|].
      intros x o Hx Hn. simpl in *. apply Hnull in Hn.
      rewrite (float_to_Int64_nan _ Hn) in Hx. by injection Hx as <-.
    + eapply Forall2_Forall_r; [exact Hm|]. apply Forall_forall.
      intros x _ o Hx z ->. by apply float_to_Int64_range in Hx.
  - apply mapR_Raise in Hm as (f & Hin & Hf).
    apply float_to_Int64_Raise in Hf as [-> Hnan]. split; [done|].
    apply in_map_iff in Hin as (x & <- & Hin).
    exists (view x). split; [by apply in_map|].
    destruct (nulled (view x)) eqn:Hn; [|done].
    apply Hnull in Hn. congruence.
Qed.

Lemma forallb_false_In {A} (p : A -> bool) l :
  forallb p l = false -> exists x, In x l /\ p x = false.
Proof.
  induction l as [|x l IH]; simpl; [done|].
  destruct (p x) eqn:Hp; simpl.
  - intros Hl. destruct (IH Hl) as (y & ? & ?). eauto.
  - eauto.
Qed.

(** Both bounds of a 64-bit range, from bounds in the context. *)
Ltac in_range :=
  unfold in_int64, INT64_MIN, INT64_MAX, UINT64_MAX;
  apply andb_true_iff; split; apply Z.leb_le; lia.

Lemma float_to_Int64_of_Z z :
  - 2 ^ 53 < z < 2 ^ 53 -> float_to_Int64 (float_of_Z z) = Ok (Some z).
Proof.
  intros Hz. pose proof (float_of_Z_exact z Hz) as He.
  unfold float_to_Int64.
  destruct (is_nan (float_of_Z z)) eqn:Hn.
  { destruct (float_of_Z z); done. }
  rewrite He.
  replace (in_int64 z) with true; [done|].
  symmetry. in_range.
Qed.

Lemma float_to_Int64_refused f e :
  float_to_Int64 f = Raise e -> is_nan f = false /\ int64_of_float f = None.
Proof.
  unfold float_to_Int64, int64_of_float. destruct (is_nan f); [done|].
  destruct (float_integral f) as [z|]; [|done].
  by destruct (in_int64 z).
Qed.

Lemma convert_cell_int c z :
  convert_cell c = KInt z ->
  exists t, c = CStr t /\ parse_numeric t = Some (NInt z).
Proof.
  destruct c as [t| |]; simpl; [|done|done].
  destruct t as [|a t]; [done|].
  destruct (parse_numeric (String a t)) as [[z'|f]|] eqn:Hp; [|done|done].
  destruct ((INT64_MIN <=? z') && (z' <=? UINT64_MAX)); [|done].
  intros [= <-]. by exists (String a t).
Qed.

(** An element of an object column that the cast to Int64 refuses is
    a number that is not safe for it. *)
Lemma convert_cell_refused c e :
  float_to_Int64 (converted_float (convert_cell c)) = Raise e ->
  unsafe_number (cell_scalar c).
Proof.
  destruct c as [t| |]; simpl; [|done|done].
  destruct t as [|a t]; [done|].
  unfold unsafe_number. simpl.
  destruct (parse_numeric (String a t)) as [[z|f]|] eqn:Hp; [| |done].
  - destruct ((INT64_MIN <=? z) && (z <=? UINT64_MAX)) eqn:Hr; simpl.
    + intros Href. split; [done|]. intros z'.
      destruct (in_int64 z); [|done]. intros [= <-].
      destruct (Z.le_gt_cases (2 ^ 53) (Z.abs z)) as [?|Hsmall]; [done|].
      rewrite float_to_Int64_of_Z in Href; [done|lia].
    + intros _. split; [done|]. intros z'.
      destruct (in_int64 z) eqn:Hz; [|done]. exfalso.
      unfold in_int64, INT64_MIN, INT64_MAX, UINT64_MAX in *.
      apply andb_prop in Hz as [H1 H2]. apply Z.leb_le in H1, H2.
      apply andb_false_iff in Hr as [Hr|Hr]; apply Z.leb_gt in Hr; lia.
  - intros Href. apply float_to_Int64_refused in Href as [_ Href].
    simpl in Href. split; [done|]. intros z'. by rewrite Href.
Qed.

(** What [to_int] returns, and when it raises. *)
Lemma to_int_cases s :
  match to_int s with
  | Ok s' =>
      exists v, s' = SNullableInt v
        /\ Forall2 (fun x o => nulled x = true -> o = None) (values s) v
        /\ (wf_series s ->
            Forall (fun o => forall z, o = Some z -> in_int64 z = true) v)
  | Raise e =>
      (e = unsafe_cast "float64" \/ e = unsafe_cast "uint64")
      /\ exists x, In x (values s) /\ unsafe_number x
  end.
Proof.
  unfold to_int. destruct s as [v|v|v|v|cells|v].
  - simpl. eexists. split; [done|]. split.
    + apply Forall2_fmap, Forall_Forall2_diag, Forall_forall. done.
    + intros Hwf. apply Forall_fmap. eapply Forall_impl; [exact Hwf|].
      by intros z Hz z' [= <-].
  - simpl. destruct (forallb in_int64 v) eqn:Hv.
    + eexists. split; [done|]. split.
      * apply Forall2_fmap, Forall_Forall2_diag, Forall_forall. done.
      * intros _. apply Forall_fmap, Forall_forall. intros z Hz z' [= <-].
        rewrite forallb_forall in Hv. apply Hv. by apply list_elem_of_In.
    + split; [by right|]. apply forallb_false_In in Hv as (z & Hz & Hout).
      exists (VInt z). split; [by apply in_map|]. split; [done|].
      intros z'. simpl. by rewrite Hout.
  - cbn [to_numeric values].
    pose proof (astype_Int64_floats id VFloat v) as Hf. rewrite map_id in Hf.
    destruct (astype_Int64 (SFloat64 v)) as [s'|e] eqn:Hcast.
    + destruct Hf as (w & -> & Hw & Hr); [done|]. exists w. by split; [|split].
    + destruct Hf as (-> & _); [done|]. split; [by left|].
      simpl in Hcast.
      destruct (mapR float_to_Int64 v) as [l|e] eqn:Hm; [done|].
      apply mapR_Raise in Hm as (f & Hin & Hf).
      apply float_to_Int64_refused in Hf as [Hnan Hno].
      exists (VFloat f). split; [by apply in_map|]. split; [done|].
      intros z'. simpl. by rewrite Hno.
  - simpl. eexists. split; [done|]. split.
    + apply Forall2_fmap, Forall_Forall2_diag, Forall_forall. done.
    + intros _. apply Forall_fmap, Forall_forall. intros b _ z [= <-].
      by destruct b.
  - cbn [to_numeric values]. unfold maybe_convert_numeric.
    destruct (mapM converted_int (map convert_cell cells)) as [zs|] eqn:Hm.
    + apply mapM_converted_int in Hm.
      assert (Hnone : forall c, In c cells -> nulled (cell_scalar c) = false).
      { intros c Hc. destruct (nulled (cell_scalar c)) eqn:Hn; [|done].
        apply nulled_cell in Hn as [Hn _].
        assert (Hk : In (convert_cell c) (map KInt zs))
          by (rewrite <- Hm; by apply in_map).
        apply in_map_iff in Hk as (z & Hz & _). rewrite <- Hz in Hn. done. }
      assert (Hall : Forall2 (fun x (o : option Z) => nulled x = true -> o = None)
                       (map cell_scalar cells) (map Some zs)).
      { apply Forall2_fmap. apply Forall2_same_length_lookup_2.
        - apply (f_equal length) in Hm. by rewrite !length_map in Hm.
        - intros i c z Hc _ Hn.
          apply list_elem_of_lookup_2, list_elem_of_In, Hnone in Hc. congruence. }
      assert (Hcell : forall z, In z zs ->
                 exists c t, In c cells /\ convert_cell c = KInt z
                             /\ c = CStr t
                             /\ parse_numeric t = Some (NInt z)).
      { intros z Hz.
        assert (Hk : In (KInt z) (map convert_cell cells))
          by (rewrite Hm; by apply in_map).
        apply in_map_iff in Hk as (c & Hc & Hin).
        destruct (convert_cell_int _ _ Hc) as (t & -> & Hp).
        by exists (CStr t), t. }
      destruct (forallb in_int64 zs) eqn:Hv.
      * simpl. eexists. split; [done|]. split; [exact Hall|].
        intros _. apply Forall_fmap, Forall_forall. intros z Hz z' [= <-].
        rewrite forallb_forall in Hv. apply Hv. by apply list_elem_of_In.
      * assert (Hne : cells <> []).
        { intros ->. simpl in Hm. destruct zs; [done|discriminate]. }
        destruct (forallb (Z.leb 0) zs).
        -- simpl. rewrite Hv. split; [by right|].
           apply forallb_false_In in Hv as (z & Hz & Hout).
           destruct (Hcell z Hz) as (c & t & Hc & _ & -> & Hp).
           exists (VStr t). split; [by apply (in_map cell_scalar _ _ Hc)|].
           unfold unsafe_number. simpl. rewrite Hp, Hout. by split.
        -- pose proof (astype_Int64_floats float_of_Z VInt zs) as Hf.
           destruct (astype_Int64 (SFloat64 (map float_of_Z zs))) as [s'|e]
             eqn:Hcast.
           ++ destruct Hf as (w & -> & Hw & Hr); [done|].
              exists w. split; [done|]. split; [|done].
              apply Forall2_same_length_lookup_2.
              ** apply Forall2_length in Hw, Hall.
                 rewrite !length_map in *. congruence.
              ** intros i x o Hx _ Hn.
                 apply list_elem_of_lookup_2, list_elem_of_In in Hx.
                 apply in_map_iff in Hx as (c & <- & Hc).
                 apply Hnone in Hc. congruence.
           ++ destruct Hf as (-> & _); [done|]. split; [by left|].
              simpl in Hcast.
              destruct (mapR float_to_Int64 (map float_of_Z zs)) as [l|e]
                eqn:Hr; [done|].
              apply mapR_Raise in Hr as (f & Hin & Hf).
              apply in_map_iff in Hin as (z & <- & Hz).
              destruct (Hcell z Hz) as (c & t & Hc & Hk & -> & Hp).
              exists (cell_scalar (CStr t)).
              split; [by apply (in_map cell_scalar _ _ Hc)|].
              apply (convert_cell_refused _ e). by rewrite Hk.
    + pose proof (astype_Int64_floats (fun c => converted_float (convert_cell c))
                    cell_scalar cells) as Hf.
      rewrite <- (map_map convert_cell converted_float) in Hf.
      destruct (astype_Int64 (SFloat64 (map converted_float
                                          (map convert_cell cells)))) as [s'|e]
        eqn:Hcast.
      * destruct Hf as (w & -> & Hw & Hr); [apply nulled_cell|].
        exists w. by split; [|split].
      * destruct Hf as (-> & _); [apply nulled_cell|]. split; [by left|].
        simpl in Hcast.
        destruct (mapR float_to_Int64
                    (map converted_float (map convert_cell cells)))
          as [l|e] eqn:Hr; [done|].
        apply mapR_Raise in Hr as (f & Hin & Hf).
        rewrite map_map in Hin. apply in_map_iff in Hin as (c & <- & Hc).
        exists (cell_scalar c). split; [by apply in_map|].
        by apply (convert_cell_refused _ e).
  - simpl. exists v. split; [done|]. split; [|done].
    apply Forall2_fmap_l, Forall_Forall2_diag, Forall_forall.
    by intros [z|] _.
Qed.

Lemma mapR_map_ext {A B C} (f : B -> result C) (g : A -> B) (k : A -> C) l :
  (forall x, In x l -> f (g x) = Ok (k x)) ->
  mapR f (map g l) = Ok (map k l).
Proof.
  induction l as [|x l IH]; intros Hl; simpl; [done|].
  rewrite (Hl x) by (by left). rewrite IH; [done|].
  intros y Hy. apply Hl. by right.
Qed.

Lemma small_int_cell_convert c :
  small_int_cell c ->
  exists z, convert_cell c = KInt z /\ - 2 ^ 53 < z < 2 ^ 53.
Proof.
  intros (t & z & -> & Hp & Hz). exists z. split; [|done].
  unfold convert_cell. destruct t as [|a t]; [done|]. rewrite Hp.
  replace ((INT64_MIN <=? z) && (z <=? UINT64_MAX)) with true; [done|].
  symmetry. in_range.
Qed.

(** A column of integer texts that every float can hold, and of values
    that do not parse or are missing, is cast value by value. *)
Lemma to_int_small_ints cells :
  Forall (fun c => nulled (cell_scalar c) = true \/ small_int_cell c) cells ->
  to_int (SObject cells) = Ok (SNullableInt (map int_of_cell cells)).
Proof.
  intros Hall. rewrite Forall_forall in Hall.
  unfold to_int. cbn [to_numeric]. unfold maybe_convert_numeric.
  destruct (mapM converted_int (map convert_cell cells)) as [zs|] eqn:Hm.
  - apply mapM_converted_int in Hm.
    assert (Hzs : map int_of_cell cells = map Some zs).
    { unfold int_of_cell. rewrite <- (map_map convert_cell converted_int), Hm.
      by rewrite map_map. }
    assert (Hin : forallb in_int64 zs = true).
    { apply forallb_forall. intros z Hz.
      assert (Hk : In (KInt z) (map convert_cell cells))
        by (rewrite Hm; by apply in_map).
      apply in_map_iff in Hk as (c & Hc & Hcell).
      destruct (Hall c) as [Hn|Hs]; [by apply list_elem_of_In| |].
      - apply nulled_cell in Hn as [Hn _]. by rewrite Hc in Hn.
      - apply small_int_cell_convert in Hs as (z' & Hz' & Hr).
        rewrite Hc in Hz'. injection Hz' as <-.
        in_range. }
    rewrite Hin. simpl. by rewrite Hzs.
  - simpl. rewrite map_map.
    rewrite (mapR_map_ext _ _ int_of_cell); [done|].
    intros c Hc. destruct (Hall c) as [Hn|Hs]; [by apply list_elem_of_In| |].
    + apply nulled_cell in Hn as [Hi Hn]. unfold int_of_cell. rewrite Hi.
      by apply float_to_Int64_nan.
    + apply small_int_cell_convert in Hs as (z & Hz & Hr).
      unfold int_of_cell. rewrite Hz. simpl. by apply float_to_Int64_of_Z.
Qed.

End Cast_values.


Example to_str_quoted `{PyFloat} :
  to_str (SObject [CStr ("  " +:+ String dquote ("abc" +:+ String dquote "  "));
                   CStr "xyz"])
  = Ok (SObject [CStr "abc"; CStr "xyz"]).
Proof. reflexivity. Qed.

Section No_digit.

Lemma no_digit_lstrip p t : no_digit t = true -> no_digit (lstrip_with p t) = true.
Proof.
  unfold no_digit. induction t as [|c t IH]; [done|]. simpl.
  intros Ht. destruct (p c); [|done].
  apply andb_prop in Ht as [_ Ht]. by apply IH.
Qed.

Lemma no_digit_take_sign t :
  no_digit t = true -> no_digit (snd (take_sign t)) = true.
Proof.
  unfold no_digit. destruct t as [|c t]; [done|]. simpl. intros Ht.
  destruct (Ascii.eqb c "-"); [by apply andb_prop in Ht as [_ Ht]|].
  destruct (Ascii.eqb c "+"); [by apply andb_prop in Ht as [_ Ht]|done].
Qed.

Lemma no_digit_take_digits acc count t :
  no_digit t = true -> take_digits acc count t = (acc, count, t).
Proof.
  unfold no_digit. destruct t as [|c t]; [done|]. simpl. intros Ht.
  apply andb_prop in Ht as [Hc _]. by destruct (is_digit c).
Qed.

(** A text without a digit is not a decimal literal. *)
Lemma no_digit_parse_decimal t : no_digit t = true -> parse_decimal t = None.
Proof.
  intros Ht. unfold parse_decimal.
  pose proof (no_digit_lstrip is_c_space t Ht) as H0.
  pose proof (no_digit_take_sign _ H0) as H1.
  destruct (take_sign (lstrip_with is_c_space t)) as [neg s1]. simpl in H1.
  rewrite (no_digit_take_digits _ _ _ H1).
  destruct s1 as [|c r]; [done|].
  destruct (Ascii.eqb c "."); [|done].
  assert (Hr : no_digit r = true).
  { unfold no_digit in *. simpl in H1. by apply andb_prop in H1 as [_ ?]. }
  by rewrite (no_digit_take_digits _ _ _ Hr).
Qed.

Lemma no_digit_float_of_text t :
  no_digit t = true -> is_finite (float_of_text t) = false.
Proof.
  intros Ht. unfold float_of_text, parse_numeric.
  rewrite (no_digit_parse_decimal _ Ht). unfold parse_special.
  destruct (_ || _); [done|]. destruct (_ || _); [done|].
  by destruct (_ || _).
Qed.

Lemma no_digit_remove_points t :
  no_digit t = true -> no_digit (remove_points t) = true.
Proof.
  unfold no_digit. induction t as [|c t IH]; [done|]. simpl. intros Ht.
  apply andb_prop in Ht as [Hc Ht].
  destruct (Ascii.eqb c "."); [by apply IH|]. simpl. by rewrite Hc, IH.
Qed.

Lemma no_digit_comma_to_point t :
  no_digit t = true -> no_digit (comma_to_point t) = true.
Proof.
  unfold no_digit. induction t as [|c t IH]; [done|]. simpl. intros Ht.
  apply andb_prop in Ht as [Hc Ht]. rewrite (IH Ht), andb_true_r.
  by destruct (Ascii.eqb c ",").
Qed.

End No_digit.

(** C3.  The float cast never fails.  A numeric column comes out as
    floats, value by value.  In any other column each value is taken as
    text, every point is removed, every comma becomes a point, and the
    result is parsed as a number, NaN when it is not one: the text
    "1.234,56" gives the binary64 nearest to 1234.56, "10,5" gives 10.5,
    "abc" gives NaN, and no text without a digit gives a number. *)
Theorem to_float_pt_spec `{PyFloat} (series : Series) :
  to_float_pt series
  = Ok (SFloat64
          (map (if is_numeric_dtype series then numeric_float
                else fun x =>
                       float_of_text (comma_to_point (remove_points (py_str x))))
               (values series)))
  /\ (forall s, str_replace "." "" s = remove_points s)
  /\ (forall s, str_replace "," "." s = comma_to_point s)
  /\ (exists f1 f2,
        to_float_pt (SObject [CStr "1.234,56"; CStr "10,5"; CStr "abc"; CNaN])
        = Ok (SFloat64 [f1; f2; S754_nan; S754_nan])
        /\ nearest_float 123456 100 f1
        /\ nearest_float 105 10 f2
        /\ float_integral f1 = None
        /\ float_integral (SFmul 53 1024 f2 (float_of_Z 2)) = Some 21)
  /\ (forall text,
        no_digit text = true ->
        is_finite (float_of_text (comma_to_point (remove_points text))) = false)
  /\ (forall z, - 2 ^ 53 < z < 2 ^ 53 ->
        float_integral (float_of_Z z) = Some z).
Proof.
  split; [apply to_float_pt_values|].
  split; [apply str_replace_point|]. split; [apply str_replace_comma|].
  split.
  { exists (S754_finite false 0x134a3d70a3d70a (-42)),
           (S754_finite false 0x15000000000000 (-49)).
    split; [vm_compute; reflexivity|].
    split; [eexists _, _; split; [reflexivity|]; vm_compute;
            repeat split; congruence|].
    split; [eexists _, _; split; [reflexivity|]; vm_compute;
            repeat split; congruence|].
    split; vm_compute; reflexivity. }
  split.
  { intros text Ht. apply no_digit_float_of_text.
    by apply no_digit_comma_to_point, no_digit_remove_points. }
  apply float_of_Z_exact.
Qed.

(** The floats 1234.56 and 10.5: 0x1.34a3d70a3d70ap+10 and 0x1.5p+3. *)
Example to_float_pt_locale `{PyFloat} :
  to_float_pt (SObject [CStr "1.234,56"; CStr "10,5"; CStr "abc"; CNaN])
  = Ok (SFloat64 [S754_finite false 0x134a3d70a3d70a (-42);
                  S754_finite false 0x15000000000000 (-49);
                  S754_nan; S754_nan]).
Proof. vm_compute. reflexivity. Qed.

Example float_of_decimals :
  dec_to_float false 123456 (-2) = S754_finite false 0x134a3d70a3d70a (-42)
  /\ dec_to_float false 105 (-1) = S754_finite false 0x15000000000000 (-49).
Proof. split; vm_compute; reflexivity. Qed.

Example to_float_pt_passes_numbers `{PyFloat} :
  to_float_pt (SInt64 [3; -2]) = Ok (SFloat64 [float_of_Z 3; float_of_Z (-2)]).
Proof. reflexivity. Qed.

(** C2, as the code has it.  For every column the integer cast either
    returns a nullable Int64 column with one value for each input value,
    each of them null or an integer of the signed 64-bit range, and null
    wherever the input value does not parse or is missing; or it raises
    the TypeError of an unsafe cast.  The error is never due to values
    that do not parse or are missing: some value of the column is then a
    number that is not an integer of the signed 64-bit range, or is one
    of size 2^53 or more; so a column without such a value is always
    cast.  In particular there is no error for a column of texts that
    read as integers below 2^53 in size, mixed with values that do not
    parse or are missing: each integer is kept and each of the others
    is null. *)
Theorem to_int_spec (series : Series) :
  match to_int series with
  | Ok s' =>
      exists v, s' = SNullableInt v
        /\ Forall2 (fun x o => nulled x = true -> o = None) (values series) v
        /\ (wf_series series ->
            Forall (fun o => forall z, o = Some z -> in_int64 z = true) v)
  | Raise e =>
      (e = unsafe_cast "float64" \/ e = unsafe_cast "uint64")
      /\ exists x, In x (values series)
           /\ nulled x = false
           /\ forall z, int64_value x = Some z -> 2 ^ 53 <= Z.abs z
  end
  /\ ((forall x, In x (values series) -> ~ unsafe_number x) ->
      exists v, to_int series = Ok (SNullableInt v))
  /\ forall cells,
      series = SObject cells ->
      Forall (fun c => nulled (cell_scalar c) = true \/ small_int_cell c) cells ->
      to_int series = Ok (SNullableInt (map int_of_cell cells)).
Proof.
  pose proof (to_int_cases series) as Hcases.
  split; [|split].
  - destruct (to_int series) as [s'|e]; [exact Hcases|].
    destruct Hcases as (He & x & Hx & Hnull & Hz). split; [exact He|].
    by exists x.
  - intros Hsafe. destruct (to_int series) as [s'|e].
    + destruct Hcases as (v & -> & _). by exists v.
    + destruct Hcases as (_ & x & Hx & Hbad). by destruct (Hsafe x Hx).
  - intros cells -> Hall. by apply to_int_small_ints.
Qed.

Lemma to_int_spec_witness :
  Forall (fun c => nulled (cell_scalar c) = true \/ small_int_cell c)
    [CStr "12"; CStr "abc"; CStr ""; CStr "7"]
  /\ to_int (SObject [CStr "12"; CStr "abc"; CStr ""; CStr "7"])
     = Ok (SNullableInt [Some 12; None; None; Some 7]).
Proof.
  assert (Hall : Forall (fun c => nulled (cell_scalar c) = true
                                  \/ small_int_cell c)
                   [CStr "12"; CStr "abc"; CStr ""; CStr "7"]).
  { constructor; [right; exists "12", 12; by repeat split|].
    constructor; [by left|]. constructor; [by left|].
    constructor; [right; exists "7", 7; by repeat split|].
    constructor. }
  split; [exact Hall|].
  exact (proj2 (proj2 (to_int_spec
                         (SObject [CStr "12"; CStr "abc"; CStr ""; CStr "7"])))
           _ eq_refl Hall).
Defined.

Example to_int_mixed :
  to_int (SObject [CStr "12"; CStr "abc"; CStr ""; CStr "7"])
  = Ok (SNullableInt [Some 12; None; None; Some 7]).
Proof. vm_compute. reflexivity. Qed.

(** C2, as stated, fails on a column with the text "1.5": it parses, as
    a number that is not whole, and the cast to Int64 raises. *)
Lemma to_int_raises_on_fraction :
  to_int (SObject [CStr "12"; CStr "1.5"]) = Raise (unsafe_cast "float64")
  /\ nulled (VStr "1.5") = false
  /\ ~ (forall series, exists v, to_int series = Ok (SNullableInt v)).
Proof.
  assert (Hr : to_int (SObject [CStr "12"; CStr "1.5"])
               = Raise (unsafe_cast "float64")) by (vm_compute; reflexivity).
  split; [exact Hr|]. split; [vm_compute; reflexivity|].
  intros Hall. destruct (Hall (SObject [CStr "12"; CStr "1.5"])) as (v & Hv).
  rewrite Hr in Hv. discriminate.
Qed.

(** ** Casting the columns of a dataset *)

Lemma In_singleton {A} (l : list A) (x : A) : l = [x] -> In x l.
Proof. intros ->. by left. Qed.

Lemma getitem_labelled d d' c :
  labelled d' c = labelled d c -> getitem d' c = getitem d c.
Proof. unfold getitem. by intros ->. Qed.

Lemma occurrences_columns d d' c :
  columns d' = columns d -> occurrences d' c = occurrences d c.
Proof. unfold occurrences. by intros ->. Qed.

Lemma labelled_absent d col : ~ In col (columns d) -> labelled d col = [].
Proof.
  intros Hn. destruct (labelled d col) as [|s l] eqn:Hl; [done|].
  exfalso. apply Hn, occurrences_In. rewrite <- labelled_length, Hl. simpl. lia.
Qed.

Lemma labelled_replace d col c s :
  labelled (map (fun '(c0, s0) => if String.eqb c0 col then (c0, s)
                                  else (c0, s0)) d) c
  = if String.eqb c col then map (fun _ => s) (labelled d c) else labelled d c.
Proof.
  induction d as [|[c0 s0] d IH]; simpl; [by destruct (String.eqb c col)|].
  destruct (String.eqb_spec c0 col) as [->|Hne]; simpl.
  - destruct (String.eqb_spec col c) as [->|Hne'].
    + rewrite String.eqb_refl in *. simpl. by rewrite IH.
    + rewrite (proj2 (String.eqb_neq c col)) in * by done. exact IH.
  - destruct (String.eqb_spec c0 c) as [->|Hne'].
    + rewrite (proj2 (String.eqb_neq c col)) in * by done. by rewrite IH.
    + exact IH.
Qed.

Lemma columns_setitem d col s :
  In col (columns d) -> columns (setitem d col s) = columns d.
Proof.
  intros Hin. unfold setitem. rewrite (proj2 (has_column_In d col) Hin).
  unfold columns. rewrite map_map. apply map_ext.
  intros [c0 s0]. by destruct (String.eqb c0 col).
Qed.

Lemma labelled_setitem_eq d col s s0 :
  labelled d col = [s0] -> labelled (setitem d col s) col = [s].
Proof.
  intros Hl. unfold setitem.
  assert (Hin : In col (columns d)).
  { apply occurrences_In. rewrite <- labelled_length, Hl. simpl. lia. }
  rewrite (proj2 (has_column_In d col) Hin), labelled_replace.
  by rewrite String.eqb_refl, Hl.
Qed.

Lemma labelled_setitem_ne d col c s :
  In col (columns d) -> c <> col ->
  labelled (setitem d col s) c = labelled d c.
Proof.
  intros Hin Hne. unfold setitem.
  rewrite (proj2 (has_column_In d col) Hin), labelled_replace.
  by rewrite (proj2 (String.eqb_neq c col)).
Qed.

(** One assignment [df[col] = cast(df[col])]. *)
Lemma cast_column_step cast on_frame (df : ref) col (h h' : heap) res :
  cast_column cast on_frame df col h = (h', res) ->
  (forall r, r <> df -> h' !! r = h !! r)
  /\ columns (h' !!! df) = columns (h !!! df)
  /\ (forall c, c <> col -> labelled (h' !!! df) c = labelled (h !!! df) c)
  /\ match res with
     | Ok _ =>
         (~ In col (columns (h !!! df)) /\ h' = h)
         \/ exists s s', labelled (h !!! df) col = [s] /\ cast s = Ok s'
                         /\ labelled (h' !!! df) col = [s']
     | Raise e =>
         h' = h
         /\ ((exists s, labelled (h !!! df) col = [s] /\ cast s = Raise e)
             \/ ((exists fr, e = on_frame col fr)
                 /\ (2 <= occurrences (h !!! df) col)%nat))
     end.
Proof.
  unfold cast_column.
  destruct (has_column (h !!! df) col) eqn:Hc.
  2:{ intros [= <- <-]. do 3 (split; [done|]). left.
      split; [by apply has_column_not_In|done]. }
  apply has_column_In in Hc.
  pose proof (proj2 (occurrences_In _ _) Hc) as Hocc.
  rewrite <- labelled_length in Hocc. unfold getitem.
  destruct (labelled (h !!! df) col) as [|s [|s1 l]] eqn:Hl;
    [simpl in Hocc; lia| |].
  - destruct (cast s) as [s'|e] eqn:Hcast; intros [= <- <-].
    + split; [intros r Hr; by rewrite lookup_insert_ne|].
      rewrite lookup_total_insert_eq.
      split; [by apply columns_setitem|].
      split; [intros c Hne; by apply labelled_setitem_ne|].
      right. exists s, s'. split; [done|]. split; [done|].
      by apply (labelled_setitem_eq _ _ _ s).
    + do 3 (split; [done|]). split; [done|]. left. by exists s.
  - intros [= <- <-]. do 3 (split; [done|]). split; [done|]. right.
    split; [by eexists|]. rewrite <- labelled_length, Hl. simpl. lia.
Qed.

(** One loop [for col in fields: ...] of [apply_casts]. *)
Lemma for_each_cast cast on_frame (df : ref) cols (h h' : heap) res :
  for_each cols (cast_column cast on_frame df) h = (h', res) ->
  (forall r, r <> df -> h' !! r = h !! r)
  /\ columns (h' !!! df) = columns (h !!! df)
  /\ (forall c, ~ In c cols -> labelled (h' !!! df) c = labelled (h !!! df) c)
  /\ match res with
     | Ok _ =>
         (forall c, In c cols -> (occurrences (h !!! df) c <= 1)%nat)
         /\ (NoDup cols -> forall c s, In c cols ->
             labelled (h !!! df) c = [s] ->
             exists s', cast s = Ok s' /\ labelled (h' !!! df) c = [s'])
         /\ (forall c s', In c cols -> labelled (h' !!! df) c = [s'] ->
             exists s, cast s = Ok s')
     | Raise e =>
         (exists c s, In c cols /\ cast s = Raise e
                      /\ (NoDup cols -> labelled (h !!! df) c = [s]))
         \/ (exists c fr, e = on_frame c fr /\ In c cols
                          /\ (2 <= occurrences (h !!! df) c)%nat)
     end.
Proof.
  revert h. induction cols as [|col cols IH]; intros h; simpl.
  - intros [= <- <-]. do 3 (split; [done|]). by repeat split.
  - unfold bind.
    destruct (cast_column cast on_frame df col h) as [h1 [[]|e]] eqn:Hstep;
      apply cast_column_step in Hstep as (Hfr1 & Hcol1 & Hoth1 & Hres1).
    + intros Hrest. apply IH in Hrest as (Hfr2 & Hcol2 & Hoth2 & Hres2).
      split; [intros r Hr; by rewrite Hfr2, Hfr1|].
      split; [congruence|].
      split.
      { intros c Hc. rewrite Hoth2, Hoth1; [done| |]; intros ?; apply Hc; eauto. }
      destruct res as [[]|e].
      * destruct Hres2 as (Honce2 & Hdone2 & Hout2). split; [|split].
        -- intros c [<-|Hc].
           ++ destruct Hres1 as [[Hn _]|(s & s' & Hl & _)].
              ** apply occurrences_In in Hn || idtac.
                 destruct (occurrences (h !!! df) col) eqn:Ho; [lia|].
                 exfalso. apply Hn, occurrences_In. lia.
              ** by rewrite <- labelled_length, Hl.
           ++ rewrite <- (occurrences_columns _ _ c Hcol1). by apply Honce2.
        -- intros Hnd c s Hin Hl. apply NoDup_cons in Hnd as [Hnotin Hnd].
           rewrite list_elem_of_In in Hnotin.
           destruct Hin as [->|Hin].
           ++ destruct Hres1 as [[Hn _]|(s0 & s' & Hl0 & Hs' & Hl1)].
              ** rewrite (labelled_absent _ _ Hn) in Hl. done.
              ** rewrite Hl in Hl0. injection Hl0 as <-.
                 exists s'. split; [done|]. by rewrite Hoth2.
           ++ apply (Hdone2 Hnd c s Hin). rewrite Hoth1; [done|].
              by intros ->.
        -- intros c s' Hin Hl.
           destruct (in_dec string_dec c cols) as [Hc|Hc].
           { by apply (Hout2 c s' Hc). }
           destruct Hin as [->|Hin]; [|done].
           rewrite (Hoth2 _ Hc) in Hl.
           destruct Hres1 as [[Hn ->]|(s0 & s1 & _ & Hs1 & Hl1)].
           ++ rewrite (labelled_absent _ _ Hn) in Hl. done.
           ++ exists s0. congruence.
      * destruct Hres2 as [(c & s & Hc & Hs & Hl)|(c & fr & -> & Hc & Hocc)].
        -- left. exists c, s. split; [by right|]. split; [done|].
           intros Hnd. apply NoDup_cons in Hnd as [Hnotin Hnd].
           rewrite list_elem_of_In in Hnotin.
           rewrite <- Hoth1; [by apply Hl|]. by intros ->.
        -- right. exists c, fr. split; [done|]. split; [by right|].
           by rewrite <- (occurrences_columns _ _ c Hcol1).
    + intros [= <- <-]. destruct Hres1 as [-> Hres1].
      do 3 (split; [done|]).
      destruct Hres1 as [(s & Hl & Hs)|[(fr & ->) Hocc]].
      * left. exists col, s. split; [by left|]. by split.
      * right. exists col, fr. split; [done|]. split; [by left|done].
Qed.

Section Apply_casts.
Context `{PyFloat} `{FR : Frames}.

Lemma to_str_total s : exists s', to_str s = Ok s'.
Proof. rewrite to_str_values. eauto. Qed.

Lemma to_float_pt_total s : exists s', to_float_pt s = Ok s'.
Proof. rewrite to_float_pt_values. eauto. Qed.

Lemma to_int_error s e :
  to_int s = Raise e -> e = unsafe_cast "float64" \/ e = unsafe_cast "uint64".
Proof.
  intros Hs. pose proof (to_int_cases s) as Hc. rewrite Hs in Hc. tauto.
Qed.

(** What [apply_casts] does to the heap, what it returns and what it
    raises. *)
Lemma apply_casts_cases (df : ref) (I S F : list string) (h : heap) :
  exists h' res,
    apply_casts df I S F h = (h', res)
    /\ (forall r, r <> df -> h' !! r = h !! r)
    /\ columns (h' !!! df) = columns (h !!! df)
    /\ (forall col, ~ In col (I ++ S ++ F) ->
        labelled (h' !!! df) col = labelled (h !!! df) col)
    /\ match res with
       | Ok r =>
           r = df
           /\ labels_once (h !!! df) (I ++ S ++ F)
           /\ (NoDup (I ++ S ++ F) ->
               forall col s, labelled (h !!! df) col = [s] ->
               (In col I -> exists s', to_int s = Ok s'
                                       /\ labelled (h' !!! df) col = [s'])
               /\ (In col S -> exists s', to_str s = Ok s'
                                          /\ labelled (h' !!! df) col = [s'])
               /\ (In col F -> exists s', to_float_pt s = Ok s'
                                          /\ labelled (h' !!! df) col = [s']))
       | Raise e =>
           ((e = unsafe_cast "float64" \/ e = unsafe_cast "uint64")
            /\ exists col s x,
                 In col I /\ to_int s = Raise e
                 /\ In x (values s) /\ unsafe_number x
                 /\ (NoDup I -> In (col, s) (h !!! df)))
           \/ (exists col fr,
                 In col (I ++ S ++ F)
                 /\ (2 <= occurrences (h !!! df) col)%nat
                 /\ (e = to_int_frame col fr \/ e = to_str_frame col fr
                     \/ e = to_float_pt_frame col fr))
       end.
Proof.
  unfold apply_casts, bind.
  destruct (for_each I (cast_column to_int to_int_frame df) h)
    as [h1 r1] eqn:E1.
  pose proof (for_each_cast _ _ _ _ _ _ _ E1) as (Hf1 & Hc1 & Ho1 & Hr1).
  destruct r1 as [[]|e].
  2:{ exists h1, (Raise e). split; [done|]. split; [done|]. split; [done|].
      split.
      { intros col Hcol. apply Ho1. intros Hin. apply Hcol.
        apply in_app_iff. by left. }
      destruct Hr1 as [(c & s & Hc & Hs & Hl)|(c & fr & -> & Hc & Hocc)].
      - left. split; [by apply (to_int_error s)|].
        pose proof (to_int_cases s) as Hcases. rewrite Hs in Hcases.
        destruct Hcases as (_ & x & Hx & Hbad).
        exists c, s, x. split; [done|]. split; [done|]. split; [done|].
        split; [done|]. intros Hnd. apply labelled_In, In_singleton.
        exact (Hl Hnd).
      - right. exists c, fr. split; [apply in_app_iff; by left|].
        split; [done|]. by left. }
  destruct Hr1 as (Honce1 & Hdone1 & _).
  destruct (for_each S (cast_column to_str to_str_frame df) h1)
    as [h2 r2] eqn:E2.
  pose proof (for_each_cast _ _ _ _ _ _ _ E2) as (Hf2 & Hc2 & Ho2 & Hr2).
  destruct r2 as [[]|e].
  2:{ exists h2, (Raise e). split; [done|].
      split; [intros r Hr; by rewrite Hf2, Hf1|]. split; [congruence|].
      split.
      { intros col Hcol. rewrite !in_app_iff in Hcol.
        rewrite Ho2, Ho1; tauto. }
      destruct Hr2 as [(c & s & Hc & Hs & _)|(c & fr & -> & Hc & Hocc)].
      - destruct (to_str_total s) as (s' & Hs'). congruence.
      - right. exists c, fr.
        split; [rewrite !in_app_iff; tauto|].
        split; [by rewrite <- (occurrences_columns _ _ c Hc1)|].
        right. by left. }
  destruct Hr2 as (Honce2 & Hdone2 & _).
  destruct (for_each F (cast_column to_float_pt to_float_pt_frame df) h2)
    as [h3 r3] eqn:E3.
  pose proof (for_each_cast _ _ _ _ _ _ _ E3) as (Hf3 & Hc3 & Ho3 & Hr3).
  destruct r3 as [[]|e].
  2:{ exists h3, (Raise e). split; [done|].
      split; [intros r Hr; by rewrite Hf3, Hf2, Hf1|]. split; [congruence|].
      split.
      { intros col Hcol. rewrite !in_app_iff in Hcol.
        rewrite Ho3, Ho2, Ho1; tauto. }
      destruct Hr3 as [(c & s & Hc & Hs & _)|(c & fr & -> & Hc & Hocc)].
      - destruct (to_float_pt_total s) as (s' & Hs'). congruence.
      - right. exists c, fr.
        split; [rewrite !in_app_iff; tauto|].
        split; [|right; by right].
        rewrite <- (occurrences_columns _ _ c Hc1).
        by rewrite <- (occurrences_columns _ _ c Hc2). }
  destruct Hr3 as (Honce3 & Hdone3 & _).
  exists h3, (Ok df). split; [done|].
  split; [intros r Hr; by rewrite Hf3, Hf2, Hf1|].
  split; [congruence|].
  split.
  { intros col Hcol. rewrite !in_app_iff in Hcol.
    rewrite Ho3, Ho2, Ho1; tauto. }
  split; [done|]. split.
  { intros c Hc. apply in_app_iff in Hc as [Hc|Hc];
      [by apply Honce1|apply in_app_iff in Hc as [Hc|Hc]].
    - rewrite <- (occurrences_columns _ _ c Hc1). by apply Honce2.
    - rewrite <- (occurrences_columns _ _ c Hc1).
      rewrite <- (occurrences_columns _ _ c Hc2). by apply Honce3. }
  intros Hnd col s Hg.
  apply NoDup_app in Hnd as (HndI & HIdisj & Hnd).
  apply NoDup_app in Hnd as (HndS & HSdisj & HndF).
  assert (HI : In col I -> ~ In col S /\ ~ In col F).
  { intros Hin. apply list_elem_of_In, HIdisj in Hin.
    rewrite elem_of_app, !list_elem_of_In in Hin. tauto. }
  assert (HS : In col S -> ~ In col I /\ ~ In col F).
  { intros Hin. split.
    - intros Hi. by destruct (HI Hi).
    - apply list_elem_of_In, HSdisj in Hin. by rewrite list_elem_of_In in Hin. }
  assert (HF : In col F -> ~ In col I /\ ~ In col S).
  { intros Hin. split; intros Hx; [destruct (HI Hx)|destruct (HS Hx)]; done. }
  split; [|split].
  - intros Hin. destruct (HI Hin) as [HnS HnF].
    destruct (Hdone1 HndI col s Hin Hg) as (s' & Hs' & Hg1).
    exists s'. split; [done|]. by rewrite Ho3, Ho2.
  - intros Hin. destruct (HS Hin) as [HnI HnF].
    rewrite <- Ho1 in Hg by done.
    destruct (Hdone2 HndS col s Hin Hg) as (s' & Hs' & Hg2).
    exists s'. split; [done|]. by rewrite Ho3.
  - intros Hin. destruct (HF Hin) as [HnI HnS].
    rewrite <- Ho1, <- Ho2 in Hg by done.
    apply (Hdone3 HndF col s Hin Hg).
Qed.

(** Where no declared label is carried by two columns, the only error
    is that of the integer cast. *)
Lemma apply_casts_once (df : ref) (I S F : list string) (h h' : heap) res :
  labels_once (h !!! df) (I ++ S ++ F) ->
  apply_casts df I S F h = (h', res) ->
  (res = Ok df
   \/ exists e, res = Raise e
        /\ (e = unsafe_cast "float64" \/ e = unsafe_cast "uint64"))
  /\ (I = [] -> res = Ok df).
Proof.
  intros Honce Hcast.
  destruct (apply_casts_cases df I S F h)
    as (h0 & res0 & Heq & _ & _ & _ & Hres).
  rewrite Hcast in Heq. injection Heq as <- <-.
  destruct res as [r|e].
  - destruct Hres as (-> & _). split; [by left|done].
  - destruct Hres as [(He & c & s & x & Hc & _)|(c & fr & Hc & Hocc & _)].
    + split; [right; by exists e|]. by intros ->.
    + specialize (Honce c Hc). lia.
Qed.

End Apply_casts.

(** C8, as the code has it.  [apply_casts] works on the caller's dataset
    itself, not on a copy, and returns the same object.  For a dataset
    in which no declared label is carried by two columns: its columns
    keep their labels and order, the columns not named in the lists
    keep their values, no other object changes; with the lists
    duplicate-free and disjoint, each named column of the dataset holds
    the cast of its former values afterwards, a value that does not
    parse or is missing having become null (<NA> in an integer field,
    NaN in a float field).  The string and float casts never raise: the
    only error is the TypeError of the integer cast, for a column with
    a value that is a number and is not an integer of the signed 64-bit
    range, or is one of size 2^53 or more; and there is none when no
    integer field is given. *)
Theorem apply_casts_in_place `{PyFloat} `{FR : Frames} (df : ref)
    (integer_fields string_fields float_fields : list string) (h : heap) :
  labels_once (h !!! df) (integer_fields ++ string_fields ++ float_fields) ->
  exists h' res,
    apply_casts df integer_fields string_fields float_fields h = (h', res)
    /\ (res = Ok df
        \/ exists e, res = Raise e
             /\ (e = unsafe_cast "float64" \/ e = unsafe_cast "uint64")
             /\ exists col s x,
                  In col integer_fields /\ to_int s = Raise e
                  /\ In x (values s) /\ nulled x = false
                  /\ (forall z, int64_value x = Some z -> 2 ^ 53 <= Z.abs z)
                  /\ (NoDup integer_fields -> In (col, s) (h !!! df)))
    /\ (integer_fields = [] -> res = Ok df)
    /\ (forall r, r <> df -> h' !! r = h !! r)
    /\ columns (h' !!! df) = columns (h !!! df)
    /\ (forall col, ~ In col (integer_fields ++ string_fields ++ float_fields) ->
        getitem (h' !!! df) col = getitem (h !!! df) col)
    /\ (res = Ok df ->
        NoDup (integer_fields ++ string_fields ++ float_fields) ->
        forall col s, getitem (h !!! df) col = Ok (Column s) ->
        (In col integer_fields ->
         exists v, to_int s = Ok (SNullableInt v)
           /\ getitem (h' !!! df) col = Ok (Column (SNullableInt v))
           /\ Forall2 (fun x o => nulled x = true -> o = None) (values s) v)
        /\ (In col string_fields ->
            getitem (h' !!! df) col
            = Ok (Column (SObject (map (fun x => CStr (str_cast x))
                                       (values s)))))
        /\ (In col float_fields ->
            getitem (h' !!! df) col
            = Ok (Column
                    (SFloat64
                       (map (if is_numeric_dtype s then numeric_float
                             else fun x => locale_float (py_str x))
                            (values s))))))
    /\ (forall text,
          parse_numeric (comma_to_point (remove_points text)) = None ->
          locale_float text = S754_nan).
Proof.
  intros Honce.
  destruct (apply_casts_cases df integer_fields string_fields float_fields h)
    as (h' & res & Hcast & Hforeign & Hcols & Hother & Hres).
  exists h', res. split; [exact Hcast|].
  destruct (apply_casts_once _ _ _ _ _ _ _ Honce Hcast) as [Hshape Hnone].
  split.
  { destruct res as [r|e].
    - left. by destruct Hres as (-> & _).
    - right. exists e. split; [done|].
      destruct Hres as [(He & c & s & x & Hc & Hs & Hx & [Hn Hz] & Hin)
                       |(c & fr & Hc & Hocc & _)].
      + split; [done|]. by exists c, s, x.
      + specialize (Honce c Hc). lia. }
  split; [exact Hnone|]. split; [exact Hforeign|]. split; [exact Hcols|].
  split; [intros col Hcol; by apply getitem_labelled, Hother|].
  split.
  { intros -> Hnd col s Hg. destruct Hres as (_ & _ & Hdone).
    apply getitem_Column in Hg.
    destruct (Hdone Hnd col s Hg) as (HI & HS & HF).
    split; [|split].
    - intros Hin. destruct (HI Hin) as (s' & Hs' & Hl).
      pose proof (to_int_cases s) as Hcases. rewrite Hs' in Hcases.
      destruct Hcases as (v & -> & Hnull & _). exists v.
      split; [done|]. split; [by apply getitem_Column|done].
    - intros Hin. destruct (HS Hin) as (s' & Hs' & Hl).
      rewrite to_str_values in Hs'. injection Hs' as <-.
      apply getitem_Column. by rewrite Hl, map_map.
    - intros Hin. destruct (HF Hin) as (s' & Hs' & Hl).
      rewrite to_float_pt_values in Hs'. injection Hs' as <-.
      by apply getitem_Column. }
  intros text Hp. unfold locale_float, float_of_text. by rewrite Hp.
Qed.

Lemma apply_casts_in_place_witness :
  labels_once (sample_heap !!! 0%nat) (["a"] ++ ["c"] ++ [])
  /\ exists h',
      apply_casts (H := sample_float) (FR := sample_frames)
        0%nat ["a"] ["c"] [] sample_heap
      = (h', Ok 0%nat)
      /\ columns (h' !!! 0%nat) = columns (sample_heap !!! 0%nat).
Proof.
  assert (Honce : labels_once (sample_heap !!! 0%nat) (["a"] ++ ["c"] ++ [])).
  { apply NoDup_labels_once. apply (bool_decide_unpack _). vm_compute.
    reflexivity. }
  split; [exact Honce|].
  destruct (apply_casts_in_place (H := sample_float) (FR := sample_frames)
              0%nat ["a"] ["c"] []
              sample_heap Honce)
    as (h' & res & Hcast & _ & _ & _ & Hcols & _).
  assert (Hres : res = Ok 0%nat).
  { apply (f_equal snd) in Hcast. simpl in Hcast. rewrite <- Hcast.
    vm_compute. reflexivity. }
  subst res. by exists h'.
Defined.

(** C8, as stated, fails: after the call the caller's dataset holds the
    cast column; and the integer cast raises on a column with the text
    "1.5". *)
Lemma apply_casts_changes_the_input :
  (exists h',
     apply_casts (H := sample_float) (FR := sample_frames)
       0%nat ["a"] [] [] sample_heap
     = (h', Ok 0%nat)
     /\ getitem (sample_heap !!! 0%nat) "a"
        = Ok (Column (SObject [CStr "12"; CStr "7"]))
     /\ getitem (h' !!! 0%nat) "a"
        = Ok (Column (SNullableInt [Some 12; Some 7])))
  /\ ~ (forall (df : ref) (I S F : list string) (h : heap),
          fst (apply_casts (H := sample_float) (FR := sample_frames)
                 df I S F h) !!! df = h !!! df)
  /\ snd (apply_casts (H := sample_float) (FR := sample_frames)
            0%nat ["a"] [] [] fraction_heap)
     = Raise (unsafe_cast "float64").
Proof.
  split; [|split].
  - eexists. split; [vm_compute; reflexivity|].
    split; vm_compute; reflexivity.
  - intros Hall. specialize (Hall 0%nat ["a"] [] [] sample_heap).
    vm_compute in Hall. discriminate.
  - vm_compute. reflexivity.
Qed.

(** With a label that two columns carry, [df[col]] is a DataFrame and
    the cast of a declared field is refused: by [pd.to_numeric] for an
    integer field, for its missing [.str] otherwise; under the label
    "str", [.str] is the DataFrame again, and it is [.strip] that is
    missing, or [pd.to_numeric] that refuses. *)
Example apply_casts_repeated_label :
  snd (apply_casts (H := sample_float) (FR := sample_frames) 0%nat [] ["a"] []
         {[ 0%nat := [("a", SObject [CStr "x"]); ("a", SObject [CStr "y"])] ]})
  = Raise no_str_accessor
  /\ snd (apply_casts (H := sample_float) (FR := sample_frames) 0%nat
            [] [] ["a"]
            {[ 0%nat := [("a", SObject [CStr "x"]); ("a", SObject [CStr "y"])] ]})
     = Raise (AttributeError "'DataFrame' object has no attribute 'str'")
  /\ snd (apply_casts (H := sample_float) (FR := sample_frames) 0%nat
            ["a"] [] []
            {[ 0%nat := [("a", SObject [CStr "x"]); ("a", SObject [CStr "y"])] ]})
     = Raise (TypeError "arg must be a list, tuple, 1-d array, or Series")
  /\ snd (apply_casts (H := sample_float) (FR := sample_frames) 0%nat
            [] ["str"] []
            {[ 0%nat := [("str", SObject [CStr "x"]);
                         ("str", SObject [CStr "y"])] ]})
     = Raise (AttributeError "'DataFrame' object has no attribute 'strip'")
  /\ snd (apply_casts (H := sample_float) (FR := sample_frames) 0%nat
            [] [] ["str"]
            {[ 0%nat := [("str", SObject [CStr "x"]);
                         ("str", SObject [CStr "y"])] ]})
     = Raise (TypeError "arg must be a list, tuple, 1-d array, or Series").
Proof. vm_compute. by repeat split. Qed.

(** * More of the code *)

(** ** Casting again, and checking what was cast *)

Section Cast_again.
Context `{PyFloat} `{FR : Frames}.

Lemma to_int_dtype s s' : to_int s = Ok s' -> dtype_of s' = dt_Int64.
Proof.
  intros Hs. pose proof (to_int_cases s) as Hc. rewrite Hs in Hc.
  by destruct Hc as (v & -> & _).
Qed.

Lemma to_str_dtype s s' : to_str s = Ok s' -> dtype_of s' = dt_object.
Proof. rewrite to_str_values. by intros [= <-]. Qed.

Lemma to_float_pt_dtype s s' : to_float_pt s = Ok s' -> dtype_of s' = dt_float64.
Proof. rewrite to_float_pt_values. by intros [= <-]. Qed.

Lemma to_int_again s s' : to_int s = Ok s' -> to_int s' = Ok s'.
Proof.
  intros Hs. pose proof (to_int_cases s) as Hc. rewrite Hs in Hc.
  by destruct Hc as (v & -> & _).
Qed.

Lemma to_float_pt_again s s' : to_float_pt s = Ok s' -> to_float_pt s' = Ok s'.
Proof. rewrite to_float_pt_values. by intros [= <-]. Qed.

(** The dtypes that a successful [apply_casts] leaves. *)
Lemma apply_casts_dtypes (df : ref) (I S F : list string) (h h' : heap) r :
  apply_casts df I S F h = (h', Ok r) ->
  forall col s, labelled (h' !!! df) col = [s] ->
  (In col F -> dtype_of s = dt_float64)
  /\ (In col S -> ~ In col F -> dtype_of s = dt_object)
  /\ (In col I -> ~ In col S -> ~ In col F -> dtype_of s = dt_Int64).
Proof.
  unfold apply_casts, bind.
  destruct (for_each I (cast_column to_int to_int_frame df) h)
    as [h1 [[]|e]] eqn:E1; [|done].
  destruct (for_each S (cast_column to_str to_str_frame df) h1)
    as [h2 [[]|e]] eqn:E2; [|done].
  destruct (for_each F (cast_column to_float_pt to_float_pt_frame df) h2)
    as [h3 [[]|e]] eqn:E3; [|done].
  intros [= <- <-] col s Hg.
  pose proof (for_each_cast _ _ _ _ _ _ _ E1) as (_ & _ & _ & _ & _ & Hout1).
  pose proof (for_each_cast _ _ _ _ _ _ _ E2) as (_ & _ & Ho2 & _ & _ & Hout2).
  pose proof (for_each_cast _ _ _ _ _ _ _ E3) as (_ & _ & Ho3 & _ & _ & Hout3).
  split; [|split].
  - intros Hin. destruct (Hout3 col s Hin Hg) as (s0 & Hs0).
    by apply to_float_pt_dtype in Hs0.
  - intros Hin HnF.
    assert (Hg2 : labelled (h2 !!! df) col = [s]).
    { etransitivity; [symmetry; exact (Ho3 col HnF)|exact Hg]. }
    destruct (Hout2 col s Hin Hg2) as (s0 & Hs0).
    by apply to_str_dtype in Hs0.
  - intros Hin HnS HnF.
    assert (Hg2 : labelled (h2 !!! df) col = [s]).
    { etransitivity; [symmetry; exact (Ho3 col HnF)|exact Hg]. }
    assert (Hg1 : labelled (h1 !!! df) col = [s]).
    { etransitivity; [symmetry; exact (Ho2 col HnS)|exact Hg2]. }
    destruct (Hout1 col s Hin Hg1) as (s0 & Hs0).
    by apply to_int_dtype in Hs0.
Qed.

(** After a successful [apply_casts] no declared label is carried by
    two columns, and a column of the dataset is the only one under its
    label. *)
Lemma apply_casts_labels (df : ref) (I S F : list string) (h h' : heap) r :
  apply_casts df I S F h = (h', Ok r) ->
  r = df
  /\ columns (h' !!! df) = columns (h !!! df)
  /\ labels_once (h' !!! df) (I ++ S ++ F)
  /\ forall col s, In col (I ++ S ++ F) -> In (col, s) (h' !!! df) ->
       labelled (h' !!! df) col = [s].
Proof.
  intros Hcast.
  destruct (apply_casts_cases df I S F h)
    as (h0 & res & Heq & _ & Hcols & _ & Hres).
  rewrite Hcast in Heq. injection Heq as <- <-.
  destruct Hres as (-> & Honce & _).
  assert (Honce' : labels_once (h' !!! df) (I ++ S ++ F)).
  { intros c Hc. rewrite (occurrences_columns _ _ c Hcols). by apply Honce. }
  split; [done|]. split; [done|]. split; [exact Honce'|].
  intros col s Hc Hs.
  assert (Hin : In col (columns (h' !!! df))).
  { change col with (fst (col, s)). by apply in_map. }
  destruct (getitem_once _ _ Hin (Honce' col Hc)) as (s0 & Hl & Hg & _).
  by rewrite (getitem_unique _ _ _ _ Hg Hs).
Qed.

Lemma apply_casts_check_ok (df : ref) (I S F : list string) (h h' : heap) r :
  fields_disjoint I S F ->
  apply_casts df I S F h = (h', Ok r) ->
  check_dtypes (h' !!! df) I S F = Ok tt.
Proof.
  intros [HI HS] Hcast.
  pose proof (apply_casts_dtypes _ _ _ _ _ _ _ Hcast) as Hd.
  destruct (apply_casts_labels _ _ _ _ _ _ _ Hcast) as (_ & _ & Honce & Huniq).
  destruct (check_dtypes_once _ _ _ _ Honce)
    as (w1 & w2 & w3 & _ & _ & _ & Hwrong & ->).
  destruct (w1 ++ w2 ++ w3) as [|w ws]; [done|]. exfalso.
  destruct (proj1 (Hwrong w) ltac:(by left))
    as (col & s & Hs & _ & _ & Hcase).
  assert (Hin : In col (I ++ S ++ F)).
  { rewrite !in_app_iff. tauto. }
  destruct (Hd col s (Huniq col s Hin Hs)) as (HFd & HSd & HId).
  destruct Hcase as [(Hc & Ha & _)|[(Hc & Ha & _)|(Hc & Ha & _)]].
  - destruct (HI col Hc) as [HnS HnF]. by rewrite (HId Hc HnS HnF) in Ha.
  - by rewrite (HSd Hc (HS col Hc)) in Ha.
  - by rewrite (HFd Hc) in Ha.
Qed.

Lemma clean_dataframe_apply_casts (df : ref) (i s : option (list string))
    (h : heap) :
  clean_dataframe df i s h = apply_casts df (default [] i) (default [] s) [] h.
Proof.
  unfold clean_dataframe, apply_casts, bind. simpl.
  destruct (for_each (default [] i) (cast_column to_int to_int_frame df) h)
    as [h1 [[]|e]]; [|done].
  by destruct (for_each (default [] s)
                 (cast_column to_str to_str_frame df) h1) as [h2 [[]|e]].
Qed.

End Cast_again.

(** X1.  Casting a column that was cast already changes nothing: the
    integer cast of the result of an integer cast, and the float cast of
    the result of a float cast, return that same column. *)
Theorem casts_are_idempotent `{PyFloat} (series : Series) :
  rbind (to_int series) to_int = to_int series
  /\ rbind (to_float_pt series) to_float_pt = to_float_pt series.
Proof.
  split.
  - destruct (to_int series) as [s'|e] eqn:Hs; [|done]. simpl.
    by apply (to_int_again series).
  - destruct (to_float_pt series) as [s'|e] eqn:Hs; [|done]. simpl.
    by apply (to_float_pt_again series).
Qed.

(** X2.  When no column is declared in two categories, [check_dtypes]
    accepts whatever a successful [apply_casts] with the same lists has
    left in the dataset. *)
Theorem apply_casts_then_check_dtypes `{PyFloat} `{FR : Frames} (df : ref)
    (integer_fields string_fields float_fields : list string)
    (h h' : heap) (r : ref) :
  fields_disjoint integer_fields string_fields float_fields ->
  apply_casts df integer_fields string_fields float_fields h = (h', Ok r) ->
  check_dtypes (h' !!! df) integer_fields string_fields float_fields = Ok tt.
Proof. apply apply_casts_check_ok. Qed.

Lemma apply_casts_then_check_dtypes_witness :
  fields_disjoint ["a"] ["c"] []
  /\ check_dtypes (FR := sample_frames)
       (fst (apply_casts (H := sample_float) (FR := sample_frames)
               0%nat ["a"] ["c"] [] sample_heap)
        !!! 0%nat) ["a"] ["c"] [] = Ok tt.
Proof.
  assert (Hd : fields_disjoint ["a"] ["c"] []).
  { split.
    - intros c [<-|[]]. split; [|by intros []]. intros [Hc|[]]. discriminate.
    - intros c _ []. }
  split; [exact Hd|].
  destruct (apply_casts (H := sample_float) (FR := sample_frames)
              0%nat ["a"] ["c"] [] sample_heap)
    as [h' res] eqn:Hcast.
  assert (Hres : res = Ok 0%nat).
  { apply (f_equal snd) in Hcast. simpl in Hcast. rewrite <- Hcast.
    vm_compute. reflexivity. }
  subst res.
  exact (apply_casts_then_check_dtypes (H := sample_float) (FR := sample_frames)
           0%nat ["a"] ["c"] []
           sample_heap h' 0%nat Hd Hcast).
Defined.

(** X3.  A column of the dataset that is declared in two categories
    makes [check_dtypes] fail after a successful [apply_casts]: the
    later cast decides its dtype, and the check of the earlier category
    refuses it. *)
Theorem overlapping_fields_fail_check `{PyFloat} `{FR : Frames} (df : ref)
    (integer_fields string_fields float_fields : list string)
    (h h' : heap) (r : ref) (col : string) :
  apply_casts df integer_fields string_fields float_fields h = (h', Ok r) ->
  In col (columns (h !!! df)) ->
  fields_overlap integer_fields string_fields float_fields col ->
  exists msg,
    check_dtypes (h' !!! df) integer_fields string_fields float_fields
    = Raise (SchemaError msg).
Proof.
  intros Hcast Hin Hov.
  pose proof (apply_casts_dtypes _ _ _ _ _ _ _ Hcast) as Hd.
  destruct (apply_casts_labels _ _ _ _ _ _ _ Hcast)
    as (_ & Hcols & Honce & Huniq).
  assert (Hdecl : In col (integer_fields ++ string_fields ++ float_fields)).
  { rewrite !in_app_iff. destruct Hov as [[? _]|[? _]]; tauto. }
  rewrite <- Hcols in Hin.
  destruct (getitem_once _ _ Hin (Honce col Hdecl)) as (s & Hl & _ & Hs).
  destruct (Hd col s Hl) as (HF & HS & _).
  destruct (check_dtypes_once _ _ _ _ Honce)
    as (w1 & w2 & w3 & _ & _ & _ & Hwrong & ->).
  assert (Hw : exists w, In w (w1 ++ w2 ++ w3)).
  { destruct (in_dec string_dec col float_fields) as [HinF|HnF].
    - specialize (HF HinF).
      destruct Hov as [[HinI _]|[HinS _]].
      + exists (col, "Int64", dtype_str (dtype_of s)). apply Hwrong.
        exists col, s. simpl. split; [done|]. split; [done|]. split; [done|].
        left. by rewrite HF.
      + exists (col, "string(object)", dtype_str (dtype_of s)). apply Hwrong.
        exists col, s. simpl. split; [done|]. split; [done|]. split; [done|].
        right; left. by rewrite HF.
    - destruct Hov as [[HinI [HinS|HinF]]|[_ HinF]]; try done.
      specialize (HS HinS HnF).
      exists (col, "Int64", dtype_str (dtype_of s)). apply Hwrong.
      exists col, s. simpl. split; [done|]. split; [done|]. split; [done|].
      left. by rewrite HS. }
  destruct Hw as (w & Hw).
  destruct (w1 ++ w2 ++ w3) as [|w0 ws]; [done|]. eauto.
Qed.

Lemma overlapping_fields_fail_check_witness :
  In "a" (columns (sample_heap !!! 0%nat))
  /\ fields_overlap ["a"] ["a"] [] "a"
  /\ exists msg,
      check_dtypes (FR := sample_frames)
        (fst (apply_casts (H := sample_float) (FR := sample_frames)
                0%nat ["a"] ["a"] [] sample_heap)
         !!! 0%nat) ["a"] ["a"] [] = Raise (SchemaError msg).
Proof.
  assert (Hin : In "a" (columns (sample_heap !!! 0%nat)))
    by (vm_compute; by left).
  assert (Hov : fields_overlap ["a"] ["a"] [] "a")
    by (left; split; [by left|left; by left]).
  split; [exact Hin|]. split; [exact Hov|].
  destruct (apply_casts (H := sample_float) (FR := sample_frames)
              0%nat ["a"] ["a"] [] sample_heap)
    as [h' res] eqn:Hcast.
  assert (Hres : res = Ok 0%nat).
  { apply (f_equal snd) in Hcast. simpl in Hcast. rewrite <- Hcast.
    vm_compute. reflexivity. }
  subst res.
  exact (overlapping_fields_fail_check (H := sample_float) (FR := sample_frames)
           0%nat ["a"] ["a"] []
           sample_heap h' 0%nat "a" Hcast Hin Hov).
Defined.

(** X4.  [clean_dataframe] is [apply_casts] without float fields, a
    list that is not given counting as empty, whatever the dataset and
    whether it returns or raises; when it returns, it returns the
    dataset it was given, and when no column is both an integer and a
    string field, [check_dtypes] with the same lists accepts that
    dataset. *)
Theorem clean_dataframe_then_check_dtypes `{PyFloat} `{FR : Frames} (df : ref)
    (int_fields str_fields : option (list string)) (h : heap) :
  clean_dataframe df int_fields str_fields h
  = apply_casts df (default [] int_fields) (default [] str_fields) [] h
  /\ clean_dataframe df None None h = (h, Ok df)
  /\ forall h' r,
      clean_dataframe df int_fields str_fields h = (h', Ok r) ->
      r = df
      /\ ((forall c, In c (default [] int_fields) ->
                     ~ In c (default [] str_fields)) ->
          check_dtypes (h' !!! df) (default [] int_fields)
            (default [] str_fields) [] = Ok tt).
Proof.
  pose proof (clean_dataframe_apply_casts df int_fields str_fields h) as Heq.
  split; [exact Heq|]. split; [done|].
  intros h' r Hclean. rewrite Heq in Hclean. split.
  - by destruct (apply_casts_labels _ _ _ _ _ _ _ Hclean) as (-> & _).
  - intros Hdis. eapply apply_casts_check_ok; [|exact Hclean].
    split; [|by intros c _ []]. intros c Hc. split; [by apply Hdis|by intros []].
Qed.

(** ** What the manifest records *)

Section Manifest_contents.
Context `{PyFloat} `{FR : Frames}.

Lemma filter_isna_CStr (l : list string) :
  List.filter isna (map cell_scalar (map CStr l)) = [].
Proof. induction l as [|x l IH]; [done|]. simpl. exact IH. Qed.

Lemma to_str_null_count s :
  exists s', to_str s = Ok s' /\ series_len s' = series_len s
             /\ null_count s' = 0.
Proof.
  rewrite to_str_values. eexists. split; [done|]. split.
  - unfold series_len. simpl. by rewrite !length_map.
  - unfold null_count. simpl. by rewrite filter_isna_CStr.
Qed.

End Manifest_contents.

Lemma mapR_Ok_In {A B} (f : A -> result B) l l' x :
  mapR f l = Ok l' -> In x l -> exists y, f x = Ok y.
Proof.
  revert l'. induction l as [|a l IH]; intros l' Hm Hin; [done|].
  simpl in Hm. destruct (f a) as [y|e] eqn:Hfa; [|done].
  destruct (mapR f l) as [ys|e]; [|done].
  destruct Hin as [<-|Hin]; [eauto|]. by eapply IH.
Qed.

(** A dict made of items with distinct keys is the list of these items. *)
Lemma dict_set_new {V} (d : list (string * V)) k v :
  ~ In k (map fst d) -> dict_set d k v = d ++ [(k, v)].
Proof.
  induction d as [|[k0 v0] d IH]; [done|]. simpl. intros Hn.
  destruct (String.eqb_spec k0 k) as [->|Hne]; [exfalso; apply Hn; by left|].
  rewrite IH; [done|]. intros Hin. apply Hn. by right.
Qed.

Lemma dict_of_distinct {V} (items : list (string * V)) :
  NoDup (map fst items) -> dict_of items = items.
Proof.
  unfold dict_of.
  assert (Hgen : forall acc : list (string * V),
             NoDup (map fst (acc ++ items)) ->
             fold_left (fun d '(k, v) => dict_set d k v) items acc
             = acc ++ items).
  { induction items as [|[k v] items IH]; intros acc Hnd; simpl.
    - by rewrite app_nil_r.
    - rewrite dict_set_new.
      + rewrite IH; rewrite <- app_assoc; [done|exact Hnd].
      + rewrite map_app in Hnd. simpl in Hnd.
        apply NoDup_app in Hnd as (_ & Hdis & _).
        intros Hin. apply list_elem_of_In in Hin.
        apply (Hdis _ Hin). by left. }
  intros Hnd. exact (Hgen [] Hnd).
Qed.

(** A list that is not duplicate-free has an element that comes twice. *)
Lemma repeated_label (l : list string) :
  ~ NoDup l -> exists x, (2 <= count_occ string_dec l x)%nat.
Proof.
  induction l as [|a l IH]; intros Hnd; [exfalso; apply Hnd; constructor|].
  destruct (in_dec string_dec a l) as [Hin|Hnin].
  - exists a. simpl. destruct (string_dec a a); [|done].
    apply (count_occ_In string_dec) in Hin. lia.
  - destruct IH as (x & Hx).
    { intros Hl. apply Hnd. apply NoDup_cons. split; [|done].
      by rewrite list_elem_of_In. }
    exists x. simpl. destruct (string_dec a x); lia.
Qed.

(** A comprehension over [df.columns] that looks each label up: with
    distinct labels it has one entry for each column. *)
Lemma per_column_distinct {B} (g : string -> Series -> B)
    (on_frame : string -> list Series -> result B) df :
  NoDup (columns df) ->
  mapR (fun c => rbind (getitem df c) (fun it =>
                 match it with
                 | Column s => Ok (g c s)
                 | Frame cols => on_frame c cols
                 end)) (columns df)
  = Ok (map (fun '(c, s) => g c s) df).
Proof.
  intros Hnd. unfold columns. apply mapR_map_ext. intros [c s] Hin. simpl.
  by rewrite (getitem_In df c s Hnd Hin).
Qed.

(** It raises only at a label that several columns carry. *)
Lemma per_column_raise {B} (g : string -> Series -> B)
    (on_frame : string -> list Series -> result B) (e : exn) df :
  mapR (fun c => rbind (getitem df c) (fun it =>
                 match it with
                 | Column s => Ok (g c s)
                 | Frame cols => on_frame c cols
                 end)) (columns df)
  = Raise e ->
  exists col, (2 <= occurrences df col)%nat
              /\ on_frame col (labelled df col) = Raise e.
Proof.
  intros Hm. apply mapR_Raise in Hm as (c & Hin & Hc).
  apply occurrences_In in Hin. rewrite <- labelled_length in Hin.
  unfold getitem in Hc.
  destruct (labelled df c) as [|s [|s' l]] eqn:Hl; simpl in *; [lia|done|].
  exists c. rewrite <- labelled_length, Hl. split; [simpl; lia|done].
Qed.

(** It raises when a label that several columns carry is one at which
    it stops. *)
Lemma per_column_repeated {B} (g : string -> Series -> B)
    (on_frame : string -> list Series -> result B) (e0 : exn) df col :
  (2 <= occurrences df col)%nat ->
  on_frame col (labelled df col) = Raise e0 ->
  (forall c fr e, on_frame c fr = Raise e -> e = e0) ->
  mapR (fun c => rbind (getitem df c) (fun it =>
                 match it with
                 | Column s => Ok (g c s)
                 | Frame cols => on_frame c cols
                 end)) (columns df)
  = Raise e0.
Proof.
  intros Hocc Hcol Hall.
  match goal with |- ?m = _ => destruct m as [l|e] eqn:Hm end.
  - assert (Hin : In col (columns df)) by (apply occurrences_In; lia).
    destruct (mapR_Ok_In _ _ _ _ Hm Hin) as [y Hy].
    unfold getitem in Hy. rewrite <- labelled_length in Hocc.
    destruct (labelled df col) as [|s [|s' l0]]; simpl in *; try lia.
    congruence.
  - apply per_column_raise in Hm as (c & _ & Hc). by rewrite (Hall _ _ _ Hc).
Qed.

Section Column_dicts.
Context `{FR : Frames}.

Lemma _pandas_dtypes_distinct df :
  NoDup (columns df) ->
  _pandas_dtypes df = Ok (map (fun '(c, s) => (c, dtype_str (dtype_of s))) df).
Proof.
  intros Hnd. unfold _pandas_dtypes.
  rewrite (per_column_distinct (fun c s => (c, dtype_str (dtype_of s))) _ df Hnd).
  simpl. rewrite dict_of_distinct; [done|].
  rewrite map_map.
  replace (map (fun x => fst (let '(c, s) := x in (c, dtype_str (dtype_of s)))) df)
    with (columns df); [done|].
  unfold columns. apply map_ext. by intros [c s].
Qed.

Lemma _pandas_dtypes_raise df e :
  _pandas_dtypes df = Raise e ->
  e = no_dtype /\ exists col, (2 <= occurrences df col)%nat /\ col <> "dtype".
Proof.
  unfold _pandas_dtypes.
  match goal with
  | |- rbind ?m _ = _ -> _ => destruct m as [l|e'] eqn:Hm; [done|]
  end.
  simpl. intros [= <-].
  apply (per_column_raise (fun c s => (c, dtype_str (dtype_of s)))) in Hm
    as (col & Hocc & Hcol).
  destruct (frame_getattr_cases col "dtype") as [[-> Hg]|[Hne Hg]];
    rewrite Hg in Hcol; simpl in Hcol; [done|].
  injection Hcol as <-. split; [done|]. by exists col.
Qed.

Lemma _pandas_dtypes_repeated df col :
  (2 <= occurrences df col)%nat -> col <> "dtype" ->
  _pandas_dtypes df = Raise no_dtype.
Proof.
  intros Hocc Hne. unfold _pandas_dtypes.
  rewrite (per_column_repeated (fun c s => (c, dtype_str (dtype_of s))) _
             no_dtype df col Hocc); [done| |].
  - by rewrite (frame_getattr_other _ _ Hne).
  - intros c fr e.
    destruct (frame_getattr_cases c "dtype") as [[-> ->]|[_ ->]]; simpl;
      [done|]. by intros [= <-].
Qed.

End Column_dicts.

Lemma _null_counts_distinct df :
  NoDup (columns df) ->
  _null_counts df = Ok (map (fun '(c, s) => (c, null_count s)) df).
Proof.
  intros Hnd. unfold _null_counts.
  rewrite (per_column_distinct (fun c s => (c, null_count s)) _ df Hnd).
  simpl. rewrite dict_of_distinct; [done|].
  rewrite map_map.
  replace (map (fun x => fst (let '(c, s) := x in (c, null_count s))) df)
    with (columns df); [done|].
  unfold columns. apply map_ext. by intros [c s].
Qed.

Lemma _null_counts_repeated df col :
  (2 <= occurrences df col)%nat -> _null_counts df = Raise int_of_series.
Proof.
  intros Hocc. unfold _null_counts.
  rewrite (per_column_repeated (fun c s => (c, null_count s)) _
             int_of_series df col Hocc); [done|done|].
  by intros c fr e [= <-].
Qed.

Lemma _null_counts_raise df e :
  _null_counts df = Raise e ->
  e = int_of_series /\ exists col, (2 <= occurrences df col)%nat.
Proof.
  intros He. destruct (decide (NoDup (columns df))) as [Hnd|Hnd].
  - by rewrite (_null_counts_distinct df Hnd) in He.
  - destruct (repeated_label _ Hnd) as (col & Hocc).
    rewrite (_null_counts_repeated df col Hocc) in He. injection He as <-.
    split; [done|]. by exists col.
Qed.

(** X5.  The string cast leaves no missing value behind: it returns a
    column of as many values, all of them texts (a missing value has
    become the text of its marker), so that the null count which
    [_null_counts] records for such a column is 0: whenever
    [_null_counts] returns for a dataset that starts with such a
    column, its first entry is that column's label with 0, and it does
    return, with the counts of the other columns after that entry, when
    the labels of the dataset are distinct. *)
Theorem to_str_leaves_no_nulls `{PyFloat} (series : Series) :
  exists s', to_str series = Ok s'
    /\ series_len s' = series_len series
    /\ null_count s' = 0
    /\ (forall c df counts,
         _null_counts ((c, s') :: df) = Ok counts ->
         exists rest, counts = (c, 0) :: rest)
    /\ (forall c df,
         NoDup (c :: columns df) ->
         exists rest,
           _null_counts df = Ok rest
           /\ _null_counts ((c, s') :: df) = Ok ((c, 0) :: rest)).
Proof.
  destruct (to_str_null_count series) as (s' & Hs & Hl & Hn).
  exists s'. split; [done|]. split; [done|]. split; [done|].
  assert (Hdistinct : forall c df,
             NoDup (c :: columns df) ->
             exists rest,
               _null_counts df = Ok rest
               /\ _null_counts ((c, s') :: df) = Ok ((c, 0) :: rest)).
  { intros c df Hnd.
    pose proof (_null_counts_distinct ((c, s') :: df) Hnd) as Hall.
    apply NoDup_cons in Hnd as [_ Hnd].
    eexists. split; [exact (_null_counts_distinct df Hnd)|].
    rewrite Hall. simpl. by rewrite Hn. }
  split; [|exact Hdistinct].
  intros c df counts Hc.
  destruct (decide (NoDup (columns ((c, s') :: df)))) as [Hnd|Hnd].
  - destruct (Hdistinct c df Hnd) as (rest & _ & Heq).
    rewrite Heq in Hc. injection Hc as <-. by exists rest.
  - destruct (repeated_label _ Hnd) as (col & Hocc).
    by rewrite (_null_counts_repeated _ col Hocc) in Hc.
Qed.

Lemma str_length_app (a b : string) :
  String.length (a +:+ b) = (String.length a + String.length b)%nat.
Proof.
  induction a as [|x a IH]; [done|]. rewrite str_app_cons. simpl. by rewrite IH.
Qed.

Lemma manifest_path_differs (path : string) : path +:+ ".manifest.json" <> path.
Proof.
  intros Heq. apply (f_equal String.length) in Heq.
  rewrite str_length_app in Heq. simpl in Heq. lia.
Qed.

Section Manifest_written.
Context `{ManifestIO} `{FR : Frames}.
Variable E : env.

(** What [write_metadata_from_df] builds for a file that exists and a
    dataset of distinct labels. *)
Lemma manifest_from_df_distinct (fs : filesystem) df path data meta
    (include_dtypes include_nulls include_preview : bool) extra :
  fs !! path = Some data ->
  NoDup (columns df) ->
  manifest_from_df E fs df path meta include_dtypes include_nulls
    include_preview extra
  = Ok {| m_core :=
            {| arquivo := basename path; diretorio := dirname path;
               tamanho_bytes := getsize data;
               hash_md5 := md5_one_pass data;
               gerado_em := now_iso E |};
          m_dataset := meta;
          m_schema_stats :=
            {| colunas := columns df;
               dtypes :=
                 if include_dtypes
                 then Some (map (fun '(c, s) => (c, dtype_str (dtype_of s))) df)
                 else None;
               linhas := Some (Z.of_nat (df_len df));
               nulos :=
                 if include_nulls
                 then Some (map (fun '(c, s) => (c, null_count s)) df)
                 else None;
               preview :=
                 if include_preview then Some (_head_preview df 3) else None |};
          m_extra := truthy_extra extra |}.
Proof.
  intros Hf Hnd. unfold manifest_from_df.
  rewrite (make_core_ok E _ _ _ Hf), (_pandas_dtypes_distinct df Hnd),
    (_null_counts_distinct df Hnd).
  by destruct include_dtypes, include_nulls.
Qed.

(** With a label that two columns carry, the null counts cannot be
    built, nor can the dtypes unless that label is "dtype". *)
Lemma manifest_from_df_repeated (fs : filesystem) df path data meta
    (include_dtypes include_nulls include_preview : bool) extra col :
  fs !! path = Some data ->
  (2 <= occurrences df col)%nat ->
  (include_dtypes = true -> col <> "dtype" ->
   manifest_from_df E fs df path meta include_dtypes include_nulls
     include_preview extra = Raise no_dtype)
  /\ (include_dtypes = false -> include_nulls = true ->
      manifest_from_df E fs df path meta include_dtypes include_nulls
        include_preview extra = Raise int_of_series)
  /\ (include_nulls = true ->
      exists e,
        manifest_from_df E fs df path meta include_dtypes include_nulls
          include_preview extra = Raise e).
Proof.
  intros Hf Hocc. unfold manifest_from_df.
  rewrite (make_core_ok E _ _ _ Hf), (_null_counts_repeated df col Hocc).
  split; [|split].
  - intros -> Hne. by rewrite (_pandas_dtypes_repeated df col Hocc Hne).
  - by intros -> ->.
  - intros ->. simpl. destruct include_dtypes; [|by eexists].
    destruct (_pandas_dtypes df); by eexists.
Qed.

(** Whatever the labels are: the manifest that is built, or the error
    of the label that two columns carry. *)
Lemma manifest_from_df_cases (fs : filesystem) df path data meta
    (include_dtypes include_nulls include_preview : bool) extra :
  fs !! path = Some data ->
  match manifest_from_df E fs df path meta include_dtypes include_nulls
          include_preview extra with
  | Ok m =>
      m_core m = {| arquivo := basename path; diretorio := dirname path;
                    tamanho_bytes := getsize data;
                    hash_md5 := md5_one_pass data;
                    gerado_em := now_iso E |}
      /\ m_dataset m = meta
      /\ colunas (m_schema_stats m) = columns df
      /\ linhas (m_schema_stats m) = Some (Z.of_nat (df_len df))
      /\ preview (m_schema_stats m)
         = (if include_preview then Some (_head_preview df 3) else None)
      /\ (include_dtypes = false -> dtypes (m_schema_stats m) = None)
      /\ (include_nulls = false -> nulos (m_schema_stats m) = None)
  | Raise e =>
      (e = no_dtype /\ include_dtypes = true
       \/ e = int_of_series /\ include_nulls = true)
      /\ exists col, (2 <= occurrences df col)%nat
  end.
Proof.
  intros Hf. unfold manifest_from_df. rewrite (make_core_ok E _ _ _ Hf).
  simpl.
  destruct include_dtypes.
  - destruct (_pandas_dtypes df) as [d|e] eqn:Hd; simpl.
    + destruct include_nulls.
      * destruct (_null_counts df) as [c|e] eqn:Hc; simpl.
        { repeat split; done. }
        apply _null_counts_raise in Hc as [-> Hcol]. split; [by right|done].
      * simpl. repeat split; done.
    + apply _pandas_dtypes_raise in Hd as [-> (col & Hcol & _)].
      split; [by left|by exists col].
  - simpl. destruct include_nulls.
    + destruct (_null_counts df) as [c|e] eqn:Hc; simpl.
      { repeat split; done. }
      apply _null_counts_raise in Hc as [-> Hcol]. split; [by right|done].
    + simpl. repeat split; done.
Qed.

(** Past its guards, [write_metadata_from_df] builds the manifest and
    hands it to the writer. *)
Lemma write_metadata_from_df_exists (fs : filesystem) df path data meta
    (include_dtypes include_nulls include_preview : bool) extra :
  fs !! path = Some data ->
  pd_available E = true ->
  write_metadata_from_df E fs df path meta include_dtypes include_nulls
    include_preview extra
  = match manifest_from_df E fs df path meta include_dtypes include_nulls
            include_preview extra with
    | Ok m => dump_manifest fs path m
    | Raise e => (fs, Raise e)
    end.
Proof.
  intros Hf Hpd. unfold write_metadata_from_df.
  rewrite Hpd, (py_exists_true _ _ _ Hf). simpl.
  by destruct (manifest_from_df E fs df path meta include_dtypes
                 include_nulls include_preview extra).
Qed.

(** Writing the manifest leaves the data file, and every file but the
    manifest, as it was. *)
Lemma dump_manifest_keeps (fs fs' : filesystem) path data m r :
  fs !! path = Some data ->
  dump_manifest fs path m = (fs', r) ->
  fs' !! path = Some data
  /\ (forall p, p <> path +:+ ".manifest.json" -> fs' !! p = fs !! p)
  /\ forall out, r = Ok out ->
       out = path +:+ ".manifest.json"
       /\ exists written,
           json_dump m = (written, None) /\ fs' = <[out := written]> fs.
Proof.
  intros Hf Hd. destruct (dump_manifest_spec fs fs' path m r Hd) as [Hoff Hok].
  split; [|by split].
  rewrite Hoff; [done|]. intros Heq. by apply (manifest_path_differs path).
Qed.

Lemma write_metadata_from_df_keeps (fs fs' : filesystem) df path data meta
    (include_dtypes include_nulls include_preview : bool) extra r :
  fs !! path = Some data ->
  pd_available E = true ->
  write_metadata_from_df E fs df path meta include_dtypes include_nulls
    include_preview extra = (fs', r) ->
  fs' !! path = Some data
  /\ (forall p, p <> path +:+ ".manifest.json" -> fs' !! p = fs !! p)
  /\ forall out, r = Ok out ->
       out = path +:+ ".manifest.json"
       /\ exists m written,
           manifest_from_df E fs df path meta include_dtypes include_nulls
             include_preview extra = Ok m
           /\ json_dump m = (written, None)
           /\ fs' = <[out := written]> fs.
Proof.
  intros Hf Hpd Hw.
  rewrite (write_metadata_from_df_exists _ _ _ _ _ _ _ _ _ Hf Hpd) in Hw.
  destruct (manifest_from_df E fs df path meta include_dtypes include_nulls
              include_preview extra) as [m1|e].
  - destruct (dump_manifest_keeps fs fs' path data m1 r Hf Hw)
      as (Hd & Hoff & Hok).
    split; [exact Hd|]. split; [exact Hoff|].
    intros out Hout. destruct (Hok out Hout) as (-> & written & Hj & Hfs).
    split; [done|]. by exists m1, written.
  - injection Hw as <- <-. split; [exact Hf|]. by split.
Qed.

End Manifest_written.

(** X6.  For a file that exists (and pandas importable), both entry
    points build their manifest and hand it to the writer, which writes
    [path + ".manifest.json"] and nothing else: whatever the outcome,
    the data file keeps its content and so does every file but the
    manifest, and when the call returns it returns the path of the
    manifest, which then holds the serialisation of the manifest that
    was built.  [write_manifest_from_file] always builds its manifest.
    [write_metadata_from_df] builds its own when the labels of the
    dataset are distinct: it has the same core, the column labels in
    order, the number of rows of the dataset, the size and the MD5 of
    the file, and the dtypes, the null counts and the preview exactly
    when they were asked for.  With a label that two columns carry it
    raises before anything is written when the null counts are asked
    for, and when the dtypes are, unless that label is "dtype" (the
    dtype of such a label is then read from the DataFrame of its
    columns). *)
Theorem manifest_written_beside_file `{ManifestIO} `{FR : Frames}
    (E : env) (fs : filesystem)
    (df : DataFrame) (path : string) (data : list byte) (meta : DatasetInfo)
    (include_dtypes include_nulls include_preview header infer line_count : bool)
    (extra : option (list (string * scalar))) :
  fs !! path = Some data ->
  pd_available E = true ->
  exists m2,
    manifest_from_file E fs path meta header infer line_count extra = Ok m2
    /\ write_manifest_from_file E fs path meta header infer line_count extra
       = dump_manifest fs path m2
    /\ write_metadata_from_df E fs df path meta include_dtypes include_nulls
         include_preview extra
       = match manifest_from_df E fs df path meta include_dtypes
                 include_nulls include_preview extra with
         | Ok m1 => dump_manifest fs path m1
         | Raise e => (fs, Raise e)
         end
    /\ tamanho_bytes (m_core m2) = Z.of_nat (length data)
    /\ hash_md5 (m_core m2) = md5_one_pass data
    /\ m_dataset m2 = meta
    /\ (NoDup (columns df) ->
        exists m1,
          manifest_from_df E fs df path meta include_dtypes include_nulls
            include_preview extra = Ok m1
          /\ m_core m1 = m_core m2
          /\ m_dataset m1 = meta
          /\ colunas (m_schema_stats m1) = columns df
          /\ linhas (m_schema_stats m1) = Some (Z.of_nat (df_len df))
          /\ dtypes (m_schema_stats m1)
             = (if include_dtypes
                then Some (map (fun '(c, s) => (c, dtype_str (dtype_of s))) df)
                else None)
          /\ nulos (m_schema_stats m1)
             = (if include_nulls
                then Some (map (fun '(c, s) => (c, null_count s)) df)
                else None)
          /\ preview (m_schema_stats m1)
             = (if include_preview then Some (_head_preview df 3) else None))
    /\ (forall col, (2 <= occurrences df col)%nat ->
        (include_dtypes = true -> col <> "dtype" ->
         write_metadata_from_df E fs df path meta include_dtypes include_nulls
           include_preview extra = (fs, Raise no_dtype))
        /\ (include_dtypes = false -> include_nulls = true ->
            write_metadata_from_df E fs df path meta include_dtypes
              include_nulls include_preview extra
            = (fs, Raise int_of_series))
        /\ (include_nulls = true ->
            exists e,
              write_metadata_from_df E fs df path meta include_dtypes
                include_nulls include_preview extra = (fs, Raise e)))
    /\ (forall fs' r,
        write_manifest_from_file E fs path meta header infer line_count extra
        = (fs', r) ->
        fs' !! path = Some data
        /\ (forall p, p <> path +:+ ".manifest.json" -> fs' !! p = fs !! p)
        /\ forall out, r = Ok out ->
             out = path +:+ ".manifest.json"
             /\ exists written,
                 json_dump m2 = (written, None)
                 /\ fs' = <[out := written]> fs)
    /\ (forall fs' r,
        write_metadata_from_df E fs df path meta include_dtypes include_nulls
          include_preview extra = (fs', r) ->
        fs' !! path = Some data
        /\ (forall p, p <> path +:+ ".manifest.json" -> fs' !! p = fs !! p)
        /\ forall out, r = Ok out ->
             out = path +:+ ".manifest.json"
             /\ exists m1 written,
                 manifest_from_df E fs df path meta include_dtypes
                   include_nulls include_preview extra = Ok m1
                 /\ json_dump m1 = (written, None)
                 /\ fs' = <[out := written]> fs).
Proof.
  intros Hf Hpd.
  destruct (write_manifest_from_file_ok E fs path data meta header infer
              line_count extra Hf) as (m2 & Hm2 & Hw2 & Hh2 & _).
  pose proof (write_metadata_from_df_exists E fs df path data meta
                include_dtypes include_nulls include_preview extra Hf Hpd)
    as Hw1.
  assert (Hcore : m_core m2
                  = {| arquivo := basename path; diretorio := dirname path;
                       tamanho_bytes := getsize data;
                       hash_md5 := md5_one_pass data;
                       gerado_em := now_iso E |}
                  /\ m_dataset m2 = meta).
  { unfold manifest_from_file in Hm2. rewrite (make_core_ok E _ _ _ Hf) in Hm2.
    simpl in Hm2.
    destruct (if line_count
              then rbind (_count_file_lines fs path)
                     (fun n => Ok (Some (data_rows header n)))
              else Ok None) as [rows|e]; [|done].
    simpl in Hm2. by injection Hm2 as <-. }
  destruct Hcore as [Hcore Hmeta].
  exists m2. split; [exact Hm2|]. split; [exact Hw2|]. split; [exact Hw1|].
  split; [by rewrite Hcore|]. split; [exact Hh2|]. split; [exact Hmeta|].
  split.
  { intros Hnd. eexists. split.
    - exact (manifest_from_df_distinct E fs df path data meta include_dtypes
               include_nulls include_preview extra Hf Hnd).
    - simpl. rewrite Hcore. repeat split; reflexivity. }
  split.
  { intros col Hocc.
    destruct (manifest_from_df_repeated E fs df path data meta include_dtypes
                include_nulls include_preview extra col Hf Hocc)
      as (Hd & Hn & Hany).
    split; [|split].
    - intros Hi Hne. by rewrite Hw1, (Hd Hi Hne).
    - intros Hi Hi'. by rewrite Hw1, (Hn Hi Hi').
    - intros Hi. destruct (Hany Hi) as (e & He). exists e.
      by rewrite Hw1, He. }
  split.
  { intros fs' r Hw. rewrite Hw2 in Hw.
    exact (dump_manifest_keeps fs fs' path data m2 r Hf Hw). }
  intros fs' r Hw.
  exact (write_metadata_from_df_keeps E fs fs' df path data meta include_dtypes
           include_nulls include_preview extra r Hf Hpd Hw).
Qed.

Lemma manifest_written_beside_file_witness :
  sample_fs !! sample_path = Some sample_file
  /\ pd_available sample_env = true
  /\ fst (@write_metadata_from_df sample_io sample_frames
            sample_env sample_fs sample_df
            sample_path no_meta true true false None) !! sample_path
     = Some sample_file.
Proof.
  assert (Hf : sample_fs !! sample_path = Some sample_file)
    by (vm_compute; reflexivity).
  split; [exact Hf|]. split; [reflexivity|].
  destruct (@manifest_written_beside_file sample_io sample_frames sample_env sample_fs
              sample_df sample_path sample_file no_meta true true false
              true true true None Hf eq_refl)
    as (m2 & _ & _ & _ & _ & _ & _ & _ & _ & _ & Hdf).
  destruct (@write_metadata_from_df sample_io sample_frames
              sample_env sample_fs sample_df
              sample_path no_meta true true false None) as [fs' r] eqn:Hw.
  by destruct (Hdf fs' r eq_refl) as [Hd _].
Defined.

(** *** Dicts keyed by label *)

Lemma dict_set_keys {V} (d : list (string * V)) k v :
  map fst (dict_set d k v)
  = if in_dec string_dec k (map fst d) then map fst d else map fst d ++ [k].
Proof.
  induction d as [|[k0 v0] d IH]; [done|]. simpl.
  destruct (String.eqb_spec k0 k) as [->|Hne]; simpl.
  - destruct (string_dec k k); [done|done].
  - rewrite IH. destruct (string_dec k0 k); [done|].
    by destruct (in_dec string_dec k (map fst d)).
Qed.

Lemma dict_set_In {V} (d : list (string * V)) k v k' v' :
  NoDup (map fst d) ->
  In (k', v') (dict_set d k v)
  <-> (k' = k /\ v' = v) \/ (k' <> k /\ In (k', v') d).
Proof.
  induction d as [|[k0 v0] d IH]; simpl; intros Hnd.
  { split; [intros [[= <- <-]|[]]; by left|].
    intros [[-> ->]|[_ []]]. by left. }
  apply NoDup_cons in Hnd as [Hk0 Hnd]. rewrite list_elem_of_In in Hk0.
  destruct (String.eqb_spec k0 k) as [->|Hne]; simpl.
  - split.
    + intros [[= <- <-]|Hin]; [by left|]. right. split; [|by right].
      intros ->. apply Hk0. change k with (fst (k, v')). by apply in_map.
    + intros [[-> ->]|[Hne [[= <- <-]|Hin]]]; [by left|done|by right].
  - rewrite (IH Hnd). split.
    + intros [[= <- <-]|[[-> ->]|[Hk Hin]]];
        [right; split; [done|by left]|by left|right; split; [done|by right]].
    + intros [[-> ->]|[Hk [[= <- <-]|Hin]]];
        [right; by left|by left|right; right; by split].
Qed.

Lemma dict_of_snoc {V} (items : list (string * V)) k v :
  dict_of (items ++ [(k, v)]) = dict_set (dict_of items) k v.
Proof. unfold dict_of. by rewrite fold_left_app. Qed.

(** A dict has each key once, the keys of its items, and under a key
    the value of the last item with that key. *)
Lemma dict_of_spec {V} (items : list (string * V)) :
  NoDup (map fst (dict_of items))
  /\ (forall k, In k (map fst (dict_of items)) <-> In k (map fst items))
  /\ forall k v,
       In (k, v) (dict_of items)
       <-> exists pre post,
             items = pre ++ (k, v) :: post /\ ~ In k (map fst post).
Proof.
  induction items as [|[k0 v0] items (IHnd & IHkeys & IHlast)] using rev_ind.
  { split; [constructor|]. split; [done|]. intros k v. split; [done|].
    intros (pre & post & Heq & _). by destruct pre. }
  rewrite dict_of_snoc.
  assert (Hkeys : forall k, In k (map fst (dict_set (dict_of items) k0 v0))
                            <-> In k (map fst (items ++ [(k0, v0)]))).
  { intros k. rewrite dict_set_keys, map_app, in_app_iff. simpl.
    destruct (in_dec string_dec k0 (map fst (dict_of items))) as [Hk|Hk].
    - rewrite IHkeys. split; [by left|].
      intros [?|[<-|[]]]; [done|]. by apply IHkeys.
    - rewrite in_app_iff, IHkeys. simpl. tauto. }
  split; [|split; [exact Hkeys|]].
  - rewrite dict_set_keys.
    destruct (in_dec string_dec k0 (map fst (dict_of items))) as [Hk|Hk];
      [done|].
    apply NoDup_app. split; [done|].
    split; [|apply NoDup_singleton].
    intros k Hin [->|[]]%list_elem_of_In. apply Hk. by apply list_elem_of_In.
  - intros k v. rewrite (dict_set_In _ _ _ _ _ IHnd), IHlast. split.
    + intros [[-> ->]|(Hne & pre & post & -> & Hpost)].
      * exists items, []. split; [done|]. by intros [].
      * exists pre, (post ++ [(k0, v0)]). rewrite <- app_assoc. split; [done|].
        rewrite map_app, in_app_iff. simpl. intros [?|[?|[]]]; [done|].
        by apply Hne.
    + intros (pre & post & Heq & Hpost).
      destruct post as [|p post _] using rev_ind.
      * apply app_inj_tail in Heq as [_ [= -> ->]]. by left.
      * rewrite app_comm_cons, app_assoc in Heq.
        apply app_inj_tail in Heq as [-> <-]. right.
        rewrite map_app, in_app_iff in Hpost. simpl in Hpost. split.
        -- intros ->. apply Hpost. right. by left.
        -- exists pre, post. split; [done|]. tauto.
Qed.

(** X7.  [_head_preview] has the first [n] rows, or all of them when
    the dataset has fewer, none for an empty dataset.  A row is a dict
    keyed by label: it has each label of the dataset once, and under a
    label the value, in that row, of the last column that carries the
    label; so with distinct labels a row has one entry for each column,
    in the order of the columns, and with a repeated label it has
    fewer. *)
Theorem head_preview_rows (df : DataFrame) (n : nat) :
  length (_head_preview df n) = Nat.min n (df_len df)
  /\ (df_len df = O -> _head_preview df n = [])
  /\ (forall i row,
        nth_error (_head_preview df n) i = Some row ->
        (i < n)%nat /\ (i < df_len df)%nat
        /\ NoDup (map fst row)
        /\ (forall c, In c (map fst row) <-> In c (columns df))
        /\ (forall c v,
              In (c, v) row
              <-> exists pre s post,
                    df = pre ++ (c, s) :: post /\ ~ In c (columns post)
                    /\ v = nth i (values s) VNone))
  /\ (NoDup (columns df) ->
      _head_preview df n
      = map (fun i => map (fun '(c, s) => (c, nth i (values s) VNone)) df)
          (seq 0 (Nat.min n (df_len df)))).
Proof.
  unfold _head_preview. split; [by rewrite length_map, length_seq|]. split.
  { intros ->. by rewrite Nat.min_0_r. }
  split.
  { intros i row Hrow. rewrite nth_error_map in Hrow.
    destruct (nth_error (seq 0 (Nat.min n (df_len df))) i) as [j|] eqn:Hj;
      [|done].
    pose proof (nth_error_Some (seq 0 (Nat.min n (df_len df))) i) as Hlen.
    rewrite Hj, length_seq in Hlen.
    assert (Hi : (i < Nat.min n (df_len df))%nat) by (by apply Hlen).
    rewrite (nth_error_nth' _ O) in Hj by (by rewrite length_seq).
    rewrite seq_nth in Hj by done. injection Hj as <-.
    simpl in Hrow. injection Hrow as <-.
    set (items := map (fun '(c, s) => (c, nth i (values s) VNone)) df).
    destruct (dict_of_spec items) as (Hnd & Hkeys & Hlast).
    assert (Hfst : map fst items = columns df).
    { unfold items, columns. rewrite map_map. apply map_ext. by intros [c s]. }
    split; [lia|]. split; [lia|]. split; [exact Hnd|].
    split; [intros c; by rewrite Hkeys, Hfst|].
    intros c v. rewrite Hlast. split.
    - intros (pre & post & Heq & Hpost).
      unfold items in Heq.
      apply map_eq_app in Heq as (pre' & rest & -> & <- & Hrest).
      destruct rest as [|[c0 s0] post']; [done|]. simpl in Hrest.
      injection Hrest as -> <- <-.
      exists pre', s0, post'. split; [done|]. split; [|done].
      intros Hin. apply Hpost. rewrite map_map.
      unfold columns in Hin. apply in_map_iff in Hin as ([c1 s1] & <- & Hin).
      apply in_map_iff. by exists (c1, s1).
    - intros (pre & s & post & -> & Hpost & ->).
      exists (map (fun '(c, s) => (c, nth i (values s) VNone)) pre),
             (map (fun '(c, s) => (c, nth i (values s) VNone)) post).
      split; [unfold items; by rewrite map_app|].
      intros Hin. apply Hpost. rewrite map_map in Hin.
      apply in_map_iff in Hin as ([c1 s1] & <- & Hin).
      unfold columns. apply in_map_iff. by exists (c1, s1). }
  intros Hnd. apply map_ext. intros i. apply dict_of_distinct.
  rewrite map_map.
  replace (map (fun x => fst (let '(c, s) := x in (c, nth i (values s) VNone))) df)
    with (columns df); [done|].
  unfold columns. apply map_ext. by intros [c s].
Qed.

Example head_preview_repeated_label :
  _head_preview [("a", SInt64 [1; 2]); ("b", SInt64 [3; 4]);
                 ("a", SInt64 [5; 6])] 3
  = [[("a", VInt 5); ("b", VInt 3)]; [("a", VInt 6); ("b", VInt 4)]].
Proof. vm_compute. reflexivity. Qed.

(** X8.  The dtypes and the null counts are dicts keyed by label, built
    from [df[c]] for each label.  With distinct labels they have one
    entry for each column, in the order of the columns: the text of its
    dtype, and the number of its missing values, which lies between 0
    and the number of its values.  [_null_counts] returns for no other
    dataset: with a label that several columns carry it raises the
    TypeError of [int] on a Series of several counts.  [_pandas_dtypes]
    then raises the AttributeError of the missing [.dtype], unless that
    label is "dtype"; when it returns, its keys are the labels of the
    dataset, each once. *)
Theorem column_statistics_shape `{FR : Frames} (df : DataFrame) :
  (NoDup (columns df) ->
   _pandas_dtypes df = Ok (map (fun '(c, s) => (c, dtype_str (dtype_of s))) df)
   /\ _null_counts df = Ok (map (fun '(c, s) => (c, null_count s)) df))
  /\ (forall counts,
        _null_counts df = Ok counts ->
        NoDup (columns df)
        /\ Forall2 (fun '(c, s) '(c', k) =>
                      c' = c /\ k = null_count s
                      /\ 0 <= k <= Z.of_nat (series_len s))
             df counts)
  /\ (forall col, (2 <= occurrences df col)%nat ->
        _null_counts df = Raise int_of_series
        /\ (col <> "dtype" -> _pandas_dtypes df = Raise no_dtype))
  /\ (forall e, _pandas_dtypes df = Raise e ->
        e = no_dtype
        /\ exists col, (2 <= occurrences df col)%nat /\ col <> "dtype")
  /\ (forall d, _pandas_dtypes df = Ok d ->
        NoDup (map fst d) /\ forall c, In c (map fst d) <-> In c (columns df)).
Proof.
  split.
  { intros Hnd. split; [by apply _pandas_dtypes_distinct
                       |by apply _null_counts_distinct]. }
  split.
  { intros counts Hc.
    destruct (decide (NoDup (columns df))) as [Hnd|Hnd].
    - split; [done|]. rewrite (_null_counts_distinct df Hnd) in Hc.
      injection Hc as <-.
      apply Forall2_fmap_r, Forall_Forall2_diag, Forall_forall.
      intros [c s] _. split; [done|]. split; [done|].
      unfold null_count, series_len.
      pose proof (filter_length_le isna (values s)). lia.
    - destruct (repeated_label _ Hnd) as (col & Hocc).
      by rewrite (_null_counts_repeated df col Hocc) in Hc. }
  split.
  { intros col Hocc. split; [by apply (_null_counts_repeated df col)|].
    intros Hne. by apply (_pandas_dtypes_repeated df col). }
  split; [intros e He; by apply _pandas_dtypes_raise|].
  intros d. unfold _pandas_dtypes.
  match goal with
  | |- rbind ?m _ = _ -> _ => destruct m as [items|e] eqn:Hm; [|done]
  end.
  simpl. intros [= <-].
  destruct (dict_of_spec items) as (Hnd & Hkeys & _).
  split; [exact Hnd|]. intros c. rewrite Hkeys.
  apply mapR_Ok in Hm.
  assert (Hfst : map fst items = columns df).
  { clear Hnd Hkeys. revert Hm. generalize (columns df).
    intros l Hm. induction Hm as [|c0 y l items Hy _ IH]; [done|]. simpl.
    rewrite IH. f_equal.
    destruct (getitem df c0) as [[s|cols]|e]; simpl in Hy; try done.
    - by injection Hy as <-.
    - destruct (frame_getattr c0 "dtype"); simpl in Hy; [|done].
      by injection Hy as <-. }
  by rewrite Hfst.
Qed.

(** ** The parts of the path in the manifest *)

Lemma mem_char_cons c t x :
  mem_char (String c t) x = Ascii.eqb x c || mem_char t x.
Proof. reflexivity. Qed.

Lemma rsplit_slash_spec p :
  p = fst (rsplit_slash p) +:+ snd (rsplit_slash p)
  /\ mem_char (snd (rsplit_slash p)) "/" = false.
Proof.
  induction p as [|c r [IH1 IH2]]; [done|]. simpl.
  destruct (rsplit_slash r) as [h t]. simpl in *.
  destruct h as [|a h].
  - rewrite str_app_nil_l in IH1. subst r.
    destruct (Ascii.eqb_spec c "/"%char) as [->|Hne]; simpl.
    + split; [done|exact IH2].
    + split; [done|]. rewrite mem_char_cons, IH2.
      by rewrite (proj2 (Ascii.eqb_neq "/"%char c)).
  - simpl. split; [by rewrite str_app_cons, <- IH1|exact IH2].
Qed.

(** X9.  The two path fields of the manifest make up the path again:
    the path is [diretorio], then slashes only, then [arquivo]; and
    [arquivo] itself has no slash. *)
Theorem core_path_parts (E : env) (fs : filesystem)
    (path : string) (core : CoreInfo) :
  make_core E fs path = Ok core ->
  mem_char (arquivo core) "/" = false
  /\ exists slashes,
      path = diretorio core +:+ slashes +:+ arquivo core
      /\ all_chars (Ascii.eqb "/"%char) slashes = true.
Proof.
  unfold make_core. destruct (fs !! path) as [data|]; [|done].
  destruct (_md5 fs path default_chunk_size) as [hsh|e]; [|done].
  simpl. intros [= <-]. simpl. unfold basename, dirname.
  destruct (rsplit_slash_spec path) as [Hp Hno]. split; [exact Hno|].
  destruct (rstrip_with_split (Ascii.eqb "/"%char) (fst (rsplit_slash path)))
    as (r & Hr & Hall).
  destruct (rstrip_with (Ascii.eqb "/"%char) (fst (rsplit_slash path)))
    as [|a h'] eqn:Hstrip.
  - exists "". by rewrite str_app_nil_l.
  - exists r. split; [|done]. rewrite <- str_app_assoc, <- Hr. exact Hp.
Qed.

Lemma core_path_parts_witness :
  exists core,
    make_core sample_env sample_fs sample_path = Ok core
    /\ mem_char (arquivo core) "/" = false
    /\ exists slashes,
        sample_path = diretorio core +:+ slashes +:+ arquivo core
        /\ all_chars (Ascii.eqb "/"%char) slashes = true.
Proof.
  destruct (make_core sample_env sample_fs sample_path) as [core|e] eqn:Hc;
    [|vm_compute in Hc; discriminate].
  exists core. split; [done|].
  exact (core_path_parts sample_env sample_fs sample_path core Hc).
Defined.

Example core_path_parts_sample :
  rbind (make_core sample_env sample_fs sample_path)
    (fun core => Ok (diretorio core, arquivo core))
  = Ok ("bronze/users/anomesdia=20251020", "users.txt").
Proof. vm_compute. reflexivity. Qed.

(** ** The columns read from the header line *)

Lemma drop_str_0 s : drop_str 0 s = s.
Proof. by destruct s. Qed.

Lemma drop_str_length k s : (String.length (drop_str k s) <= String.length s)%nat.
Proof.
  revert s. induction k as [|k IH]; intros s; [by rewrite drop_str_0|].
  destruct s as [|c r]; simpl; [done|]. specialize (IH r). lia.
Qed.

Lemma prefix_split sep s :
  String.prefix sep s = true -> s = sep +:+ drop_str (String.length sep) s.
Proof.
  revert s. induction sep as [|a sep IH]; intros s.
  - intros _. by rewrite str_app_nil_l, drop_str_0.
  - destruct s as [|b s]; simpl; [done|].
    destruct (ascii_dec a b) as [->|]; [|done].
    intros Hp. rewrite str_app_cons. f_equal. by apply IH.
Qed.

Lemma split_from_skip sep k s :
  split_from sep k s = split_from sep 0 (drop_str k s).
Proof.
  revert s. induction k as [|k IH]; intros s; [by rewrite drop_str_0|].
  destruct s as [|c r]; [done|]. simpl drop_str. rewrite <- IH. reflexivity.
Qed.

Lemma join_cons_char sep c p ps :
  join sep (String c p :: ps) = String c (join sep (p :: ps)).
Proof. destruct ps; [done|]. by rewrite !join_cons2, str_app_cons. Qed.

(** Joining the pieces of [s.split(sep)] with [sep] gives [s] back. *)
Lemma join_str_split sep s : sep <> "" -> join sep (str_split sep s) = s.
Proof.
  intros Hsep. unfold str_split.
  remember (String.length s) as n eqn:Hn. revert s Hn.
  induction n as [n IH] using lt_wf_ind. intros s ->.
  destruct s as [|c r]; [done|]. cbn [split_from].
  destruct (String.prefix sep (String c r)) eqn:Hp.
  - rewrite split_from_skip.
    specialize (IH (String.length (drop_str (String.length sep - 1) r))).
    pose proof (drop_str_length (String.length sep - 1) r) as Hle.
    specialize (IH ltac:(simpl; lia) _ eq_refl).
    destruct (split_from sep 0 (drop_str (String.length sep - 1) r)) as [p ps].
    rewrite join_cons2, str_app_nil_l, IH.
    etransitivity; [|symmetry; apply (prefix_split _ _ Hp)].
    destruct sep as [|a sep]; [done|]. simpl String.length.
    replace (S (String.length sep) - 1)%nat with (String.length sep) by lia.
    reflexivity.
  - specialize (IH (String.length r) ltac:(simpl; lia) r eq_refl).
    destruct (split_from sep 0 r) as [p ps].
    by rewrite join_cons_char, IH.
Qed.

Lemma str_init_length s :
  s <> "" -> S (String.length (str_init s)) = String.length s.
Proof.
  induction s as [|c s IH]; [done|]. intros _.
  destruct s as [|d s]; [done|].
  change (str_init (String c (String d s)))
    with (String c (str_init (String d s))).
  change (String.length (String c (str_init (String d s))))
    with (S (String.length (str_init (String d s)))).
  by rewrite IH.
Qed.

Lemma str_init_last s :
  s <> "" ->
  exists l, forall rest, s +:+ rest = str_init s +:+ String l rest.
Proof.
  induction s as [|c s IH]; [done|]. intros _.
  destruct s as [|d s]; [by exists c|].
  destruct IH as [l Hl]; [done|]. exists l. intros rest.
  change (str_init (String c (String d s)))
    with (String c (str_init (String d s))).
  rewrite !(str_app_cons c). f_equal. apply Hl.
Qed.

Lemma contains_length sub s :
  contains sub s -> (String.length sub <= String.length s)%nat.
Proof. intros (pre & post & ->). rewrite !str_length_app. lia. Qed.

Lemma prefix_app a post : String.prefix a (a +:+ post) = true.
Proof.
  induction a as [|x a IH]; [by destruct post|]. rewrite str_app_cons. simpl.
  by destruct (ascii_dec x x).
Qed.

Lemma contains_cons sub c t :
  contains sub (String c t) ->
  String.prefix sub (String c t) = true \/ contains sub t.
Proof.
  intros (pre & post & Heq). destruct pre as [|x pre].
  - left. rewrite Heq, str_app_nil_l. apply prefix_app.
  - right. rewrite str_app_cons in Heq. injection Heq as _ ->.
    by exists pre, post.
Qed.

(** [s.split(sep)] cuts [s] at the occurrences of [sep], found from the
    left. *)
Lemma str_split_pieces sep s : sep <> "" -> pieces_of sep s (str_split sep s).
Proof.
  intros Hsep. unfold str_split.
  remember (String.length s) as n eqn:Hn. revert s Hn.
  induction n as [n IH] using lt_wf_ind. intros s ->.
  destruct s as [|c r].
  { simpl. apply pieces_last. intros Hc. apply contains_length in Hc.
    destruct sep; [done|]. simpl in Hc. lia. }
  cbn [split_from].
  destruct (String.prefix sep (String c r)) eqn:Hp.
  - rewrite split_from_skip.
    specialize (IH (String.length (drop_str (String.length sep - 1) r))).
    pose proof (drop_str_length (String.length sep - 1) r) as Hle.
    specialize (IH ltac:(simpl; lia) _ eq_refl).
    destruct (split_from sep 0 (drop_str (String.length sep - 1) r)) as [p ps].
    assert (Hs : String c r
                 = "" +:+ sep +:+ drop_str (String.length sep - 1) r).
    { rewrite str_app_nil_l. etransitivity; [apply (prefix_split _ _ Hp)|].
      destruct sep as [|a sep]; [done|]. simpl String.length.
      replace (S (String.length sep) - 1)%nat with (String.length sep) by lia.
      reflexivity. }
    rewrite Hs. apply pieces_cons; [|exact IH].
    rewrite str_app_nil_l. intros Hc. apply contains_length in Hc.
    pose proof (str_init_length sep Hsep). lia.
  - specialize (IH (String.length r) ltac:(simpl; lia) r eq_refl).
    destruct (split_from sep 0 r) as [p ps].
    inversion IH as [s0 Hno Heq1 Heq2|p0 rest ps0 Hno Hrest Heq1 Heq2]; subst.
    + apply pieces_last. intros Hc.
      apply contains_cons in Hc as [Hc|Hc]; [congruence|done].
    + rewrite <- str_app_cons. apply pieces_cons; [|done].
      rewrite str_app_cons. intros Hc.
      apply contains_cons in Hc as [Hc|Hc]; [|done].
      apply prefix_split in Hc.
      destruct (str_init_last sep Hsep) as [l Hl].
      assert (Hpre : String.prefix sep (String c (p +:+ sep +:+ rest)) = true).
      { rewrite (Hl rest), <- str_app_assoc, <- str_app_cons, Hc, str_app_assoc.
        apply prefix_app. }
      congruence.
Qed.

(** No piece has the delimiter in it, and the pieces joined by the
    delimiter are the text. *)
Lemma pieces_of_spec sep s ps :
  pieces_of sep s ps ->
  Forall (fun piece => ~ contains sep piece) ps
  /\ join sep ps = s /\ ps <> [].
Proof.
  induction 1 as [s Hno|p rest ps Hno Hrest (IH1 & IH2 & IH3)].
  - split; [by apply List.Forall_cons|]. by split.
  - split.
    + apply List.Forall_cons; [|done]. intros Hc. apply Hno.
      by apply contains_app_r.
    + split; [|done]. destruct ps as [|q ps]; [done|].
      by rewrite join_cons2, IH2.
Qed.

(** The text and the delimiter leave one choice of pieces. *)
Lemma app_eq_split (a b c d : string) :
  a +:+ b = c +:+ d ->
  (exists t, c = a +:+ t /\ b = t +:+ d) \/ (exists t, a = c +:+ t /\ d = t +:+ b).
Proof.
  revert c. induction a as [|x a IH]; intros c Heq.
  - left. exists c. by rewrite !str_app_nil_l in *.
  - destruct c as [|y c].
    + right. exists (String x a). by rewrite !str_app_nil_l in *.
    + rewrite !str_app_cons in Heq. injection Heq as -> Heq.
      destruct (IH c Heq) as [(t & -> & ->)|(t & -> & ->)].
      * left. by exists t.
      * right. by exists t.
Qed.

Lemma first_piece_unique sep p q r1 r2 :
  sep <> "" ->
  ~ contains sep (p +:+ str_init sep) ->
  ~ contains sep (q +:+ str_init sep) ->
  p +:+ sep +:+ r1 = q +:+ sep +:+ r2 -> p = q /\ r1 = r2.
Proof.
  intros Hsep Hp Hq Heq.
  destruct (str_init_last sep Hsep) as [l Hl].
  assert (Hlen : forall t u v : string,
             sep +:+ u = t +:+ sep +:+ v ->
             ~ contains sep (t +:+ str_init sep) -> t = "").
  { intros t u v Ht Hno. destruct t as [|x t]; [done|]. exfalso. apply Hno.
    rewrite (Hl v) in Ht. rewrite <- str_app_assoc in Ht.
    apply app_eq_split in Ht as [(w & Hw & _)|(w & Hw & Hv)].
    - rewrite Hw. exists "", w. by rewrite str_app_nil_l.
    - destruct w as [|y w].
      + rewrite str_app_nil_r in Hw. rewrite <- Hw. apply contains_refl.
      + exfalso. apply (f_equal String.length) in Hw.
        rewrite !str_length_app in Hw.
        pose proof (str_init_length sep Hsep) as Hi. simpl in Hw. lia. }
  apply app_eq_split in Heq as [(t & -> & Ht)|(t & -> & Ht)].
  - assert (t = "") as ->.
    { apply (Hlen t r1 r2 Ht). intros Hc. apply Hq.
      rewrite str_app_assoc. by apply contains_app_l. }
    rewrite str_app_nil_l in Ht. rewrite str_app_nil_r. split; [done|].
    revert Ht. clear. induction sep as [|x sep IH]; [done|].
    rewrite !str_app_cons. intros [= Ht]. by apply IH.
  - assert (t = "") as ->.
    { apply (Hlen t r2 r1 Ht). intros Hc. apply Hp.
      rewrite str_app_assoc. by apply contains_app_l. }
    rewrite str_app_nil_l in Ht. rewrite str_app_nil_r. split; [done|].
    revert Ht. clear. induction sep as [|x sep IH]; [done|].
    rewrite !str_app_cons. intros [= Ht]. by apply IH.
Qed.

Lemma pieces_of_unique sep s ps qs :
  sep <> "" -> pieces_of sep s ps -> pieces_of sep s qs -> ps = qs.
Proof.
  intros Hsep Hps. revert qs.
  induction Hps as [s Hno|p rest ps Hno Hrest IH]; intros qs Hqs.
  - inversion Hqs as [s0 Hno' Heq1 Heq2|q rest' qs' Hno' Hrest' Heq1 Heq2];
      [done|]. subst. exfalso. apply Hno. by exists q, rest'.
  - inversion Hqs as [s0 Hno' Heq1 Heq2|q rest' qs' Hno' Hrest' Heq1 Heq2].
    + subst. exfalso. apply Hno'. by exists p, rest.
    + subst. destruct (first_piece_unique sep q p rest' rest Hsep Hno' Hno Heq1)
        as [-> ->].
      f_equal. by apply IH.
Qed.

(** X10.  When the columns are inferred (header and inference on, a
    delimiter given, the first line readable), [colunas] has one name
    for each piece of the first line between delimiters.  The pieces
    are those of that line without its line end, cut at the delimiters
    found from the left, and they are the only such pieces: no piece
    has a delimiter in it, and the pieces joined by the delimiter are
    the line.  A name is its piece without the whitespace around it, so
    no name starts or ends with whitespace; and there is at least one
    name, also for an empty file. *)
Theorem header_columns_spec `{ManifestIO} (fs : filesystem) (path : string)
    (meta : DatasetInfo) (data : list byte) (sep line : string) :
  fs !! path = Some data ->
  delimitador meta = Some sep -> sep <> "" ->
  text_readline (str_or (encoding meta) "utf-8") data = Some line ->
  exists pieces,
    header_columns fs path meta true true = map strip pieces
    /\ pieces <> []
    /\ join sep pieces
       = strip_chars (String "010"%char (String "013"%char "")) line
    /\ (forall name, In name (header_columns fs path meta true true) ->
        (forall c, first_char name = Some c -> is_space c = false)
        /\ (forall c, last_char name = Some c -> is_space c = false))
    /\ pieces_of sep
         (strip_chars (String "010"%char (String "013"%char "")) line) pieces
    /\ Forall (fun piece => ~ contains sep piece) pieces
    /\ length (header_columns fs path meta true true) = length pieces
    /\ forall others,
        pieces_of sep
          (strip_chars (String "010"%char (String "013"%char "")) line) others ->
        others = pieces.
Proof.
  intros Hf Hsep Hne Hline. unfold header_columns.
  rewrite Hsep, Hf, Hline. simpl default.
  assert (Ht : truthy_str (Some sep) = true) by (by destruct sep).
  rewrite Ht. simpl andb.
  pose proof (str_split_pieces sep
                (strip_chars (String "010"%char (String "013"%char "")) line)
                Hne) as Hpieces.
  destruct (pieces_of_spec _ _ _ Hpieces) as (Hno & Hjoin & Hnil).
  exists (str_split sep
            (strip_chars (String "010"%char (String "013"%char "")) line)).
  split; [done|]. split; [exact Hnil|]. split; [exact Hjoin|]. split.
  { intros name Hname. apply in_map_iff in Hname as (piece & <- & _).
    destruct (strip_spec piece) as (_ & Hfirst & Hlast). by split. }
  split; [exact Hpieces|]. split; [exact Hno|].
  split; [by rewrite length_map|].
  intros others Hothers. exact (pieces_of_unique _ _ _ _ Hne Hothers Hpieces).
Qed.

Lemma header_columns_spec_witness :
  sample_fs !! sample_path = Some sample_file
  /\ exists pieces,
      header_columns (H := latin1_io) sample_fs sample_path csv_meta true true
      = map strip pieces
      /\ pieces_of ";"
           (strip_chars (String "010"%char (String "013"%char ""))
              (String.append "id;nome" (String "010"%char ""))) pieces.
Proof.
  assert (Hf : sample_fs !! sample_path = Some sample_file)
    by (vm_compute; reflexivity).
  split; [exact Hf|].
  destruct (header_columns_spec (H := latin1_io) sample_fs sample_path csv_meta
              sample_file ";" (String.append "id;nome" (String "010"%char ""))
              Hf eq_refl ltac:(discriminate) eq_refl)
    as (pieces & Hcols & _ & _ & _ & Hpieces & _).
  exists pieces. by split.
Defined.

Example header_columns_sample :
  header_columns (H := latin1_io) sample_fs sample_path csv_meta true true
  = ["id"; "nome"].
Proof. vm_compute. reflexivity. Qed.

Example header_columns_empty_file :
  header_columns (H := latin1_io) empty_fs empty_path csv_meta true true = [""].
Proof. vm_compute. reflexivity. Qed.

Example clean_dataframe_sample :
  check_dtypes (FR := sample_frames)
    (fst (clean_dataframe (H := sample_float) 0%nat (Some ["a"]) (Some ["c"])
            sample_heap) !!! 0%nat) ["a"] ["c"] [] = Ok tt.
Proof. vm_compute. reflexivity. Qed.

(** ** The pipelines *)

Lemma rename_columns_labels df mapping :
  columns (rename_columns df mapping) = map (renamed mapping) (columns df).
Proof.
  unfold columns, rename_columns. rewrite !map_map.
  apply map_ext. by intros [c s].
Qed.

Lemma rename_columns_series df mapping :
  map snd (rename_columns df mapping) = map snd df.
Proof.
  unfold rename_columns. rewrite map_map. apply map_ext. by intros [c s].
Qed.

Lemma rename_columns_len df mapping :
  df_len (rename_columns df mapping) = df_len df.
Proof. by destruct df as [|[c s] df]. Qed.

Lemma apply_casts_foreign (df : ref) `{PyFloat} `{FR : Frames} (I S F : list string)
    (h h' : heap) res :
  apply_casts df I S F h = (h', res) ->
  forall r, r <> df -> h' !! r = h !! r.
Proof.
  intros Hcast.
  destruct (apply_casts_cases df I S F h) as (h1 & res1 & Heq & Hf & _).
  rewrite Heq in Hcast. by injection Hcast as <- <-.
Qed.

(** X11.  [normalize_columns] returns a new dataset and leaves the one
    it is given as it was: the new dataset has the same columns in the
    same order under their new labels, a label that the mapping does not
    name being kept; when the new labels are distinct each column is
    found under its new label.  Since the dataset is new, the casts that
    [apply_casts] then makes in place reach no dataset that existed
    before, the one that was read among them. *)
Theorem normalize_columns_copies `{PyFloat} `{FR : Frames} (df : ref)
    (mapping : gmap string string) (w : world) :
  exists df' w1,
    normalize_columns df mapping w = (w1, Ok df')
    /\ (df' ∉ dom (w_heap w))
    /\ w_fs w1 = w_fs w /\ w_out w1 = w_out w
    /\ (forall r, r <> df' -> w_heap w1 !! r = w_heap w !! r)
    /\ columns (w_heap w1 !!! df')
       = map (renamed mapping) (columns (w_heap w !!! df))
    /\ map snd (w_heap w1 !!! df') = map snd (w_heap w !!! df)
    /\ (forall c, mapping !! c = None -> renamed mapping c = c)
    /\ (NoDup (columns (w_heap w1 !!! df')) ->
        forall c s, In (c, s) (w_heap w !!! df) ->
        getitem (w_heap w1 !!! df') (renamed mapping c) = Ok (Column s))
    /\ forall I S F w2 res,
        lift_heap (apply_casts df' I S F) w1 = (w2, res) ->
        forall r, r ∈ dom (w_heap w) -> w_heap w2 !! r = w_heap w !! r.
Proof.
  set (d := w_heap w !!! df).
  set (df' := fresh (dom (w_heap w))).
  assert (Hfresh : df' ∉ dom (w_heap w)) by apply is_fresh.
  exists df', {| w_fs := w_fs w;
                 w_heap := <[df' := rename_columns d mapping]> (w_heap w);
                 w_out := w_out w |}.
  cbn [w_fs w_heap w_out]. rewrite !lookup_total_insert_eq.
  split; [done|]. split; [done|]. split; [done|]. split; [done|].
  split; [intros r Hr; by rewrite lookup_insert_ne|].
  split; [apply rename_columns_labels|].
  split; [apply rename_columns_series|].
  split; [intros c Hc; unfold renamed; by rewrite Hc|].
  split.
  { intros Hnd c s Hin. apply getitem_In; [done|].
    unfold rename_columns.
    change (renamed mapping c, s)
      with ((fun '(c, s) => (renamed mapping c, s)) (c, s)).
    by apply in_map. }
  intros I S F w2 res. unfold lift_heap. simpl.
  destruct (apply_casts df' I S F
              (<[df' := rename_columns d mapping]> (w_heap w)))
    as [h' res'] eqn:Hcast.
  intros [= <- <-] r Hr. simpl.
  assert (Hne : r <> df') by (intros ->; done).
  etransitivity; [exact (apply_casts_foreign _ _ _ _ _ _ _ Hcast r Hne)|].
  by rewrite lookup_insert_ne.
Qed.

Lemma rsplit_no_slash f : mem_char f "/" = false -> rsplit_slash f = ("", f).
Proof.
  induction f as [|c f IH]; [done|].
  rewrite mem_char_cons. intros Hm. apply orb_false_elim in Hm as [Hc Hf].
  simpl. rewrite (IH Hf). by rewrite Ascii.eqb_sym, Hc.
Qed.

Lemma rsplit_after_slash a f :
  mem_char f "/" = false ->
  rsplit_slash (a +:+ String "/" f) = (a +:+ "/", f).
Proof.
  intros Hf. induction a as [|c a IH].
  - rewrite !str_app_nil_l. simpl. by rewrite (rsplit_no_slash _ Hf).
  - rewrite !str_app_cons. simpl. rewrite IH.
    destruct a as [|x a]; [by rewrite str_app_nil_l|by rewrite str_app_cons].
Qed.

Lemma last_char_app a c : last_char a = Some c -> exists a', a = a' +:+ String c "".
Proof.
  induction a as [|x a IH]; [done|]. simpl.
  destruct a as [|y a].
  - intros [= ->]. by exists "".
  - intros Hl. destruct (IH Hl) as (a' & ->). by exists (String x a').
Qed.

Lemma last_char_None a : last_char a = None -> a = "".
Proof.
  induction a as [|x a IH]; [done|]. simpl. destruct a as [|y a]; [done|].
  intros Hl. by specialize (IH Hl).
Qed.

(** The last part of a joined path is the name that was joined. *)
Lemma basename_path_join a f :
  mem_char f "/" = false -> basename (path_join a f) = f.
Proof.
  intros Hf. unfold path_join, basename.
  assert (Hp : String.prefix "/" f = false).
  { destruct f as [|c f]; [done|]. rewrite prefix_char.
    rewrite mem_char_cons in Hf. by apply orb_false_elim in Hf as [-> _]. }
  rewrite Hp. destruct (last_char a) as [c|] eqn:Hl.
  - destruct (Ascii.eqb_spec c "/"%char) as [->|Hne].
    + apply last_char_app in Hl as (a' & ->).
      rewrite str_app_assoc, str_app_cons, str_app_nil_l.
      by rewrite (rsplit_after_slash _ _ Hf).
    + rewrite str_app_cons, str_app_nil_l.
      by rewrite (rsplit_after_slash _ _ Hf).
  - apply last_char_None in Hl as ->. rewrite str_app_nil_l.
    by rewrite (rsplit_no_slash _ Hf).
Qed.

(** X12.  [save_txt] followed by [write_metadata_from_df] on the path it
    returns, as [main] of [ingestao_api.py] calls them: when [save_txt]
    returns, the file at the returned path holds the text of the
    dataset, so the manifest call is past its guard for a missing file:
    it builds the manifest and hands it to the writer.  The manifest
    that is built records the MD5 and the size of the text just
    written, the labels and the number of rows of the dataset, and in
    [arquivo] the file name that was given when that name has no slash;
    it is built whenever the labels of the dataset are distinct, and
    when it is not, a label is carried by two columns and the error is
    that of the dtypes or of the null counts.  Whatever the manifest
    call does, the data file holds the text after it and no file but
    the manifest has changed; when it returns, it returns the path of
    the manifest, which holds the serialisation of the manifest that
    was built.  When [save_txt] raises, no file but the data file has
    changed. *)
Theorem saved_file_gets_its_manifest `{ManifestIO} `{Surroundings} `{FR : Frames}
    (E : env)
    (df : DataFrame)
    (base_dir table partition_key filename delimiter enc : string)
    (index : bool) (meta : DatasetInfo) (dt nl pv : bool)
    (extra : option (list (string * scalar))) (fs fs1 : filesystem)
    (res : result string) :
  pd_available E = true ->
  save_txt df base_dir table partition_key filename delimiter enc index fs
  = (fs1, res) ->
  let out :=
    path_join (partition_dir base_dir table partition_key) filename in
  (forall p, p <> out -> fs1 !! p = fs !! p)
  /\ match res with
     | Raise e => True
     | Ok path =>
         path = out
         /\ exists text,
             to_csv fs df out delimiter enc index = Complete text
             /\ fs1 = <[out := text]> fs
             /\ write_metadata_from_df E fs1 df path meta dt nl pv extra
                = match manifest_from_df E fs1 df path meta dt nl pv extra with
                  | Ok m => dump_manifest fs1 path m
                  | Raise e => (fs1, Raise e)
                  end
             /\ (NoDup (columns df) ->
                 exists m,
                   manifest_from_df E fs1 df path meta dt nl pv extra = Ok m)
             /\ match manifest_from_df E fs1 df path meta dt nl pv extra with
                | Ok m =>
                    hash_md5 (m_core m) = md5_one_pass text
                    /\ tamanho_bytes (m_core m) = Z.of_nat (length text)
                    /\ colunas (m_schema_stats m) = columns df
                    /\ linhas (m_schema_stats m) = Some (Z.of_nat (df_len df))
                    /\ m_dataset m = meta
                    /\ (mem_char filename "/" = false ->
                        arquivo (m_core m) = filename)
                | Raise e =>
                    (e = no_dtype /\ dt = true
                     \/ e = int_of_series /\ nl = true)
                    /\ exists col, (2 <= occurrences df col)%nat
                end
             /\ forall fs2 r,
                 write_metadata_from_df E fs1 df path meta dt nl pv extra
                 = (fs2, r) ->
                 fs2 !! out = Some text
                 /\ (forall p, p <> out +:+ ".manifest.json" ->
                     fs2 !! p = fs1 !! p)
                 /\ forall o, r = Ok o ->
                      o = out +:+ ".manifest.json"
                      /\ exists m written,
                          manifest_from_df E fs1 df path meta dt nl pv extra
                          = Ok m
                          /\ json_dump m = (written, None)
                          /\ fs2 = <[o := written]> fs1
     end.
Proof.
  intros Hpd. unfold save_txt, df_to_csv.
  destruct (makedirs fs (partition_dir base_dir table partition_key))
    as [[]|e]; [|by intros [= <- <-]].
  destruct (to_csv fs df
              (path_join (partition_dir base_dir table partition_key) filename)
              delimiter enc index) as [text|[part|] e] eqn:Hcsv;
    intros [= <- <-]; cbv zeta.
  - split; [intros p Hp; by rewrite lookup_insert_ne|].
    split; [done|]. exists text. split; [done|]. split; [done|].
    set (out := path_join (partition_dir base_dir table partition_key) filename).
    assert (Hf : (<[out := text]> fs : filesystem) !! out = Some text)
      by apply lookup_insert_eq.
    split.
    { exact (write_metadata_from_df_exists E _ df out text meta dt nl pv extra
               Hf Hpd). }
    split.
    { intros Hnd. eexists.
      exact (manifest_from_df_distinct E _ df out text meta dt nl pv extra
               Hf Hnd). }
    split.
    { pose proof (manifest_from_df_cases E _ df out text meta dt nl pv extra Hf)
        as Hcases.
      destruct (manifest_from_df E (<[out := text]> fs) df out meta dt nl pv
                  extra) as [m|e]; [|exact Hcases].
      destruct Hcases as (Hcore & Hmeta & Hcols & Hrows & _).
      rewrite Hcore. simpl. do 2 (split; [done|]). do 3 (split; [done|]).
      intros Hno. by apply basename_path_join. }
    intros fs2 r Hw.
    exact (write_metadata_from_df_keeps E _ fs2 df out text meta dt nl pv extra
             r Hf Hpd Hw).
  - split; [intros p Hp; by rewrite lookup_insert_ne|done].
  - done.
Qed.

Lemma saved_file_gets_its_manifest_witness :
  pd_available sample_env = true
  /\ exists fs1,
      @save_txt sample_surroundings sample_df "bronze" "users"
        "anomesdia" "users.txt" ";" "utf-8" false sample_fs
      = (fs1, Ok "bronze/users/anomesdia=20251020/users.txt")
      /\ forall p, p <> "bronze/users/anomesdia=20251020/users.txt" ->
          fs1 !! p = sample_fs !! p.
Proof.
  split; [reflexivity|].
  destruct (@save_txt sample_surroundings sample_df "bronze" "users"
              "anomesdia" "users.txt" ";" "utf-8" false sample_fs)
    as [fs1 res] eqn:Hsave.
  assert (Hres : res = Ok "bronze/users/anomesdia=20251020/users.txt").
  { apply (f_equal snd) in Hsave. simpl in Hsave. rewrite <- Hsave.
    vm_compute. reflexivity. }
  subst res. exists fs1. split; [reflexivity|].
  exact (proj1 (@saved_file_gets_its_manifest sample_io
                  sample_surroundings sample_frames sample_env sample_df
                  "bronze" "users" "anomesdia" "users.txt" ";" "utf-8" false
                  no_meta true true false None sample_fs fs1 _
                  eq_refl Hsave)).
Defined.

Lemma filter_nil_In {A} (f : A -> bool) (l : list A) :
  List.filter f l = [] -> forall x, In x l -> f x = false.
Proof.
  induction l as [|a l IH]; simpl; [done|].
  destruct (f a) eqn:Hfa; [done|]. intros Hl x [<-|Hin]; [done|by apply IH].
Qed.

Lemma ensure_required_columns_ok df required :
  ensure_required_columns df required = Ok tt ->
  forall c, In c required -> In c (columns df).
Proof.
  unfold ensure_required_columns.
  destruct (List.filter _ required) eqn:Hm; [|done].
  intros _ c Hc. apply has_column_In.
  apply (filter_nil_In _ _ Hm) in Hc. by destruct (has_column df c).
Qed.

Section Cast_lengths.
Context `{PyFloat} `{FR : Frames}.

Lemma to_int_len s s' : to_int s = Ok s' -> series_len s' = series_len s.
Proof.
  intros Hs. pose proof (to_int_cases s) as Hc. rewrite Hs in Hc.
  destruct Hc as (v & -> & Hv & _). apply Forall2_length in Hv.
  unfold series_len at 1. simpl. rewrite length_map. by rewrite <- Hv.
Qed.

Lemma to_str_len s s' : to_str s = Ok s' -> series_len s' = series_len s.
Proof.
  rewrite to_str_values. intros [= <-]. unfold series_len at 1. simpl.
  by rewrite !length_map.
Qed.

Lemma to_float_pt_len s s' :
  to_float_pt s = Ok s' -> series_len s' = series_len s.
Proof.
  rewrite to_float_pt_values. intros [= <-]. unfold series_len at 1. simpl.
  by rewrite !length_map.
Qed.

Lemma setitem_len d col s s' :
  labelled d col = [s] -> series_len s' = series_len s ->
  map (fun x => series_len (snd x)) (setitem d col s')
  = map (fun x => series_len (snd x)) d.
Proof.
  intros Hl Hs. unfold setitem.
  assert (Hin : In col (columns d)).
  { apply occurrences_In. rewrite <- labelled_length, Hl. simpl. lia. }
  rewrite (proj2 (has_column_In d col) Hin), map_map.
  apply map_ext_in. intros [c s0] Hc.
  destruct (String.eqb_spec c col) as [->|Hne]; [|done]. simpl.
  apply labelled_In in Hc. rewrite Hl in Hc. by destruct Hc as [<-|[]].
Qed.

Lemma cast_column_len cast on_frame (df : ref) col (h h' : heap) res :
  (forall s s', cast s = Ok s' -> series_len s' = series_len s) ->
  cast_column cast on_frame df col h = (h', res) ->
  map (fun x => series_len (snd x)) (h' !!! df)
  = map (fun x => series_len (snd x)) (h !!! df).
Proof.
  intros Hcast. unfold cast_column.
  destruct (has_column (h !!! df) col); [|by intros [= <- <-]].
  destruct (getitem (h !!! df) col) as [[s|cols]|e] eqn:Hg;
    try by intros [= <- <-].
  destruct (cast s) as [s'|e] eqn:Hc; intros [= <- <-]; [|done].
  rewrite lookup_total_insert_eq.
  apply setitem_len with s; [by apply getitem_Column|by apply Hcast].
Qed.

Lemma for_each_len cast on_frame (df : ref) cols (h h' : heap) res :
  (forall s s', cast s = Ok s' -> series_len s' = series_len s) ->
  for_each cols (cast_column cast on_frame df) h = (h', res) ->
  map (fun x => series_len (snd x)) (h' !!! df)
  = map (fun x => series_len (snd x)) (h !!! df).
Proof.
  intros Hcast. revert h. induction cols as [|col cols IH]; intros h; simpl.
  - by intros [= <- <-].
  - unfold bind.
    destruct (cast_column cast on_frame df col h) as [h1 [[]|e]] eqn:Hstep.
    + intros Hrest. rewrite (IH _ Hrest).
      by apply (cast_column_len _ _ _ _ _ _ _ Hcast Hstep).
    + intros [= <- <-]. by apply (cast_column_len _ _ _ _ _ _ _ Hcast Hstep).
Qed.

Lemma df_len_hd d : df_len d = hd O (map (fun x => series_len (snd x)) d).
Proof. by destruct d as [|[c s] d]. Qed.

Lemma apply_casts_lengths (df : ref) (I S F : list string) (h h' : heap) res :
  apply_casts df I S F h = (h', res) ->
  map (fun x => series_len (snd x)) (h' !!! df)
  = map (fun x => series_len (snd x)) (h !!! df).
Proof.
  unfold apply_casts, bind.
  destruct (for_each I (cast_column to_int to_int_frame df) h)
    as [h2 r2] eqn:E1.
  pose proof (for_each_len _ _ _ _ _ _ _ to_int_len E1) as L1.
  destruct r2 as [[]|e]; [|intros [= <- <-]; exact L1].
  destruct (for_each S (cast_column to_str to_str_frame df) h2)
    as [h3 r3] eqn:E2.
  pose proof (for_each_len _ _ _ _ _ _ _ to_str_len E2) as L2.
  destruct r3 as [[]|e];
    [|intros [= <- <-]; etransitivity; [exact L2|exact L1]].
  destruct (for_each F (cast_column to_float_pt to_float_pt_frame df) h3)
    as [h4 r4] eqn:E3.
  pose proof (for_each_len _ _ _ _ _ _ _ to_float_pt_len E3) as L3.
  destruct r4 as [[]|e]; intros [= <- <-];
    (etransitivity; [exact L3|etransitivity; [exact L2|exact L1]]).
Qed.

(** The casts keep the number of rows. *)
Lemma apply_casts_len (df : ref) (I S F : list string) (h h' : heap) res :
  apply_casts df I S F h = (h', res) ->
  df_len (h' !!! df) = df_len (h !!! df).
Proof.
  intros Hcast. rewrite !df_len_hd.
  exact (f_equal (hd O) (apply_casts_lengths _ _ _ _ _ _ _ Hcast)).
Qed.

End Cast_lengths.

Section Csv_pipeline.
Context `{PyFloat} `{ManifestIO} `{Surroundings} `{FR : Frames}.
Variable E : env.

(** X13.  [main] of [ingestao_csv.py], for a file read with its header
    and labels that are distinct once renamed.  No dataset that existed
    before is changed, and no file but the output file and its manifest.
    When [main] returns, the file that was read has passed every check
    (required columns, dtypes after the casts, preview columns); the
    dataset written has the columns that were read, in their order and
    under their new labels, and as many rows; a column that no field
    list names holds the values that were read; the output file holds
    the text of that dataset and the manifest beside it holds the
    serialisation of a manifest that records the MD5 and the size of
    that text, the labels and the number of rows that were read.  When
    [main] raises, either no file has changed, or the checks had passed
    and then: the writing of the output file failed and left a part of
    it; or the output file was written in full and nothing else (the
    message after it, or the opening of the manifest, failed); or the
    manifest file holds what its writer had written when it failed, or
    all of it when only the last message failed. *)
Theorem main_csv_outcome (cfg : csv_config) (w : world) :
  let integer_fields := default [] (cfg_integer_fields cfg) in
  let string_fields := default [] (cfg_string_fields cfg) in
  let float_fields := default [] (cfg_float_fields cfg) in
  let mapping := columns_normalization cfg in
  let sep := default ";" (out_csv_delimiter cfg) in
  let enc := default "utf-8" (out_encoding cfg) in
  let index := default false (out_index cfg) in
  let out := csv_out_path cfg in
  let reading :=
    read_csv (w_fs w) (csv_path cfg) (default ";" (csv_delimiter cfg))
      (default "utf-8" (csv_encoding cfg)) true in
  pd_available E = true ->
  csv_has_header cfg <> Some false ->
  (forall raw, reading = Ok raw -> NoDup (map (renamed mapping) (columns raw))) ->
  exists w' res,
    main_csv E cfg w = (w', res)
    /\ (forall r, r ∈ dom (w_heap w) -> w_heap w' !! r = w_heap w !! r)
    /\ (forall p, p <> out -> p <> out +:+ ".manifest.json" ->
        w_fs w' !! p = w_fs w !! p)
    /\ match res with
       | Ok _ =>
           exists raw d text m written,
             reading = Ok raw
             /\ columns d = map (renamed mapping) (columns raw)
             /\ df_len d = df_len raw
             /\ (forall c s, In (c, s) raw ->
                 ~ In (renamed mapping c)
                     (integer_fields ++ string_fields ++ float_fields) ->
                 getitem d (renamed mapping c) = Ok (Column s))
             /\ (forall c, In c (required_columns cfg) -> In c (columns d))
             /\ (forall c, In c preview_cols -> In c (columns d))
             /\ check_dtypes d integer_fields string_fields float_fields = Ok tt
             /\ to_csv (w_fs w) d out sep enc index = Complete text
             /\ manifest_from_df E (<[out := text]> (w_fs w)) d out
                  (csv_dataset_info cfg sep enc) true true false None = Ok m
             /\ json_dump m = (written, None)
             /\ w_fs w'
                = <[out +:+ ".manifest.json" := written]>
                    (<[out := text]> (w_fs w))
             /\ hash_md5 (m_core m) = md5_one_pass text
             /\ tamanho_bytes (m_core m) = Z.of_nat (length text)
             /\ colunas (m_schema_stats m) = columns d
             /\ linhas (m_schema_stats m) = Some (Z.of_nat (df_len raw))
             /\ m_dataset m = csv_dataset_info cfg sep enc
       | Raise e =>
           w_fs w' = w_fs w
           \/ exists d,
               (forall c, In c (required_columns cfg) -> In c (columns d))
               /\ check_dtypes d integer_fields string_fields float_fields
                  = Ok tt
               /\ ((exists part,
                     to_csv (w_fs w) d out sep enc index = Broken (Some part) e
                     /\ w_fs w' = <[out := part]> (w_fs w))
                   \/ exists text,
                       to_csv (w_fs w) d out sep enc index = Complete text
                       /\ (w_fs w' = <[out := text]> (w_fs w)
                           \/ exists m,
                               manifest_from_df E (<[out := text]> (w_fs w)) d
                                 out (csv_dataset_info cfg sep enc)
                                 true true false None = Ok m
                               /\ w_fs w'
                                  = <[out +:+ ".manifest.json"
                                      := fst (json_dump m)]>
                                      (<[out := text]> (w_fs w))))
       end.
Proof.
  intros I S F mapping sep enc index out reading Hpd Hheader Hnd.
  assert (Hh : default true (csv_has_header cfg) = true).
  { destruct (csv_has_header cfg) as [[]|]; done. }
  unfold main_csv. rewrite Hh. fold I S F mapping sep enc index.
  unfold wbind at 1. unfold get_fs.
  unfold wbind at 1. unfold lift_result at 1. fold reading.
  destruct reading as [raw|e] eqn:Hread.
  2:{ eexists _, _. split; [reflexivity|]. split; [done|]. split; [done|].
      by left. }
  specialize (Hnd raw eq_refl).
  unfold wbind at 1. unfold new_object at 1. cbn [w_fs w_heap w_out].
  unfold wbind at 1. unfold normalize_columns at 1.
  unfold wbind at 1. unfold get_object at 1, new_object at 1.
  cbn [w_fs w_heap w_out].
  unfold wbind at 1. unfold get_object at 1. cbn [w_fs w_heap w_out].
  set (r0 := fresh (dom (w_heap w))).
  assert (Hr0 : r0 ∉ dom (w_heap w)) by apply is_fresh.
  set (h1 := <[r0 := raw]> (w_heap w)).
  set (r1 := fresh (dom h1)).
  assert (Hr1 : r1 ∉ dom h1) by apply is_fresh.
  replace (h1 !!! r0) with raw by (symmetry; apply lookup_total_insert_eq).
  set (d := rename_columns raw mapping).
  set (h2 := <[r1 := d]> h1).
  assert (Hold : forall r, r ∈ dom (w_heap w) -> h2 !! r = w_heap w !! r).
  { intros r Hr. unfold h2, h1.
    rewrite lookup_insert_ne.
    - rewrite lookup_insert_ne; [done|]. by intros ->.
    - intros ->. apply Hr1. unfold h1. rewrite dom_insert.
    apply elem_of_union. by right. }
  replace (h2 !!! r1) with d by (symmetry; apply lookup_total_insert_eq).
  unfold wbind at 1. unfold lift_result at 1.
  destruct (ensure_required_columns d (required_columns cfg)) as [[]|e] eqn:Hreq.
  2:{ eexists _, _. split; [reflexivity|]. split; [exact Hold|].
      split; [done|]. by left. }
  pose proof (ensure_required_columns_ok _ _ Hreq) as Hrequired.
  unfold wbind at 1.
  match goal with
  | |- context [match ?warn ?w0 with _ => _ end] =>
      assert (Hwarn : (exists e, warn w0 = (w0, Raise e))
                      \/ exists o, warn w0
                           = ({| w_fs := w_fs w; w_heap := h2; w_out := o |},
                              Ok tt))
  end.
  { destruct (List.filter _ (columns d)).
    - right. eexists. reflexivity.
    - unfold print. cbn [w_fs w_heap w_out].
      destruct (print_fails _ _) as [e|].
      + left. by exists e.
      + right. eexists. reflexivity. }
  destruct Hwarn as [(e & ->)|(o1 & ->)].
  { eexists _, _. split; [reflexivity|]. split; [exact Hold|].
    split; [done|]. by left. }
  unfold wbind at 1. unfold lift_heap at 1. cbn [w_fs w_heap w_out].
  destruct (apply_casts_cases r1 I S F h2)
    as (h3 & r3 & Hcast & Hforeign & Hcols & Hother & Hres).
  rewrite Hcast.
  assert (Hold3 : forall r, r ∈ dom (w_heap w) -> h3 !! r = w_heap w !! r).
  { intros r Hr. rewrite <- (Hold r Hr). apply Hforeign.
    intros ->. apply Hr1. unfold h1. rewrite dom_insert.
    apply elem_of_union. by right. }
  destruct r3 as [r3|e]; [destruct Hres as (-> & _)|].
  2:{ eexists _, _. split; [reflexivity|]. split; [exact Hold3|].
      split; [done|]. by left. }
  unfold wbind at 1. unfold get_object at 1. cbn [w_fs w_heap w_out].
  replace (h2 !!! r1) with d in Hcols, Hother
    by (symmetry; apply lookup_total_insert_eq).
  pose proof (apply_casts_len _ _ _ _ _ _ _ Hcast) as Hlen.
  replace (h2 !!! r1) with d in Hlen
    by (symmetry; apply lookup_total_insert_eq).
  set (d' := h3 !!! r1) in *.
  assert (Hlabels : columns d' = map (renamed mapping) (columns raw)).
  { rewrite Hcols. apply rename_columns_labels. }
  assert (Hnd' : NoDup (columns d')) by (by rewrite Hlabels).
  unfold wbind at 1. unfold lift_result at 1.
  destruct (check_dtypes d' I S F) as [[]|e] eqn:Hcheck.
  2:{ eexists _, _. split; [reflexivity|]. split; [exact Hold3|].
      split; [done|]. by left. }
  unfold wbind at 1.
  destruct (List.filter (fun c => negb (has_column d' c)) preview_cols)
    as [|c0 miss] eqn:Hmiss.
  2:{ eexists _, _. split; [reflexivity|]. split; [exact Hold3|].
      split; [done|]. by left. }
  unfold wret at 1.
  unfold wbind at 1. unfold print at 1. cbn [w_fs w_heap w_out].
  destruct (print_fails _ _) as [e|].
  { eexists _, _. split; [reflexivity|]. split; [exact Hold3|].
    split; [done|]. by left. }
  unfold wbind at 1. unfold print at 1. cbn [w_fs w_heap w_out].
  destruct (print_fails _ _) as [e|].
  { eexists _, _. split; [reflexivity|]. split; [exact Hold3|].
    split; [done|]. by left. }
  unfold wbind at 1. unfold lift_fs at 1. cbn [w_fs w_heap w_out].
  destruct (makedirs (w_fs w) _) as [[]|e].
  2:{ eexists _, _. split; [reflexivity|]. split; [exact Hold3|].
      split; [done|]. by left. }
  unfold wbind at 1. unfold lift_fs at 1. cbn [w_fs w_heap w_out].
  fold (csv_out_path cfg). fold out.
  assert (Hpreview : forall c, In c preview_cols -> In c (columns d')).
  { intros c Hc. apply has_column_In.
    apply (filter_nil_In _ _ Hmiss) in Hc. by destruct (has_column d' c). }
  assert (Hrequired' : forall c, In c (required_columns cfg) -> In c (columns d')).
  { intros c Hc. rewrite Hcols. by apply Hrequired. }
  unfold df_to_csv.
  destruct (to_csv (w_fs w) d' out sep enc index) as [text|[part|] e] eqn:Hcsv.
  2:{ eexists _, _. split; [reflexivity|]. split; [exact Hold3|].
      cbn [w_fs w_heap w_out].
      split; [intros p Hp _; by rewrite lookup_insert_ne|].
      right. exists d'. split; [done|]. split; [done|].
      left. by exists part. }
  2:{ eexists _, _. split; [reflexivity|]. split; [exact Hold3|].
      split; [done|]. by left. }
  unfold wbind at 1. unfold print at 1. cbn [w_fs w_heap w_out].
  destruct (print_fails _ _) as [e|].
  { eexists _, _. split; [reflexivity|]. split; [exact Hold3|].
    cbn [w_fs w_heap w_out].
    split; [intros p Hp _; by rewrite lookup_insert_ne|].
    right. exists d'. split; [done|]. split; [done|].
    right. exists text. split; [done|]. by left. }
  unfold wbind at 1. unfold lift_fs at 1. cbn [w_fs w_heap w_out].
  assert (Hf : (<[out := text]> (w_fs w) : filesystem) !! out = Some text)
    by apply lookup_insert_eq.
  pose proof (manifest_from_df_distinct E _ d' out text
                (csv_dataset_info cfg sep enc) true true false None Hf Hnd')
    as Hm.
  cbv iota in Hm.
  rewrite (write_metadata_from_df_exists E _ d' out text _ true true false None
             Hf Hpd), Hm.
  unfold dump_manifest.
  destruct (open_w _ _) as [e|].
  { eexists _, _. split; [reflexivity|]. split; [exact Hold3|].
    cbn [w_fs w_heap w_out].
    split; [intros p Hp _; by rewrite lookup_insert_ne|].
    right. exists d'. split; [done|]. split; [done|].
    right. exists text. split; [done|]. by left. }
  destruct (json_dump _) as [written [e|]] eqn:Hdump.
  { eexists _, _. split; [reflexivity|]. split; [exact Hold3|].
    cbn [w_fs w_heap w_out].
    split; [intros p Hp Hp'; by rewrite !lookup_insert_ne|].
    right. exists d'. split; [done|]. split; [done|].
    right. exists text. split; [done|]. right.
    eexists. split; [exact Hm|]. by rewrite Hdump. }
  unfold print. cbn [w_fs w_heap w_out].
  destruct (print_fails _ _) as [e|].
  { eexists _, _. split; [reflexivity|]. split; [exact Hold3|].
    cbn [w_fs w_heap w_out].
    split; [intros p Hp Hp'; by rewrite !lookup_insert_ne|].
    right. exists d'. split; [done|]. split; [done|].
    right. exists text. split; [done|]. right.
    eexists. split; [exact Hm|]. by rewrite Hdump. }
  eexists _, _. split; [reflexivity|]. split; [exact Hold3|].
  cbn [w_fs w_heap w_out].
  split; [intros p Hp Hp'; by rewrite !lookup_insert_ne|].
  exists raw, d', text. eexists. exists written.
  split; [done|].
  split; [exact Hlabels|].
  split; [rewrite Hlen; apply rename_columns_len|].
  split.
  { intros c s Hin Hnot. apply getitem_Column. rewrite (Hother _ Hnot).
    apply getitem_Column.
    apply getitem_In; [by unfold d; rewrite rename_columns_labels|].
    unfold d, rename_columns.
    change (renamed mapping c, s)
      with ((fun '(c, s) => (renamed mapping c, s)) (c, s)).
    by apply in_map. }
  split; [exact Hrequired'|].
  split; [exact Hpreview|].
  split; [exact Hcheck|].
  split; [exact Hcsv|].
  split; [exact Hm|].
  split; [exact Hdump|].
  split; [reflexivity|].
  cbn [m_core m_dataset m_schema_stats hash_md5 tamanho_bytes colunas linhas].
  split; [done|]. split; [done|]. split; [done|].
  split; [|done]. rewrite Hlen. unfold d. by rewrite rename_columns_len.
Qed.

End Csv_pipeline.

Lemma main_csv_outcome_witness :
  pd_available sample_env = true
  /\ csv_has_header sample_cfg <> Some false
  /\ exists w',
      @main_csv sample_float sample_io sample_surroundings sample_frames sample_env
        sample_cfg sample_world = (w', Ok tt)
      /\ forall r, r ∈ dom (w_heap sample_world) ->
           w_heap w' !! r = w_heap sample_world !! r.
Proof.
  split; [reflexivity|]. split; [discriminate|].
  destruct (@main_csv_outcome sample_float sample_io sample_surroundings sample_frames
              sample_env sample_cfg sample_world eq_refl)
    as (w' & res & Hmain & Hheap & _).
  - discriminate.
  - intros raw Hraw. vm_compute in Hraw. injection Hraw as <-.
    apply (bool_decide_unpack _). vm_compute. reflexivity.
  - assert (Hres : res = Ok tt).
    { apply (f_equal snd) in Hmain. simpl in Hmain. rewrite <- Hmain.
      vm_compute. reflexivity. }
    subst res. exists w'. split; [exact Hmain|exact Hheap].
Defined.

(** ** The retries of [safe_get] *)

Section Safe_get.
Context `{Web}.

Lemma decimal_value_nonneg s acc :
  all_chars is_decimal_char s = true -> 0 <= acc -> 0 <= decimal_value acc s.
Proof.
  revert acc. induction s as [|c s IH]; intros acc; simpl; [done|].
  intros Hs Hacc. apply andb_prop in Hs as [Hc Hs]. apply IH; [done|].
  unfold is_decimal_char in Hc. apply andb_prop in Hc as [Hlo _].
  apply N.leb_le in Hlo. lia.
Qed.

Lemma int_of_digits_nonneg limit s n : int_of_digits limit s = Some n -> 0 <= n.
Proof.
  unfold int_of_digits.
  destruct (all_chars is_decimal_char s) eqn:Hs; [|done]. simpl.
  destruct (_ || _); [|done]. intros [= <-].
  by apply decimal_value_nonneg.
Qed.

Lemma backoff_bounds attempt cap :
  0 <= attempt -> 1 <= cap ->
  1 <= Z.min (2 ^ attempt) cap <= cap /\ Z.min (2 ^ attempt) cap <= 2 ^ attempt.
Proof.
  intros Ha Hcap. assert (0 < 2 ^ attempt) by (apply Z.pow_pos_nonneg; lia). lia.
Qed.

(** The pause that one turn of the loop asks for. *)
Lemma one_attempt_pause r attempt err sleep_s :
  0 <= attempt ->
  one_attempt r attempt = Retry err sleep_s ->
  0 <= sleep_s
  /\ ((forall resp, r = Responds resp -> retry_after resp = None) ->
      1 <= sleep_s <= 16 /\ sleep_s <= 2 ^ attempt).
Proof.
  intros Ha. unfold one_attempt.
  assert (B8 := backoff_bounds attempt 8 Ha ltac:(lia)).
  assert (B16 := backoff_bounds attempt 16 Ha ltac:(lia)).
  destruct r as [resp|[] e]; [| |done].
  - destruct (status_code resp =? 200); [done|].
    destruct ((status_code resp =? 429) || (status_code resp =? 503)).
    + destruct (retry_after resp) as [ra|] eqn:Hra.
      * destruct (negb (String.eqb ra "") && isdigit ra).
        -- destruct (int_of_digits int_max_str_digits ra) as [n|] eqn:Hn;
             [|done].
           intros [= <- <-]. split; [by apply int_of_digits_nonneg in Hn|].
           intros Hnone. specialize (Hnone resp eq_refl). congruence.
        -- intros [= <- <-]. split; [lia|]. intros _. lia.
      * intros [= <- <-]. split; [lia|]. intros _. lia.
    + intros [= <- <-]. split; [lia|]. intros _. lia.
  - intros [= <- <-]. split; [lia|]. intros _. lia.
Qed.

Lemma one_attempt_returned r attempt resp :
  one_attempt r attempt = Leave (Returned resp) ->
  r = Responds resp /\ status_code resp = 200.
Proof.
  unfold one_attempt. destruct r as [resp0|[] e]; [| |done]; [|done].
  destruct (status_code resp0 =? 200) eqn:H200.
  - intros [= <-]. split; [done|]. by apply Z.eqb_eq.
  - destruct (_ || _); [|done].
    destruct (retry_after resp0) as [ra|]; [|done].
    destruct (_ && _); [|done].
    by destruct (int_of_digits int_max_str_digits ra).
Qed.

Lemma one_attempt_retry r attempt err sleep_s :
  one_attempt r attempt = Retry err sleep_s ->
  forall resp, r = Responds resp -> status_code resp <> 200.
Proof.
  unfold one_attempt. intros Hr resp ->.
  destruct (status_code resp =? 200) eqn:H200; [done|]. by apply Z.eqb_neq.
Qed.

Lemma one_attempt_raised r attempt e :
  one_attempt r attempt = Leave (Raised e) ->
  (exists x, e = FromGet x /\ r = Fails false x)
  \/ (exists resp ra, e = IntValueError ra /\ r = Responds resp
        /\ status_code resp <> 200 /\ retry_after resp = Some ra).
Proof.
  unfold one_attempt. destruct r as [resp|[] x]; [|done|].
  - destruct (status_code resp =? 200) eqn:H200; [done|].
    apply Z.eqb_neq in H200.
    destruct (_ || _); [|done].
    destruct (retry_after resp) as [ra|] eqn:Hra; [|done].
    destruct (_ && _); [|done].
    destruct (int_of_digits int_max_str_digits ra); [done|].
    intros [= <-]. right. by exists resp, ra.
  - intros [= <-]. left. by exists x.
Qed.

(** The loop from attempt [k] on, [m] attempts being left. *)
Lemma attempts_run (rq : request) (retries : Z) (m k : nat)
    (last : option last_error) (st : net) :
  (m = 0%nat \/ Z.of_nat (k + m) = retries + 1) ->
  exists (n : nat) (pauses : list (Z * Z)) (out : outcome response) (st' : net),
    attempts rq retries (map Z.of_nat (seq k m)) last st = (st', out)
    /\ _SESSION st' = _SESSION st
    /\ sessions_made st' = sessions_made st
    /\ sent st' = sent st ++ repeat rq n
    /\ slept st' = slept st ++ pauses
    /\ (n <= m)%nat
    /\ map snd pauses = map Z.of_nat (seq k (pred n))
    /\ (forall j p, nth_error pauses j = Some p ->
        snd p = Z.of_nat (k + j)
        /\ exists err,
            one_attempt (sess_get (sent st ++ repeat rq j) rq)
              (Z.of_nat (k + j))
            = Retry err (fst p))
    /\ match n with
       | O => m = 0%nat /\ out = Raised (ApiError (rq_url rq) last)
       | Datatypes.S i =>
           let v := one_attempt (sess_get (sent st ++ repeat rq i) rq)
                      (Z.of_nat (k + i)) in
           v = Leave out
           \/ exists err sleep_s,
               v = Retry err sleep_s
               /\ ((n = m /\ out = Raised (ApiError (rq_url rq) (Some err)))
                   \/ exists e, out = Raised (FromSleep e)
                        /\ time_sleep sleep_s (Z.of_nat (k + i)) = Some e)
       end.
Proof.
  revert k last st. induction m as [|m IH]; intros k last st Hinv.
  { exists 0%nat, [], (Raised (ApiError (rq_url rq) last)), st. simpl.
    rewrite !app_nil_r. do 7 (split; [done|]).
    split; [intros j p Hp; by destruct j|done]. }
  destruct Hinv as [Hm|Hinv]; [done|].
  cbn [seq map attempts].
  set (st1 := {| _SESSION := _SESSION st; sessions_made := sessions_made st;
                 sent := sent st ++ [rq]; slept := slept st |}).
  assert (Hreply0 : sent st ++ repeat rq 0 = sent st) by apply app_nil_r.
  assert (Hk0 : (k + 0)%nat = k) by lia.
  destruct (one_attempt (sess_get (sent st) rq) (Z.of_nat k)) as [out|err s]
    eqn:Hone.
  { exists 1%nat, [], out, st1. simpl. rewrite app_nil_r.
    do 5 (split; [done|]). split; [lia|]. split; [done|].
    split; [intros j p Hp; by destruct j|].
    left. by rewrite app_nil_r, Hk0. }
  assert (Hnext : m = 0%nat \/ Z.of_nat (Datatypes.S k + m) = retries + 1).
  { right. lia. }
  destruct (Z.ltb_spec (Z.of_nat k) retries) as [Hlt|Hge].
  - destruct (time_sleep s (Z.of_nat k)) as [e|] eqn:Hsleep.
    { exists 1%nat, [], (Raised (FromSleep e)), st1. simpl. rewrite app_nil_r.
      do 5 (split; [done|]). split; [lia|]. split; [done|].
      split; [intros j p Hp; by destruct j|].
      right. rewrite app_nil_r, Hk0. exists err, s. split; [done|].
      right. by exists e. }
    set (st2 := {| _SESSION := _SESSION st1;
                   sessions_made := sessions_made st1; sent := sent st1;
                   slept := slept st1 ++ [(s, Z.of_nat k)] |}).
    destruct (IH (Datatypes.S k) (Some err) st2 Hnext)
      as (n & pauses & out & st' & Hrun & Hs1 & Hs2 & Hsent & Hslept & Hn
          & Hsnd & Hpauses & Hlast).
    assert (Hn1 : (1 <= n)%nat).
    { destruct n as [|n]; [|lia]. destruct Hlast as [-> _]. lia. }
    exists (Datatypes.S n), ((s, Z.of_nat k) :: pauses), out, st'.
    split; [exact Hrun|]. split; [done|]. split; [done|].
    split.
    { rewrite Hsent. simpl. by rewrite <- app_assoc. }
    split.
    { rewrite Hslept. simpl. by rewrite <- app_assoc. }
    split; [lia|].
    split.
    { simpl. rewrite Hsnd. destruct n as [|n]; [lia|]. reflexivity. }
    split.
    { intros [|j] p Hp.
      - injection Hp as <-. split; [simpl; by rewrite Hk0|].
        exists err. simpl. by rewrite app_nil_r, Hk0.
      - destruct (Hpauses j p Hp) as (Hat & err' & Herr').
        replace (k + Datatypes.S j)%nat with (Datatypes.S k + j)%nat by lia.
        split; [exact Hat|]. exists err'.
        simpl in Herr'. rewrite <- app_assoc in Herr'. exact Herr'. }
    destruct n as [|i]; [lia|].
    cbv zeta in Hlast. cbv zeta.
    simpl in Hlast. rewrite <- app_assoc in Hlast. simpl in Hlast.
    replace (k + Datatypes.S i)%nat with (Datatypes.S (k + i)) by lia.
    destruct Hlast as [Hleave|(err' & s' & Hv & Hout)]; [by left|].
    right. exists err', s'. split; [done|].
    destruct Hout as [[Hnm ->]|Hout]; [left|by right].
    split; [lia|done].
  - assert (Hm0 : m = 0%nat) by lia. subst m.
    exists 1%nat, [], (Raised (ApiError (rq_url rq) (Some err))), st1.
    simpl. rewrite app_nil_r.
    do 5 (split; [done|]). split; [lia|]. split; [done|].
    split; [intros j p Hp; by destruct j|].
    right. rewrite app_nil_r, Hk0. exists err, s. split; [done|]. by left.
Qed.

End Safe_get.

Section Safe_get_properties.
Context `{Web}.

Lemma range_seq retries :
  (Z.to_nat (retries + 1) = 0%nat
   \/ Z.of_nat (0 + Z.to_nat (retries + 1)) = retries + 1).
Proof. lia. Qed.

(** X14.  [safe_get] sends at most [retries + 1] requests, none when
    [retries] is negative, all of them on the one session of the module,
    which is made on the first use and kept; it pauses between two
    requests only, never after the last one.  It returns a response
    only with status 200, the first one received, every request before
    having failed in a way that is retried.  It raises its [ApiError]
    only after all the [retries + 1] requests, the last error being
    [None] exactly when [retries] is negative. *)
Theorem safe_get_request_budget (url : string) (timeout : timeout_arg)
    (retries : Z) (params : option (list (string * Z))) (st : net) :
  exists st' out s n,
    safe_get url timeout retries params st = (st', out)
    /\ _SESSION st' = Some s
    /\ (forall s0, _SESSION st = Some s0 ->
        s0 = s /\ sessions_made st' = sessions_made st)
    /\ (_SESSION st = None ->
        s = sessions_made st
        /\ sessions_made st' = Datatypes.S (sessions_made st))
    /\ let rq := {| rq_session := s; rq_url := url; rq_params := params;
                    rq_timeout := timeout |} in
       sent st' = sent st ++ repeat rq n
       /\ Z.of_nat n <= Z.max 0 (retries + 1)
       /\ length (slept st') = (length (slept st) + pred n)%nat
       /\ (forall j resp, (j < pred n)%nat ->
           sess_get (sent st ++ repeat rq j) rq = Responds resp ->
           status_code resp <> 200)
       /\ match out with
          | Returned resp =>
              status_code resp = 200 /\ (1 <= n)%nat
              /\ sess_get (sent st ++ repeat rq (pred n)) rq = Responds resp
          | Raised (ApiError u last_err) =>
              u = url /\ Z.of_nat n = Z.max 0 (retries + 1)
              /\ (last_err = None <-> retries < 0)
              /\ forall resp,
                   sess_get (sent st ++ repeat rq (pred n)) rq = Responds resp ->
                   (1 <= n)%nat -> status_code resp <> 200
          | Raised _ => (1 <= n)%nat
          end.
Proof.
  unfold safe_get.
  assert (Hsess : exists st1 s,
             get_session st = (st1, s)
             /\ _SESSION st1 = Some s /\ sent st1 = sent st
             /\ slept st1 = slept st
             /\ (forall s0, _SESSION st = Some s0 ->
                 s0 = s /\ sessions_made st1 = sessions_made st)
             /\ (_SESSION st = None ->
                 s = sessions_made st
                 /\ sessions_made st1 = Datatypes.S (sessions_made st))).
  { unfold get_session. destruct (_SESSION st) as [s0|] eqn:Hs.
    - exists st, s0. do 4 (split; [done|]). split; [|done].
      intros s1 [= ->]. by split.
    - eexists _, _. split; [reflexivity|]. simpl. repeat split; done. }
  destruct Hsess as (st1 & s & -> & Hs1 & Hsent1 & Hslept1 & Hsome & Hnone).
  set (rq := {| rq_session := s; rq_url := url; rq_params := params;
                rq_timeout := timeout |}).
  unfold range.
  destruct (attempts_run rq retries (Z.to_nat (retries + 1)) 0 None st1
              (range_seq retries))
    as (n & pauses & out & st' & Hrun & Hs2 & Hmade & Hsent & Hslept & Hn
        & Hsnd & Hpauses & Hlast).
  rewrite Hsent1 in *. rewrite Hslept1 in Hslept.
  exists st', out, s, n. split; [exact Hrun|].
  split; [congruence|].
  split; [intros s0 Hs0; destruct (Hsome s0 Hs0); split; congruence|].
  split; [intros Hs0; destruct (Hnone Hs0); split; congruence|].
  cbv zeta. fold rq.
  assert (Hlen : length pauses = pred n).
  { rewrite <- (length_map snd), Hsnd, length_map. apply length_seq. }
  split; [exact Hsent|]. split; [lia|].
  split; [by rewrite Hslept, length_app, Hlen|].
  split.
  { intros j resp Hj Hresp.
    destruct (nth_error pauses j) as [p|] eqn:Hp.
    - destruct (Hpauses j p Hp) as (_ & err & Herr).
      by apply (one_attempt_retry _ _ _ _ Herr).
    - apply nth_error_None in Hp. lia. }
  destruct n as [|i].
  { destruct Hlast as [Hm ->]. split; [done|]. split; [lia|].
    split; [|intros; lia]. split; [lia|done]. }
  cbv zeta in Hlast. simpl pred.
  destruct Hlast as [Hleave|(err & sl & Hv & [[Hnm ->]|(e & -> & _)])].
  - destruct out as [resp|e].
    + apply one_attempt_returned in Hleave as [Hr H200].
      split; [done|]. split; [lia|done].
    + apply one_attempt_raised in Hleave
        as [(x & -> & _)|(resp & ra & -> & _)]; lia.
  - split; [done|]. split; [lia|]. split; [split; [done|lia]|].
    intros resp Hresp _. by apply (one_attempt_retry _ _ _ _ Hv).
  - lia.
Qed.

End Safe_get_properties.

Section Safe_get_pauses.
Context `{Web}.

Lemma isdigit_guard ra : negb (String.eqb ra "") && isdigit ra = isdigit ra.
Proof. by destruct ra. Qed.

(** The reply that made one turn of the loop ask for a pause. *)
Lemma one_attempt_retry_inv r attempt err sleep_s :
  one_attempt r attempt = Retry err sleep_s ->
  match r with
  | Responds resp =>
      status_code resp <> 200
      /\ if (status_code resp =? 429) || (status_code resp =? 503)
         then match retry_after resp with
              | Some ra =>
                  if isdigit ra
                  then int_of_digits int_max_str_digits ra = Some sleep_s
                  else sleep_s = Z.min (2 ^ attempt) 16
              | None => sleep_s = Z.min (2 ^ attempt) 16
              end
         else sleep_s = Z.min (2 ^ attempt) 8
  | Fails retriable e => retriable = true /\ sleep_s = Z.min (2 ^ attempt) 8
  end.
Proof.
  unfold one_attempt. destruct r as [resp|[] e]; [| |done].
  - destruct (status_code resp =? 200) eqn:H200; [done|].
    apply Z.eqb_neq in H200. intros Hr. split; [done|]. revert Hr.
    destruct (_ || _).
    + destruct (retry_after resp) as [ra|]; [|by intros [= _ <-]].
      rewrite isdigit_guard. destruct (isdigit ra); [|by intros [= _ <-]].
      destruct (int_of_digits int_max_str_digits ra); [|done].
      by intros [= _ <-].
    + by intros [= _ <-].
  - by intros [= _ <-].
Qed.

(** X15.  The pauses of [safe_get]: there are at most [retries] of
    them; pause number [j] is the one after request number [j], whose
    attempt number is [j], smaller than [retries]; its seconds are
    never negative; they are the number of the Retry-After header when
    the reply was a 429 or 503 that carries one made of digits, and
    otherwise [min(2 ** j, 16)] after a 429 or 503 and [min(2 ** j, 8)]
    after another status, a timeout or a connection error, so between
    1 and 16 when the reply has no Retry-After. *)
Theorem safe_get_pauses (url : string) (timeout : timeout_arg)
    (retries : Z) (params : option (list (string * Z))) (st : net) :
  let rq := {| rq_session := snd (get_session st); rq_url := url;
               rq_params := params; rq_timeout := timeout |} in
  exists st' out pauses,
    safe_get url timeout retries params st = (st', out)
    /\ slept st' = slept st ++ pauses
    /\ Z.of_nat (length pauses) <= Z.max 0 retries
    /\ forall j p, nth_error pauses j = Some p ->
        snd p = Z.of_nat j /\ snd p < retries /\ 0 <= fst p
        /\ match sess_get (sent st ++ repeat rq j) rq with
           | Responds resp =>
               status_code resp <> 200
               /\ (if (status_code resp =? 429) || (status_code resp =? 503)
                   then match retry_after resp with
                        | Some ra =>
                            if isdigit ra
                            then int_of_digits int_max_str_digits ra
                                 = Some (fst p)
                            else fst p = Z.min (2 ^ snd p) 16
                        | None => fst p = Z.min (2 ^ snd p) 16
                        end
                   else fst p = Z.min (2 ^ snd p) 8)
               /\ (retry_after resp = None ->
                   1 <= fst p <= 16 /\ fst p <= 2 ^ snd p)
           | Fails retriable e =>
               retriable = true /\ fst p = Z.min (2 ^ snd p) 8
           end.
Proof.
  cbv zeta. unfold safe_get.
  destruct (get_session st) as [st1 s] eqn:Hget. simpl.
  assert (Hst1 : sent st1 = sent st /\ slept st1 = slept st).
  { unfold get_session in Hget. destruct (_SESSION st).
    - by injection Hget as <- _.
    - by injection Hget as <- _. }
  destruct Hst1 as [Hsent1 Hslept1].
  set (rq := {| rq_session := s; rq_url := url; rq_params := params;
                rq_timeout := timeout |}).
  unfold range.
  destruct (attempts_run rq retries (Z.to_nat (retries + 1)) 0 None st1
              (range_seq retries))
    as (n & pauses & out & st' & Hrun & _ & _ & _ & Hslept & Hn
        & Hsnd & Hpauses & _).
  rewrite Hsent1 in Hpauses. rewrite Hslept1 in Hslept.
  assert (Hlen : length pauses = pred n).
  { rewrite <- (length_map snd), Hsnd, length_map. apply length_seq. }
  exists st', out, pauses. split; [exact Hrun|]. split; [exact Hslept|].
  split; [lia|].
  intros j p Hp.
  assert (Hj : (j < length pauses)%nat).
  { apply nth_error_Some. by rewrite Hp. }
  destruct (Hpauses j p Hp) as (Hat & err & Herr). simpl in Hat, Herr.
  split; [exact Hat|]. split; [lia|].
  assert (H0j : 0 <= Z.of_nat j) by lia.
  destruct (one_attempt_pause _ _ _ _ H0j Herr) as [Hnonneg Hbound].
  split; [exact Hnonneg|].
  apply one_attempt_retry_inv in Herr. rewrite Hat.
  destruct (sess_get (sent st ++ repeat rq j) rq) as [resp|retriable e];
    [|exact Herr].
  destruct Herr as [H200 Hform]. split; [exact H200|]. split; [exact Hform|].
  intros Hnone. apply Hbound. by intros resp0 [= <-].
Qed.

(** X16.  A Retry-After that [isdigit] accepts and [int] refuses (a
    superscript digit, or more digits than the interpreter allows in an
    integer) ends [safe_get] at once: when the first reply is a 429 or a
    503 with such a header, the ValueError of [int(ra)] leaves the
    function after that one request, without a pause and without the
    retries that were left. *)
Theorem retry_after_not_decimal_escapes (url : string) (timeout : timeout_arg)
    (retries : Z) (params : option (list (string * Z))) (st : net)
    (resp : response) (ra : string) :
  let rq := {| rq_session := snd (get_session st); rq_url := url;
               rq_params := params; rq_timeout := timeout |} in
  0 <= retries ->
  sess_get (sent st) rq = Responds resp ->
  status_code resp = 429 \/ status_code resp = 503 ->
  retry_after resp = Some ra ->
  isdigit ra = true ->
  int_of_digits int_max_str_digits ra = None ->
  exists st',
    safe_get url timeout retries params st = (st', Raised (IntValueError ra))
    /\ sent st' = sent st ++ [rq]
    /\ slept st' = slept st.
Proof.
  cbv zeta. intros Hretries Hreply Hstatus Hra Hdigit Hint. unfold safe_get.
  destruct (get_session st) as [st1 s] eqn:Hget. simpl in Hreply. simpl.
  assert (Hst1 : sent st1 = sent st /\ slept st1 = slept st).
  { unfold get_session in Hget. destruct (_SESSION st).
    - by injection Hget as <- _.
    - by injection Hget as <- _. }
  destruct Hst1 as [Hsent1 Hslept1].
  unfold range.
  replace (Z.to_nat (retries + 1)) with (Datatypes.S (Z.to_nat retries)) by lia.
  cbn [seq map attempts]. rewrite Hsent1, Hreply.
  assert (Hone : one_attempt (Responds resp) (Z.of_nat 0)
                 = Leave (Raised (IntValueError ra))).
  { unfold one_attempt.
    assert (H200 : (status_code resp =? 200) = false).
    { apply Z.eqb_neq. lia. }
    assert (Hbusy : ((status_code resp =? 429) || (status_code resp =? 503))
                    = true).
    { destruct Hstatus as [->| ->]; reflexivity. }
    by rewrite H200, Hbusy, Hra, isdigit_guard, Hdigit, Hint. }
  rewrite Hone. eexists. split; [reflexivity|]. simpl. by rewrite Hslept1.
Qed.

End Safe_get_pauses.

Lemma retry_after_not_decimal_escapes_witness :
  0 <= 2
  /\ isdigit (String (ascii_of_N 178) "") = true
  /\ exists st',
      @safe_get odd_web "http://api/users" (Seconds 20) 2 None new_net
      = (st', Raised (IntValueError (String (ascii_of_N 178) "")))
      /\ slept st' = slept new_net.
Proof.
  split; [lia|]. split; [reflexivity|].
  destruct (@retry_after_not_decimal_escapes odd_web "http://api/users"
              (Seconds 20) 2 None new_net odd_pause
              (String (ascii_of_N 178) ""))
    as (st' & Hrun & _ & Hslept);
    [lia|reflexivity|by left|reflexivity|reflexivity|reflexivity|].
  by exists st'.
Defined.

(** A server that is busy twice: three requests on one session, a
    pause of 1 then of 2 seconds (plus the tenths), and the answer. *)
Example safe_get_sample :
  @safe_get sample_web "http://api/users" (Seconds 20) 2 None new_net
  = ({| _SESSION := Some 0%nat; sessions_made := 1;
        sent := repeat {| rq_session := 0; rq_url := "http://api/users";
                          rq_params := None; rq_timeout := Seconds 20 |} 3;
        slept := [(1, 0); (2, 1)] |},
     Returned fine).
Proof. vm_compute. reflexivity. Qed.

(** With one retry the same server is given up after two requests and
    one pause. *)
Example safe_get_gives_up :
  @safe_get sample_web "http://api/users" (Seconds 20) 1 None new_net
  = ({| _SESSION := Some 0%nat; sessions_made := 1;
        sent := repeat {| rq_session := 0; rq_url := "http://api/users";
                          rq_params := None; rq_timeout := Seconds 20 |} 2;
        slept := [(1, 0)] |},
     Raised (ApiError "http://api/users" (Some (HttpError 503 "busy")))).
Proof. vm_compute. reflexivity. Qed.
